(** * Project analyzer: a shallow embedding of [scanner.py] and
      [analysis_context.py]

    The development follows the two Python modules function by function.

    - Python [str] values are [string]s; a character is a code point
      below 256.  Lengths and counters that only ever grow from zero are
      [nat]; Python [int]s that may be negative ([max_length], the
      complexity score) are [Z].
    - True division [a / b] of two [int]s is the exact quotient in [Q]
      and raises [ZeroDivisionError] on a zero divisor.  (Python rounds
      the quotient to the nearest double; for counts below [2^53] the
      comparison with [0.5], which is a double, gives the same answer on
      the rounded and on the exact quotient.)
    - A Python [dict] that is iterated in insertion order is an
      association list with unique keys, see [dict_set].
    - A file opened as text is a [text_stream]: the reader decodes it
      chunk by chunk, so [f.read(n)] can succeed on a file on which
      [f.read()] raises.
    - What [json.load] returns, and so what the context manager holds
      after loading, is a [json] value of any shape.
    - Exceptions are values of [exn] carried by [result]; the
      orchestrator runs in a small state-and-exception monad whose state
      holds the cancellation flag and the trace of observable events. *)

From Stdlib Require Import Bool Arith ZArith QArith Lia List String Ascii.
From Stdlib Require Import DecimalString.
From Stdlib Require Import Permutation.
Import ListNotations.

#[local] Set Warnings "-register-all".
Local Close Scope Q_scope.
Local Open Scope string_scope.
Local Open Scope list_scope.

(* ================================================================== *)
(** * Python strings *)
(* ================================================================== *)

Module PyStr.

(** [s[:n]] for a non-negative [n]: the first [n] characters, or all of
    [s] when it is shorter. *)
Fixpoint take (n : nat) (s : string) : string :=
  match n, s with
  | S k, String c t => String c (take k t)
  | _, _ => EmptyString
  end.

(** [s[:k]] for any Python [int] [k]: a negative [k] counts from the
    end of [s], and the bound is clamped to [0 .. len(s)]. *)
Definition slice_to (s : string) (k : Z) : string :=
  if (0 <=? k)%Z then take (Z.to_nat k) s
  else take (Z.to_nat (Z.of_nat (String.length s) + k)) s.

(** [s.startswith(p)] *)
Fixpoint startswith (p s : string) : bool :=
  match p, s with
  | EmptyString, _ => true
  | String a p', String b s' => Ascii.eqb a b && startswith p' s'
  | String _ _, EmptyString => false
  end.

(** [needle in hay] *)
Fixpoint contains (needle hay : string) : bool :=
  startswith needle hay
  || match hay with
     | EmptyString => false
     | String _ t => contains needle t
     end.

(** [str.lower] on one character (code points below 256: the ASCII
    capitals, and the Latin-1 capitals 192..222 except the
    multiplication sign 215). *)
Definition lower_char (c : ascii) : ascii :=
  let n := nat_of_ascii c in
  if ((65 <=? n) && (n <=? 90))%nat then ascii_of_nat (n + 32)
  else if ((192 <=? n) && (n <=? 222) && negb (n =? 215))%nat
       then ascii_of_nat (n + 32)
  else c.

Fixpoint lower (s : string) : string :=
  match s with
  | EmptyString => EmptyString
  | String c t => String (lower_char c) (lower t)
  end.

(** [s.split('.')] *)
Fixpoint split_dot (s : string) : list string :=
  match s with
  | EmptyString => [EmptyString]
  | String c t =>
      if Ascii.eqb c "."%char then EmptyString :: split_dot t
      else match split_dot t with
           | h :: r => String c h :: r
           | [] => [String c EmptyString]
           end
  end.

(** [sep.join(l)] *)
Fixpoint join (sep : string) (l : list string) : string :=
  match l with
  | [] => EmptyString
  | [x] => x
  | x :: r => x ++ sep ++ join sep r
  end.

(** [str(n)] for an [int] *)
Definition of_Z (z : Z) : string := NilZero.string_of_int (Z.to_int z).
Definition of_nat (n : nat) : string := of_Z (Z.of_nat n).

(** Line boundaries of [str.splitlines] among code points below 256. *)
Definition is_linebreak (c : ascii) : bool :=
  let n := nat_of_ascii c in
  ((n =? 10) || (n =? 11) || (n =? 12) || (n =? 13)
   || (n =? 28) || (n =? 29) || (n =? 30) || (n =? 133))%nat.

(** [len(s.splitlines())]: [open_line] tells whether characters have
    been read since the last boundary; a carriage return directly
    followed by a line feed is one boundary. *)
Fixpoint count_lines (open_line : bool) (s : string) : nat :=
  match s with
  | EmptyString => if open_line then 1 else 0
  | String c t =>
      if is_linebreak c then
        match t with
        | String d t' =>
            if (Ascii.eqb c "013"%char && Ascii.eqb d "010"%char)%bool
            then S (count_lines false t')
            else S (count_lines false t)
        | EmptyString => 1
        end
      else count_lines true t
  end.

Definition splitlines_len (s : string) : nat := count_lines false s.

End PyStr.

(* ================================================================== *)
(** * Exceptions and dictionaries *)
(* ================================================================== *)

(** The exceptions the analyzer and the context manager can meet; each
    carries [str(e)]. *)
Inductive exn : Type :=
| OSError (msg : string)
| UnicodeDecodeError (msg : string)
| SyntaxError (msg : string)
| ZeroDivisionError (msg : string)
| AttributeError (msg : string)
| TypeError (msg : string)
| KeyError (msg : string).

Definition str_of_exn (e : exn) : string :=
  match e with
  | OSError m | UnicodeDecodeError m | SyntaxError m
  | ZeroDivisionError m | AttributeError m | TypeError m | KeyError m => m
  end.

Inductive result (A : Type) : Type :=
| Ok (a : A)
| Raise (e : exn).
Arguments Ok {A} a.
Arguments Raise {A} e.

Definition rbind {A B : Type} (m : result A) (k : A -> result B) : result B :=
  match m with
  | Ok a => k a
  | Raise e => Raise e
  end.

Declare Scope result_scope.
Delimit Scope result_scope with result.
Notation "x <- m ;; k" := (rbind m (fun x => k))
  (at level 61, m at next level, right associativity) : result_scope.

(** [a / b] on two [int]s. *)
Definition truediv (a b : Z) : result Q :=
  match b with
  | Z0 => Raise (ZeroDivisionError "division by zero")
  | Zpos p => Ok (a # p)%Q
  | Zneg p => Ok ((- a)%Z # p)%Q
  end.

(** A [dict] with [str] keys, in insertion order. *)
Definition dict (V : Type) : Type := list (string * V).

(** [d[k] = v]: an existing key keeps its position and gets the new
    value, a new key goes last. *)
Fixpoint dict_set {V : Type} (d : dict V) (k : string) (v : V) : dict V :=
  match d with
  | [] => [(k, v)]
  | (k', v') :: r =>
      if String.eqb k' k then (k', v) :: r else (k', v') :: dict_set r k v
  end.

(** [d.get(k, default)] *)
Fixpoint dict_get {V : Type} (d : dict V) (k : string) (default : V) : V :=
  match d with
  | [] => default
  | (k', v') :: r => if String.eqb k' k then v' else dict_get r k default
  end.

Definition keys {V : Type} (d : dict V) : list string := map fst d.

(* ================================================================== *)
(** * Syntax trees and [ast.walk] *)
(* ================================================================== *)

Module Ast.

Inductive boolop : Type := And | Or.

(** The node classes the analyzer tells apart, each with the fields it
    reads and with its child nodes; every other class ([Return],
    [Expr], [Call], [With], [ExceptHandler], [arguments], ...) is
    [Other] with its children.

    - [FunctionDef]: [args] are the names of [node.args.args],
      [arguments] the children of the [arguments] node, [docstring]
      the value of [ast.get_docstring(node)], and [decorator_list]
      the children that follow the body.
    - [ClassDef]: [docstring] as for functions.
    - [Import], [ImportFrom]: [names] are the [alias.name] of the
      aliases. *)
Inductive node : Type :=
| Module (body : list node)
| FunctionDef (name : string) (lineno : nat) (args : list string)
    (arguments body decorator_list : list node) (docstring : option string)
| ClassDef (name : string) (lineno : nat)
    (bases keywords body decorator_list : list node)
    (docstring : option string)
| If (test : node) (body orelse : list node)
| For (target iter : node) (body orelse : list node)
| While (test : node) (body orelse : list node)
| Try (body handlers orelse finalbody : list node)
| BoolOp (op : boolop) (values : list node)
| Import (names : list string)
| ImportFrom (module : option string) (names : list string) (level : nat)
| Name (id : string)
| Other (children : list node).

(** A node without fields of interest and without children: an
    operator, an alias, a context marker. *)
Definition leaf : node := Other [].

(** [ast.iter_child_nodes(n)], in field order. *)
Definition iter_child_nodes (n : node) : list node :=
  match n with
  | Module body => body
  | FunctionDef _ _ _ arguments body decorator_list _ =>
      Other arguments :: body ++ decorator_list
  | ClassDef _ _ bases keywords body decorator_list _ =>
      bases ++ keywords ++ body ++ decorator_list
  | If test body orelse => test :: body ++ orelse
  | For target iter body orelse => target :: iter :: body ++ orelse
  | While test body orelse => test :: body ++ orelse
  | Try body handlers orelse finalbody =>
      body ++ handlers ++ orelse ++ finalbody
  | BoolOp _ values => leaf :: values
  | Import names => map (fun _ => leaf) names
  | ImportFrom _ names _ => map (fun _ => leaf) names
  | Name _ => [leaf]
  | Other children => children
  end.

(** Number of nodes [ast.walk] yields from [n]. *)
Fixpoint size (n : node) : nat :=
  let sizes := fun l => list_sum (map size l) in
  match n with
  | Module body => S (sizes body)
  | FunctionDef _ _ _ arguments body decorator_list _ =>
      S (S (sizes arguments) + (sizes body + sizes decorator_list))
  | ClassDef _ _ bases keywords body decorator_list _ =>
      S (sizes bases + (sizes keywords + (sizes body + sizes decorator_list)))
  | If test body orelse => S (size test + (sizes body + sizes orelse))
  | For target iter body orelse =>
      S (size target + (size iter + (sizes body + sizes orelse)))
  | While test body orelse => S (size test + (sizes body + sizes orelse))
  | Try body handlers orelse finalbody =>
      S (sizes body + (sizes handlers + (sizes orelse + sizes finalbody)))
  | BoolOp _ values => S (1 + sizes values)
  | Import names => S (List.length names)
  | ImportFrom _ names _ => S (List.length names)
  | Name _ => 2
  | Other children => S (sizes children)
  end.

Definition sizes (l : list node) : nat := list_sum (map size l).

(** The loop of [ast.walk]: pop the queue's head, push its children at
    the back, yield it.  [fuel] bounds the number of iterations;
    [sizes todo] iterations empty the queue ([walk_queue_fuel]). *)
Fixpoint walk_queue (fuel : nat) (todo : list node) : list node :=
  match fuel, todo with
  | S k, n :: rest => n :: walk_queue k (rest ++ iter_child_nodes n)
  | _, _ => []
  end.

(** [ast.walk(n)] *)
Definition walk (n : node) : list node := walk_queue (size n) [n].

End Ast.

(* ================================================================== *)
(** * [scanner.py]: records *)
(* ================================================================== *)

Definition nl : string := String "010"%char EmptyString.

(** An entry of [analysis['classes']]. *)
Record class_info : Type := {
  cls_name : string;
  cls_line : nat;
  cls_methods : list string;
  cls_bases : list string
}.

(** An entry of [analysis['functions']]. *)
Record function_info : Type := {
  fn_name : string;
  fn_line : nat;
  fn_args : list string;
  fn_complexity : Z
}.

(** The dictionary of [_check_docstrings], keys ['functions'],
    ['classes'], ['total_functions'], ['total_classes']. *)
Record docstring_stats : Type := {
  ds_functions : nat;
  ds_classes : nat;
  ds_total_functions : nat;
  ds_total_classes : nat
}.

(** The dictionary [analysis] of [_analyze_python_file]. *)
Record analysis : Type := {
  classes : list class_info;
  functions : list function_info;
  imports : list string;
  line_count : nat;
  content_preview : string;
  complexity : Z;
  docstrings : docstring_stats;
  unused_imports : list string
}.

(** What [_analyze_file] adds to the three keys every record has: the
    keys of [analysis], or the single key ['error'], or the single key
    ['content_preview']. *)
Inductive details : Type :=
| Analysis (a : analysis)
| ErrorOnly (error : string)
| PreviewOnly (preview : string).

(** The dictionary [info] of [_analyze_file]. *)
Record info : Type := {
  info_size : nat;
  info_extension : string;
  info_type : string;
  info_rest : details
}.

(** [info.get(key, default)] for the keys the later stages read. *)
Definition get_line_count (i : info) : option nat :=
  match info_rest i with
  | Analysis a => Some (line_count a)
  | _ => None
  end.

Definition get_complexity (i : info) (default : Z) : Z :=
  match info_rest i with
  | Analysis a => complexity a
  | _ => default
  end.

Definition get_docstrings (i : info) : option docstring_stats :=
  match info_rest i with
  | Analysis a => Some (docstrings a)
  | _ => None
  end.

Definition get_unused_imports (i : info) : list string :=
  match info_rest i with
  | Analysis a => unused_imports a
  | _ => []
  end.

Definition get_content_preview (i : info) (default : string) : string :=
  match info_rest i with
  | Analysis a => content_preview a
  | PreviewOnly p => p
  | ErrorOnly _ => default
  end.

Definition get_classes (i : info) : option (list class_info) :=
  match info_rest i with
  | Analysis a => Some (classes a)
  | _ => None
  end.

Definition get_functions (i : info) : option (list function_info) :=
  match info_rest i with
  | Analysis a => Some (functions a)
  | _ => None
  end.

(** The dictionary [architecture] of [_analyze_architecture]. *)
Record architecture : Type := {
  languages : dict nat;
  main_modules : list string;
  utils_modules : list string;
  test_files : list string;
  config_files : list string;
  total_files : nat;
  total_lines : nat;
  avg_file_size : Q
}.

(** The dictionary [issues] of [_detect_issues]. *)
Record issues : Type := {
  high_complexity_files : list string;
  missing_docstrings : list string;
  issue_unused_imports : list string;
  large_files : list string;
  potential_bugs : list string
}.

(** The dictionary [suggestions] of [_generate_suggestions]. *)
Record suggestions : Type := {
  sugg_architecture : list string;
  sugg_code_quality : list string;
  sugg_performance : list string;
  sugg_maintainability : list string
}.

(** The dictionary of [_create_summary]. *)
Record summary : Type := {
  sum_total_files : nat;
  sum_total_lines : nat;
  sum_languages : dict nat;
  sum_issues_count : nat;
  sum_main_modules : nat;
  sum_test_coverage : Q
}.

(** The dictionary [analyze_project] returns. *)
Record bundle : Type := {
  file_analysis : dict info;
  bundle_architecture : architecture;
  bundle_issues : issues;
  bundle_suggestions : suggestions;
  file_feedback : dict string;
  bundle_summary : summary
}.

(** The text of a file opened with [open(file_path, 'r',
    encoding='utf-8')].  The reader decodes the file chunk by chunk:
    [readable] is the text of the chunks that decode before the file
    ends or before a chunk fails, and [failure] is [None] when the file
    ends after them and otherwise the exception that [f.read()] raises. *)
Record text_stream : Type := {
  readable : string;
  failure : option exn
}.

(** A file as [_get_files] lists it and as the file system answers for
    it: [stat] is the outcome of [file_path.stat().st_size], [opened]
    the outcome of opening the file for reading. *)
Record file : Type := {
  name : string;
  rel_path : string;
  suffix : string;
  stat : result nat;
  opened : result text_stream
}.

(** A file that opens and decodes to [text]. *)
Definition text_of (text : string) : result text_stream :=
  Ok {| readable := text; failure := None |}.

(** [f.read()]: the whole text, or the exception of the chunk that
    fails. *)
Definition read_all (st : text_stream) : result string :=
  match failure st with
  | None => Ok (readable st)
  | Some e => Raise e
  end.

(** [f.read(n)] on the file just opened, [None] when it raises: chunks
    are decoded until [n] characters are there or the file ends, so a
    chunk that fails is met only when the chunks before it hold fewer
    than [n] characters. *)
Definition read_chars (st : text_stream) (n : nat) : option string :=
  if (n <=? String.length (readable st))%nat
  then Some (PyStr.take n (readable st))
  else match failure st with
       | None => Some (readable st)
       | Some _ => None
       end.

(** [with open(file_path, 'r', encoding='utf-8') as f: content =
    f.read()] *)
Definition contents (f : file) : result string :=
  rbind (opened f) read_all.

(** What a run can be observed to do: a call of the progress callback,
    and a call of [cancel_event.is_set()] with its answer. *)
Inductive event : Type :=
| Progress (msg : string)
| IsSet (answer : bool).

(** The orchestrator's state: the cancellation flag, how many times it
    has been polled, and the events so far. *)
Record state : Type := {
  flag : bool;
  polls : nat;
  trace : list event
}.

Definition run (A : Type) : Type := state -> state * result A.

Definition ret {A : Type} (a : A) : run A := fun s => (s, Ok a).

Definition bind {A B : Type} (m : run A) (k : A -> run B) : run B :=
  fun s =>
    match m s with
    | (s', Ok a) => k a s'
    | (s', Raise e) => (s', Raise e)
    end.

Definition lift {A : Type} (r : result A) : run A := fun s => (s, r).

Declare Scope run_scope.
Delimit Scope run_scope with run.
Notation "x <- m ;; k" := (bind m (fun x => k))
  (at level 61, m at next level, right associativity) : run_scope.
Notation "m ;;; k" := (bind m (fun _ => k))
  (at level 61, right associativity) : run_scope.

(** A directory as [os.walk] reads it: its name, the names of the files
    in it and its subdirectories, each in the order of the listing. *)
Inductive dir_tree : Type :=
| Dir (dir_name : string) (filenames : list string) (dirs : list dir_tree).

Definition name_of_dir (d : dir_tree) : string :=
  match d with
  | Dir dir_name _ _ => dir_name
  end.

(** [d not in self.exclude_dirs] fails *)
Definition excluded (exclude_dirs : list string) (d : string) : bool :=
  existsb (String.eqb d) exclude_dirs.

(** The loop of [_get_files] over [os.walk(root)], top down: the files
    of a directory first, then its subdirectories in order, without
    those whose name is excluded.  A path is the list of the names from
    the root (not included) to the file. *)
Fixpoint walk_files (exclude_dirs : list string) (root : list string)
  (d : dir_tree) : list (list string) :=
  match d with
  | Dir _ filenames dirs =>
      map (fun filename => root ++ [filename]) filenames
      ++ flat_map
           (fun sub =>
              if excluded exclude_dirs (name_of_dir sub) then []
              else walk_files exclude_dirs (root ++ [name_of_dir sub]) sub)
           dirs
  end.

(** [x < y] on quotients, as a test. *)
Definition Qltb (x y : Q) : bool := negb (Qle_bool y x).

(** Monadic left fold: a [for] loop whose body can raise. *)
Fixpoint foldM {A B : Type} (f : A -> B -> result A) (l : list B) (a : A)
  : result A :=
  match l with
  | [] => Ok a
  | b :: r => rbind (f a b) (foldM f r)
  end.

(* ================================================================== *)
(** * [scanner.py]: class [ProjectAnalyzer] *)
(* ================================================================== *)

Module ProjectAnalyzer.
Section Analyzer.

(** The run-time services the module calls.
    - [parse content] is [ast.parse(content, filename=...)].
    - [object_str base] is [str(base)] for a node without an [id]
      attribute (the default representation of an object).
    - [format_percent r] is [format(r, '.1%')]. *)
Variable parse : string -> result Ast.node.
Variable object_str : Ast.node -> string.
Variable format_percent : Q -> string.

(** Whether a progress callback was passed, and the cancel requests of
    the environment: [cancel_requests k] tells whether [cancel_scan()]
    has been called between poll [k - 1] (or [clear()], for [k = 0])
    and poll [k] of the flag. *)
Variable progress_callback : bool.
Variable cancel_requests : nat -> bool.

Definition type_map : dict string :=
  [ (".py", "Python"); (".json", "JSON"); (".txt", "Text");
    (".md", "Markdown"); (".html", "HTML"); (".css", "CSS");
    (".js", "JavaScript"); (".ts", "TypeScript"); (".cpp", "C++");
    (".c", "C"); (".java", "Java") ].

Definition _get_file_type (f : file) : string :=
  let ext := PyStr.lower (suffix f) in
  dict_get type_map ext "Unknown".

Definition is_branch (n : Ast.node) : bool :=
  match n with
  | Ast.If _ _ _ | Ast.For _ _ _ _ | Ast.While _ _ _ | Ast.Try _ _ _ _ => true
  | _ => false
  end.

Definition _calculate_complexity (tree : Ast.node) : Z :=
  fold_left
    (fun complexity n =>
       if is_branch n then (complexity + 1)%Z
       else match n with
            | Ast.BoolOp Ast.And values =>
                (complexity + (Z.of_nat (List.length values) - 1))%Z
            | _ => complexity
            end)
    (Ast.walk tree) 1%Z.

Definition _calculate_function_complexity (func_node : Ast.node) : Z :=
  fold_left
    (fun complexity n =>
       if is_branch n then (complexity + 1)%Z else complexity)
    (Ast.walk func_node) 1%Z.

(** [if ast.get_docstring(node)]: present and not empty. *)
Definition has_docstring (d : option string) : bool :=
  match d with
  | Some (String _ _) => true
  | _ => false
  end.

Definition _check_docstrings (tree : Ast.node) : docstring_stats :=
  fold_left
    (fun ds n =>
       match n with
       | Ast.FunctionDef _ _ _ _ _ _ d =>
           {| ds_functions :=
                if has_docstring d then S (ds_functions ds)
                else ds_functions ds;
              ds_classes := ds_classes ds;
              ds_total_functions := S (ds_total_functions ds);
              ds_total_classes := ds_total_classes ds |}
       | Ast.ClassDef _ _ _ _ _ _ d =>
           {| ds_functions := ds_functions ds;
              ds_classes :=
                if has_docstring d then S (ds_classes ds)
                else ds_classes ds;
              ds_total_functions := ds_total_functions ds;
              ds_total_classes := S (ds_total_classes ds) |}
       | _ => ds
       end)
    (Ast.walk tree)
    {| ds_functions := 0; ds_classes := 0;
       ds_total_functions := 0; ds_total_classes := 0 |}.

(** The identifiers one import statement adds to [imports]. *)
Definition import_names (n : Ast.node) : list string :=
  match n with
  | Ast.Import names => names
  | Ast.ImportFrom module names _ =>
      let module := match module with Some m => m | None => EmptyString end in
      map (fun alias_name =>
             match module with
             | EmptyString => alias_name
             | _ => (module ++ "." ++ alias_name)%string
             end) names
  | _ => []
  end.

(** [imp.split('.')[-1]] *)
Definition base_name (imp : string) : string :=
  last (PyStr.split_dot imp) EmptyString.

Definition _detect_unused_imports (content : string) (tree : Ast.node)
  : list string :=
  let imports := flat_map import_names (Ast.walk tree) in
  filter (fun imp => negb (PyStr.contains (base_name imp) content)) imports.

Definition _get_content_preview (f : file) (max_chars : nat) : string :=
  match opened f with
  | Ok st =>
      match read_chars st max_chars with
      | Some content =>
          if (String.length content =? max_chars)%nat
          then (content ++ "...")%string
          else content
      | None => "[Binary or unreadable file]"
      end
  | Raise _ => "[Binary or unreadable file]"
  end.

Definition method_names (body : list Ast.node) : list string :=
  flat_map (fun n => match n with
                     | Ast.FunctionDef name _ _ _ _ _ _ => [name]
                     | _ => []
                     end) body.

Definition base_text (base : Ast.node) : string :=
  match base with
  | Ast.Name id => id
  | _ => object_str base
  end.

(** One round of the loop over [ast.walk(tree)] that fills
    [analysis['classes']], [analysis['functions']] and
    [analysis['imports']]. *)
Definition collect
  (acc : list class_info * list function_info * list string)
  (n : Ast.node) : list class_info * list function_info * list string :=
  let '(cs, fs, imps) := acc in
  match n with
  | Ast.ClassDef name lineno bases _ body _ _ =>
      (cs ++ [ {| cls_name := name; cls_line := lineno;
                  cls_methods := method_names body;
                  cls_bases := map base_text bases |} ], fs, imps)
  | Ast.FunctionDef name lineno args _ _ _ _ =>
      (cs, fs ++ [ {| fn_name := name; fn_line := lineno; fn_args := args;
                      fn_complexity := _calculate_function_complexity n |} ],
       imps)
  | Ast.Import _ | Ast.ImportFrom _ _ _ => (cs, fs, imps ++ import_names n)
  | _ => acc
  end.

(** The body of the [try] block of [_analyze_python_file]. *)
Definition analyze_source (f : file) : result analysis :=
  (content <- contents f ;;
   tree <- parse content ;;
   let '(cs, fs, imps) := fold_left collect (Ast.walk tree) ([], [], []) in
   Ok {| classes := cs;
         functions := fs;
         imports := imps;
         line_count := PyStr.splitlines_len content;
         content_preview :=
           if (500 <? String.length content)%nat
           then (PyStr.take 500 content ++ "...")%string else content;
         complexity := _calculate_complexity tree;
         docstrings := _check_docstrings tree;
         unused_imports := _detect_unused_imports content tree |})%result.

Definition _analyze_python_file (f : file) : details :=
  match analyze_source f with
  | Ok a => Analysis a
  | Raise e => ErrorOnly (str_of_exn e)
  end.

Definition _analyze_file (f : file) : result info :=
  (size <- stat f ;;
   Ok {| info_size := size;
         info_extension := suffix f;
         info_type := _get_file_type f;
         info_rest :=
           if String.eqb (suffix f) ".py" then _analyze_python_file f
           else PreviewOnly (_get_content_preview f 200) |})%result.

(** [kw in file_path.lower()] *)
Definition path_has (kw file_path : string) : bool :=
  PyStr.contains kw (PyStr.lower file_path).

(** One round of the loop of [_analyze_architecture]; the second
    component is the local [total_size]. *)
Definition architecture_step (acc : architecture * nat)
  (item : string * info) : architecture * nat :=
  let '(a, total_size) := acc in
  let '(file_path, inf) := item in
  let lang := info_type inf in
  let langs :=
    dict_set (languages a) lang (dict_get (languages a) lang 0 + 1) in
  let lines :=
    match get_line_count inf with
    | Some n => total_lines a + n
    | None => total_lines a
    end in
  let mk main utils tests configs :=
    {| languages := langs; main_modules := main; utils_modules := utils;
       test_files := tests; config_files := configs;
       total_files := total_files a; total_lines := lines;
       avg_file_size := avg_file_size a |} in
  let a' :=
    if path_has "main" file_path || path_has "app" file_path then
      mk (main_modules a ++ [file_path]) (utils_modules a) (test_files a)
         (config_files a)
    else if path_has "util" file_path || path_has "helper" file_path then
      mk (main_modules a) (utils_modules a ++ [file_path]) (test_files a)
         (config_files a)
    else if path_has "test" file_path || path_has "spec" file_path then
      mk (main_modules a) (utils_modules a) (test_files a ++ [file_path])
         (config_files a)
    else if path_has "config" file_path || path_has "settings" file_path then
      mk (main_modules a) (utils_modules a) (test_files a)
         (config_files a ++ [file_path])
    else
      mk (main_modules a) (utils_modules a) (test_files a) (config_files a)
  in
  (a', total_size + info_size inf).

Definition architecture_init (file_analysis : dict info) : architecture :=
  {| languages := []; main_modules := []; utils_modules := [];
     test_files := []; config_files := [];
     total_files := List.length file_analysis; total_lines := 0;
     avg_file_size := 0%Q |}.

Definition _analyze_architecture (file_analysis : dict info)
  : result architecture :=
  let '(a, total_size) :=
    fold_left architecture_step file_analysis
      (architecture_init file_analysis, 0) in
  if (0 <? total_files a)%nat then
    (avg <- truediv (Z.of_nat total_size) (Z.of_nat (total_files a)) ;;
     Ok {| languages := languages a; main_modules := main_modules a;
           utils_modules := utils_modules a; test_files := test_files a;
           config_files := config_files a; total_files := total_files a;
           total_lines := total_lines a; avg_file_size := avg |})%result
  else Ok a.

Definition issues_init : issues :=
  {| high_complexity_files := []; missing_docstrings := [];
     issue_unused_imports := []; large_files := []; potential_bugs := [] |}.

Definition add_high_complexity (s : string) (i : issues) : issues :=
  {| high_complexity_files := high_complexity_files i ++ [s];
     missing_docstrings := missing_docstrings i;
     issue_unused_imports := issue_unused_imports i;
     large_files := large_files i; potential_bugs := potential_bugs i |}.

Definition add_missing_docstrings (s : string) (i : issues) : issues :=
  {| high_complexity_files := high_complexity_files i;
     missing_docstrings := missing_docstrings i ++ [s];
     issue_unused_imports := issue_unused_imports i;
     large_files := large_files i; potential_bugs := potential_bugs i |}.

Definition add_unused_imports (s : string) (i : issues) : issues :=
  {| high_complexity_files := high_complexity_files i;
     missing_docstrings := missing_docstrings i;
     issue_unused_imports := issue_unused_imports i ++ [s];
     large_files := large_files i; potential_bugs := potential_bugs i |}.

Definition add_large_file (s : string) (i : issues) : issues :=
  {| high_complexity_files := high_complexity_files i;
     missing_docstrings := missing_docstrings i;
     issue_unused_imports := issue_unused_imports i;
     large_files := large_files i ++ [s];
     potential_bugs := potential_bugs i |}.

Definition add_potential_bug (s : string) (i : issues) : issues :=
  {| high_complexity_files := high_complexity_files i;
     missing_docstrings := missing_docstrings i;
     issue_unused_imports := issue_unused_imports i;
     large_files := large_files i;
     potential_bugs := potential_bugs i ++ [s] |}.

(** The docstring rule of [_detect_issues]. *)
Definition docstring_rule (file_path : string) (inf : info) (i : issues)
  : result issues :=
  match get_docstrings inf with
  | Some ds =>
      if (0 <? ds_total_functions ds)%nat then
        (docstring_ratio <-
           truediv (Z.of_nat (ds_functions ds))
                   (Z.of_nat (ds_total_functions ds)) ;;
         if Qltb docstring_ratio (1 # 2)%Q then
           Ok (add_missing_docstrings
                 (file_path ++ " (" ++ format_percent docstring_ratio
                  ++ " functions documented)")%string i)
         else Ok i)%result
      else Ok i
  | None => Ok i
  end.

(** One round of the loop of [_detect_issues]. *)
Definition issues_step (acc : issues) (item : string * info)
  : result issues :=
  let '(file_path, inf) := item in
  if negb (String.eqb (info_type inf) "Python") then Ok acc
  else
    let i1 :=
      if (10 <? get_complexity inf 0)%Z then
        add_high_complexity
          (file_path ++ " (complexity: "
           ++ PyStr.of_Z (get_complexity inf 0) ++ ")")%string acc
      else acc in
    (i2 <- docstring_rule file_path inf i1 ;;
     let unused := get_unused_imports inf in
     let i3 :=
       match unused with
       | [] => i2
       | _ :: _ =>
           add_unused_imports
             (file_path ++ ": " ++ PyStr.join ", " (firstn 3 unused)
              ++ (if (3 <? List.length unused)%nat then "..."
                  else EmptyString))%string
             i2
       end in
     let i4 :=
       match get_line_count inf with
       | Some n =>
           if (500 <? n)%nat then
             add_large_file
               (file_path ++ " (" ++ PyStr.of_nat n ++ " lines)")%string i3
           else i3
       | None => i3
       end in
     let content := get_content_preview inf EmptyString in
     if PyStr.contains "TODO" content || PyStr.contains "FIXME" content
        || PyStr.contains "XXX" content
     then Ok (add_potential_bug
                (file_path ++ " contains TODO/FIXME comments")%string i4)
     else Ok i4)%result.

Definition _detect_issues (file_analysis : dict info) : result issues :=
  foldM issues_step file_analysis issues_init.

Definition _generate_suggestions (a : architecture) (i : issues)
  : suggestions :=
  {| sugg_architecture :=
       (match main_modules a with
        | [] => ["Consider creating a main entry point file (main.py, app.py, etc.)"]
        | _ => []
        end)
       ++ (match test_files a with
           | [] => ["Add unit tests to improve code reliability"]
           | _ => []
           end);
     sugg_code_quality :=
       (match high_complexity_files i with
        | [] => []
        | _ => ["Refactor high-complexity functions into smaller, more focused functions"]
        end)
       ++ (match missing_docstrings i with
           | [] => []
           | _ => ["Add docstrings to all public functions and classes"]
           end)
       ++ (match issue_unused_imports i with
           | [] => []
           | _ => ["Remove unused imports to clean up the codebase"]
           end);
     sugg_performance :=
       if Qltb (100000 # 1)%Q (avg_file_size a)
       then ["Consider breaking large files into smaller modules"]
       else [];
     sugg_maintainability :=
       if (50 <? total_files a)%nat
       then ["Consider organizing code into packages/submodules"]
       else [] |}.

(** The marker that opens a warning line of the feedback, written as
    the bytes of the source literal's UTF-8 encoding (one of its
    characters lies outside the modelled range). *)
Definition warning_sign : string :=
  String "195" (String "162" (String "197" (String "161" (String "194"
  (String "160" (String "195" (String "175" (String "194" (String "184"
  EmptyString))))))))).

(** The text [_generate_file_feedback] builds for one file. *)
Definition feedback_text (file_path : string) (inf : info) : result string :=
  let head :=
    ("**" ++ file_path ++ "**" ++ nl
     ++ "- Type: " ++ info_type inf ++ nl
     ++ "- Size: " ++ PyStr.of_nat (info_size inf) ++ " bytes" ++ nl)%string in
  if String.eqb (info_type inf) "Python" then
    let lines :=
      match get_line_count inf with
      | Some n => ("- Lines of code: " ++ PyStr.of_nat n ++ nl)%string
      | None => EmptyString
      end in
    let cls :=
      match get_classes inf with
      | Some (c :: r) =>
          ("- Classes: " ++ PyStr.of_nat (List.length (c :: r)) ++ nl)%string
      | _ => EmptyString
      end in
    let fns :=
      match get_functions inf with
      | Some (c :: r) =>
          ("- Functions: " ++ PyStr.of_nat (List.length (c :: r)) ++ nl)%string
      | _ => EmptyString
      end in
    let cplx :=
      if (10 <? get_complexity inf 0)%Z
      then ("- " ++ warning_sign ++ "  High complexity - consider refactoring"
            ++ nl)%string
      else EmptyString in
    (docs <-
       match get_docstrings inf with
       | Some ds =>
           if (0 <? ds_total_functions ds)%nat then
             ratio <- truediv (Z.of_nat (ds_functions ds))
                              (Z.of_nat (ds_total_functions ds)) ;;
             Ok (if Qltb ratio (1 # 2)%Q
                 then ("- " ++ warning_sign ++ "  Low docstring coverage ("
                       ++ format_percent ratio ++ ")" ++ nl)%string
                 else EmptyString)
           else Ok EmptyString
       | None => Ok EmptyString
       end ;;
     let unused :=
       match get_unused_imports inf with
       | [] => EmptyString
       | u :: r =>
           ("- " ++ warning_sign ++ "  Potential unused imports: "
            ++ PyStr.of_nat (List.length (u :: r)) ++ nl)%string
       end in
     Ok (head ++ lines ++ cls ++ fns ++ cplx ++ docs ++ unused)%string)%result
  else Ok head.

Definition _generate_file_feedback (file_analysis : dict info)
  : result (dict string) :=
  foldM (fun feedback '(file_path, inf) =>
           (text <- feedback_text file_path inf ;;
            Ok (dict_set feedback file_path text))%result)
        file_analysis [].

Definition _create_summary (a : architecture) (i : issues) : result summary :=
  (coverage <- truediv (Z.of_nat (List.length (test_files a)))
                       (Z.of_nat (Nat.max 1 (total_files a))) ;;
   Ok {| sum_total_files := total_files a;
         sum_total_lines := total_lines a;
         sum_languages := languages a;
         sum_issues_count :=
           List.length (high_complexity_files i)
           + List.length (missing_docstrings i)
           + List.length (issue_unused_imports i)
           + List.length (large_files i)
           + List.length (potential_bugs i);
         sum_main_modules := List.length (main_modules a);
         sum_test_coverage := coverage |})%result.

(** [self.cancel_event.clear()] *)
Definition clear : run unit :=
  fun s => ({| flag := false; polls := polls s; trace := trace s |}, Ok tt).

(** [self.cancel_event.is_set()]: a request that arrived since the last
    poll sets the flag, which then stays set. *)
Definition is_set : run bool :=
  fun s =>
    let b := flag s || cancel_requests (polls s) in
    ({| flag := b; polls := S (polls s); trace := trace s ++ [IsSet b] |},
     Ok b).

(** [if self.progress_callback: self.progress_callback(msg)] *)
Definition notify (msg : string) : run unit :=
  fun s =>
    if progress_callback
    then ({| flag := flag s; polls := polls s;
             trace := trace s ++ [Progress msg] |}, Ok tt)
    else (s, Ok tt).

(** The loop over [enumerate(files)], from index [i] on; [total] is
    [len(files)]. *)
Fixpoint file_loop (total i : nat) (files : list file)
  (file_analysis : dict info) : run (dict info) :=
  match files with
  | [] => ret file_analysis
  | file_path :: rest =>
      (cancelled <- is_set ;;
       if cancelled then ret file_analysis
       else
         notify ("Analyzing " ++ name file_path ++ "... ("
                 ++ PyStr.of_nat (i + 1) ++ "/" ++ PyStr.of_nat total ++ ")")
         ;;; inf <- lift (_analyze_file file_path) ;;
         file_loop total (S i) rest
           (dict_set file_analysis (rel_path file_path) inf))%run
  end.

(** [analyze_project], on the files [_get_files] returns. *)
Definition analyze_project (files : list file) : run bundle :=
  (clear ;;;
   notify "Starting project analysis..." ;;;
   fa <- file_loop (List.length files) 0 files [] ;;
   notify "Analyzing project architecture..." ;;;
   arch <- lift (_analyze_architecture fa) ;;
   notify "Detecting potential issues..." ;;;
   iss <- lift (_detect_issues fa) ;;
   notify "Generating improvement suggestions..." ;;;
   let sugg := _generate_suggestions arch iss in
   notify "Creating file-specific feedback..." ;;;
   feedback <- lift (_generate_file_feedback fa) ;;
   (if progress_callback then
      cancelled <- is_set ;;
      if cancelled then notify "Analysis cancelled"
      else notify "Analysis completed"
    else ret tt) ;;;
   summ <- lift (_create_summary arch iss) ;;
   ret {| file_analysis := fa;
          bundle_architecture := arch;
          bundle_issues := iss;
          bundle_suggestions := sugg;
          file_feedback := feedback;
          bundle_summary := summ |})%run.

Definition exclude_dirs : list string :=
  [".git"; "__pycache__"; ".venv"; "node_modules"; ".idea"; "build"; "dist";
   "__pycache__"].

Definition _get_files (root : dir_tree) : list (list string) :=
  walk_files exclude_dirs [] root.

End Analyzer.
End ProjectAnalyzer.

(** The state in which a run starts. *)
Definition initial_state : state :=
  {| flag := false; polls := 0; trace := [] |}.

(* ================================================================== *)
(** * [scanner.py]: class [ProjectScanner] *)
(* ================================================================== *)

Module ProjectScanner.

Definition _get_content_preview (f : file) (max_chars : nat) : string :=
  match opened f with
  | Ok st =>
      match read_chars st max_chars with
      | Some content =>
          if (String.length content =? max_chars)%nat
          then (content ++ "...")%string
          else content
      | None => "[Binary or unreadable file]"
      end
  | Raise _ => "[Binary or unreadable file]"
  end.

(** An entry of [analysis['classes']] of the scanner. *)
Record scan_class : Type := {
  sc_name : string;
  sc_line : nat;
  sc_methods : list string
}.

(** An entry of [analysis['functions']] of the scanner. *)
Record scan_function : Type := {
  sf_name : string;
  sf_line : nat;
  sf_args : list string
}.

(** The dictionary [analysis] of the scanner's [_analyze_python_file]. *)
Record scan_analysis : Type := {
  scan_classes : list scan_class;
  scan_functions : list scan_function;
  scan_imports : list string;
  scan_line_count : nat;
  scan_content_preview : string
}.

Inductive scan_details : Type :=
| ScanAnalysis (a : scan_analysis)
| ScanError (error : string)
| ScanPreview (preview : string).

(** The dictionary [info] of the scanner's [_analyze_file]. *)
Record scan_info : Type := {
  scan_size : nat;
  scan_extension : string;
  scan_type : string;
  scan_rest : scan_details
}.

Definition exclude_dirs : list string :=
  [".git"; "__pycache__"; ".venv"; "node_modules"; ".idea"; "build"; "dist"].

Definition _get_files (root : dir_tree) : list (list string) :=
  walk_files exclude_dirs [] root.

Definition type_map : dict string :=
  [ (".py", "Python"); (".json", "JSON"); (".txt", "Text");
    (".md", "Markdown"); (".html", "HTML"); (".css", "CSS");
    (".js", "JavaScript"); (".ts", "TypeScript"); (".cpp", "C++");
    (".c", "C"); (".java", "Java") ].

Definition _get_file_type (f : file) : string :=
  let ext := PyStr.lower (suffix f) in
  dict_get type_map ext "Unknown".

Section Scanner.

(** [parse], [progress_callback] and [cancel_requests] are as for
    [ProjectAnalyzer]; the event and the callback are polled and called
    through the same operations. *)
Variable parse : string -> result Ast.node.
Variable progress_callback : bool.
Variable cancel_requests : nat -> bool.

(** One round of the loop over [ast.walk(tree)]. *)
Definition collect
  (acc : list scan_class * list scan_function * list string)
  (n : Ast.node) : list scan_class * list scan_function * list string :=
  let '(cs, fs, imps) := acc in
  match n with
  | Ast.ClassDef name lineno _ _ body _ _ =>
      (cs ++ [ {| sc_name := name; sc_line := lineno;
                  sc_methods := ProjectAnalyzer.method_names body |} ],
       fs, imps)
  | Ast.FunctionDef name lineno args _ _ _ _ =>
      (cs, fs ++ [ {| sf_name := name; sf_line := lineno;
                      sf_args := args |} ], imps)
  | Ast.Import _ | Ast.ImportFrom _ _ _ =>
      (cs, fs, imps ++ ProjectAnalyzer.import_names n)
  | _ => acc
  end.

(** The body of the [try] block of [_analyze_python_file]. *)
Definition analyze_source (f : file) : result scan_analysis :=
  (content <- contents f ;;
   tree <- parse content ;;
   let '(cs, fs, imps) := fold_left collect (Ast.walk tree) ([], [], []) in
   Ok {| scan_classes := cs;
         scan_functions := fs;
         scan_imports := imps;
         scan_line_count := PyStr.splitlines_len content;
         scan_content_preview :=
           if (500 <? String.length content)%nat
           then (PyStr.take 500 content ++ "...")%string else content |})%result.

Definition _analyze_python_file (f : file) : scan_details :=
  match analyze_source f with
  | Ok a => ScanAnalysis a
  | Raise e => ScanError (str_of_exn e)
  end.

Definition _analyze_file (f : file) : result scan_info :=
  (size <- stat f ;;
   Ok {| scan_size := size;
         scan_extension := suffix f;
         scan_type := _get_file_type f;
         scan_rest :=
           if String.eqb (suffix f) ".py" then _analyze_python_file f
           else ScanPreview (_get_content_preview f 200) |})%result.

(** The loop over [enumerate(files)], from index [i] on. *)
Fixpoint scan_loop (total i : nat) (files : list file)
  (files_info : dict scan_info) : run (dict scan_info) :=
  match files with
  | [] => ret files_info
  | file_path :: rest =>
      (cancelled <- ProjectAnalyzer.is_set cancel_requests ;;
       if cancelled then ret files_info
       else
         ProjectAnalyzer.notify progress_callback
           ("Scanning " ++ name file_path ++ "... ("
            ++ PyStr.of_nat (i + 1) ++ "/" ++ PyStr.of_nat total ++ ")")
         ;;; inf <- lift (_analyze_file file_path) ;;
         scan_loop total (S i) rest
           (dict_set files_info (rel_path file_path) inf))%run
  end.

(** [scan_directory], on the files [_get_files] returns. *)
Definition scan_directory (files : list file) : run (dict scan_info) :=
  (ProjectAnalyzer.clear ;;;
   files_info <- scan_loop (List.length files) 0 files [] ;;
   (if progress_callback then
      cancelled <- ProjectAnalyzer.is_set cancel_requests ;;
      if cancelled then ProjectAnalyzer.notify progress_callback "Scan cancelled"
      else ProjectAnalyzer.notify progress_callback "Scan completed"
    else ret tt) ;;;
   ret files_info)%run.

End Scanner.

End ProjectScanner.

(* ================================================================== *)
(** * [analysis_context.py]: class [AnalysisContextManager] *)
(* ================================================================== *)

Module AnalysisContextManager.

Definition truncation_marker : string :=
  nl ++ nl ++ "[Context truncated for length...]".

(** [get_context_for_chat]: [current_context] is [None] when nothing
    is stored (or the stored dictionary is empty), and otherwise
    [Some] of its ['context_prompt'] entry (the empty string when the
    key is missing). *)
Definition get_context_for_chat (current_context : option string)
  (max_length : Z) : option string :=
  match current_context with
  | None => None
  | Some context =>
      if (max_length <? Z.of_nat (String.length context))%Z
      then Some (PyStr.slice_to context (max_length - 100)
                 ++ truncation_marker)%string
      else Some context
  end.

(** An entry of [key_files]. *)
Record key_file : Type := {
  kf_type : string;
  kf_classes : nat;
  kf_functions : nat;
  kf_lines : nat;
  kf_complexity : Z
}.

(** Python's [float]s: the finite ones by their value. *)
Inductive pyfloat : Type :=
| Finite (q : Q)
| Infinity (negative : bool)
| NaN.

(** A value as [json.load] returns it, which is what
    [self.current_context] holds: [None], a [bool], an [int], a [float],
    a [str], a [list], or a [dict] with [str] keys in insertion order.
    The dictionary that [save_analysis_context] builds is such a value
    too. *)
Inductive json : Type :=
| JNull
| JBool (b : bool)
| JInt (z : Z)
| JFloat (x : pyfloat)
| JStr (s : string)
| JList (l : list json)
| JDict (d : list (string * json)).

(** [bool(v)], the test of [if v] and [not v]. *)
Definition truthy (v : json) : bool :=
  match v with
  | JNull => false
  | JBool b => b
  | JInt z => negb (z =? 0)%Z
  | JFloat (Finite q) => negb (Qeq_bool q 0)
  | JFloat _ => true
  | JStr EmptyString => false
  | JStr _ => true
  | JList [] => false
  | JList _ => true
  | JDict [] => false
  | JDict _ => true
  end.

(** [type(v).__name__] *)
Definition type_name (v : json) : string :=
  match v with
  | JNull => "NoneType"
  | JBool _ => "bool"
  | JInt _ => "int"
  | JFloat _ => "float"
  | JStr _ => "str"
  | JList _ => "list"
  | JDict _ => "dict"
  end.

(** [v.get(key, default)]: of these values only a [dict] has the
    method. *)
Definition get (v : json) (key : string) (default : json) : result json :=
  match v with
  | JDict d => Ok (dict_get d key default)
  | _ =>
      Raise (AttributeError
               ("'" ++ type_name v ++ "' object has no attribute 'get'"))
  end.

(** [len(v)] *)
Definition len (v : json) : result nat :=
  match v with
  | JStr s => Ok (String.length s)
  | JList l => Ok (List.length l)
  | JDict d => Ok (List.length d)
  | _ =>
      Raise (TypeError ("object of type '" ++ type_name v ++ "' has no len()"))
  end.

Definition double_quote : string := String "034"%char EmptyString.

(** The values of the dictionaries of [scanner.py], as Python holds
    them. *)
Definition JNat (n : nat) : json := JInt (Z.of_nat n).

Definition JStrings (l : list string) : json := JList (map JStr l).

Definition json_of_languages (d : dict nat) : json :=
  JDict (map (fun '(lang, count) => (lang, JNat count)) d).

Definition json_of_summary (s : summary) : json :=
  JDict [ ("total_files", JNat (sum_total_files s));
          ("total_lines", JNat (sum_total_lines s));
          ("languages", json_of_languages (sum_languages s));
          ("issues_count", JNat (sum_issues_count s));
          ("main_modules", JNat (sum_main_modules s));
          ("test_coverage", JFloat (Finite (sum_test_coverage s))) ].

(** ['avg_file_size'] is the [int] [0] that the dictionary starts with
    when there is no record, and a [float] otherwise. *)
Definition json_of_architecture (a : architecture) : json :=
  JDict [ ("languages", json_of_languages (languages a));
          ("main_modules", JStrings (main_modules a));
          ("utils_modules", JStrings (utils_modules a));
          ("test_files", JStrings (test_files a));
          ("config_files", JStrings (config_files a));
          ("total_files", JNat (total_files a));
          ("total_lines", JNat (total_lines a));
          ("avg_file_size",
           if (total_files a =? 0)%nat then JInt 0
           else JFloat (Finite (avg_file_size a))) ].

Definition json_of_issues (i : issues) : json :=
  JDict [ ("high_complexity_files", JStrings (high_complexity_files i));
          ("missing_docstrings", JStrings (missing_docstrings i));
          ("unused_imports", JStrings (issue_unused_imports i));
          ("large_files", JStrings (large_files i));
          ("potential_bugs", JStrings (potential_bugs i)) ].

Definition json_of_suggestions (s : suggestions) : json :=
  JDict [ ("architecture", JStrings (sugg_architecture s));
          ("code_quality", JStrings (sugg_code_quality s));
          ("performance", JStrings (sugg_performance s));
          ("maintainability", JStrings (sugg_maintainability s)) ].

Definition json_of_file_feedback (d : dict string) : json :=
  JDict (map (fun '(file_path, text) => (file_path, JStr text)) d).

Definition json_of_key_files (d : dict key_file) : json :=
  JDict (map (fun '(file_path, k) =>
                (file_path,
                 JDict [ ("type", JStr (kf_type k));
                         ("classes", JNat (kf_classes k));
                         ("functions", JNat (kf_functions k));
                         ("lines", JNat (kf_lines k));
                         ("complexity", JInt (kf_complexity k)) ])) d).

(** The two attributes of the manager that change. *)
Record manager : Type := {
  current_context : json;
  context_summary : option string
}.

(** The context file: absent; present, but [open] or [json.load]
    raises on it; or holding a JSON document, given by the value that
    [json.load] returns for it.  ([json.load] gives back the dictionary
    that [json.dump] was given when its values are strings, integers,
    finite floats, lists and dictionaries with string keys.) *)
Inductive disk_file : Type :=
| Absent
| Unreadable
| Holds (document : json).

(** How the [with open(...)] block of [save_analysis_context] ends:
    the document is written, or [open] fails and the file is as before,
    or the writing fails and leaves a truncated file. *)
Inductive write_outcome : Type := Written | Refused | Broken.

Section Manager.

(** [path_name p] is [Path(p).name]. *)
Variable path_name : string -> string.

Definition _extract_key_files (analysis_results : bundle) : dict key_file :=
  fold_left
    (fun key_files '(file_path, inf) =>
       if String.eqb (info_type inf) "Python" then
         dict_set key_files file_path
           {| kf_type := info_type inf;
              kf_classes :=
                match get_classes inf with
                | Some l => List.length l
                | None => 0
                end;
              kf_functions :=
                match get_functions inf with
                | Some l => List.length l
                | None => 0
                end;
              kf_lines :=
                match get_line_count inf with
                | Some n => n
                | None => 0
                end;
              kf_complexity := get_complexity inf 0 |}
       else key_files)
    (file_analysis analysis_results) [].

(** The lines of one category of [## Key Issues]: nothing for an empty
    list, else the title and the first three issues.  [title] is
    [category.replace('_', ' ').title()]. *)
Definition issue_block (title : string) (issue_list : list string) : string :=
  match issue_list with
  | [] => EmptyString
  | _ :: _ =>
      ("### " ++ title ++ nl
       ++ String.concat EmptyString
            (map (fun issue => "- " ++ issue ++ nl) (firstn 3 issue_list)))%string
  end.

(** One line of [## Available Files]. *)
Definition available_file (item : string * info) : string :=
  let '(file_path, inf) := item in
  if String.eqb (info_type inf) "Python" then
    ("- **" ++ file_path ++ "**: "
     ++ PyStr.of_nat (match get_line_count inf with
                      | Some n => n
                      | None => 0
                      end) ++ " lines, "
     ++ PyStr.of_nat (match get_classes inf with
                      | Some l => List.length l
                      | None => 0
                      end) ++ " classes, "
     ++ PyStr.of_nat (match get_functions inf with
                      | Some l => List.length l
                      | None => 0
                      end) ++ " functions" ++ nl)%string
  else EmptyString.

Definition _create_context_prompt (analysis_results : bundle)
  (project_path : string) : string :=
  let summary := bundle_summary analysis_results in
  let architecture := bundle_architecture analysis_results in
  let issues := bundle_issues analysis_results in
  ("# Project Analysis Context" ++ nl
   ++ nl
   ++ "## Project: " ++ path_name project_path ++ nl
   ++ "- **Location**: " ++ project_path ++ nl
   ++ "- **Total Files**: " ++ PyStr.of_nat (sum_total_files summary) ++ nl
   ++ "- **Lines of Code**: " ++ PyStr.of_nat (sum_total_lines summary) ++ nl
   ++ "- **Languages**: "
   ++ PyStr.join ", "
        (map (fun '(lang, count) => lang ++ ": " ++ PyStr.of_nat count)
           (sum_languages summary)) ++ nl
   ++ "- **Issues Found**: " ++ PyStr.of_nat (sum_issues_count summary) ++ nl
   ++ nl
   ++ "## Architecture Overview" ++ nl
   ++ (match main_modules architecture with
       | [] => EmptyString
       | l => "- **Main Modules**: " ++ PyStr.join ", " (firstn 3 l) ++ nl
       end)
   ++ (match utils_modules architecture with
       | [] => EmptyString
       | l => "- **Utility Modules**: " ++ PyStr.join ", " (firstn 3 l) ++ nl
       end)
   ++ (match test_files architecture with
       | [] => EmptyString
       | l => "- **Test Files**: " ++ PyStr.of_nat (List.length l) ++ nl
       end)
   ++ nl ++ "## Key Issues" ++ nl
   ++ issue_block "High Complexity Files" (high_complexity_files issues)
   ++ issue_block "Missing Docstrings" (missing_docstrings issues)
   ++ issue_block "Unused Imports" (issue_unused_imports issues)
   ++ issue_block "Large Files" (large_files issues)
   ++ issue_block "Potential Bugs" (potential_bugs issues)
   ++ nl ++ "## Available Files" ++ nl
   ++ String.concat EmptyString
        (map available_file (firstn 10 (file_analysis analysis_results)))
   ++ nl ++ "## Usage Notes" ++ nl
   ++ "- I have analyzed this codebase and can provide insights about its structure, issues, and improvements" ++ nl
   ++ "- Ask me about specific files, functions, or architectural decisions" ++ nl
   ++ "- I can suggest refactoring approaches or explain complex code sections" ++ nl)%string.

(** [repr v] is [repr(v)] for a [float], a [list] or a [dict]. *)
Variable repr : json -> string.

(** What an f-string puts for [{v}]. *)
Definition format_value (v : json) : string :=
  match v with
  | JNull => "None"
  | JBool true => "True"
  | JBool false => "False"
  | JInt z => PyStr.of_Z z
  | JStr s => s
  | _ => repr v
  end.

Definition _create_context_summary (context_data : json) : result string :=
  (summary <- get context_data "summary" (JDict []) ;;
   project_name <- get context_data "project_name" (JStr "Unknown") ;;
   total_files <- get summary "total_files" (JInt 0) ;;
   issues_count <- get summary "issues_count" (JInt 0) ;;
   Ok ("Analyzed project '" ++ format_value project_name ++ "' with "
       ++ format_value total_files ++ " files, "
       ++ format_value issues_count
       ++ " issues found. Ready to discuss codebase architecture and improvements.")%string)%result.

(** The statements of a [try] block after the assignment to
    [self.current_context]: the summary is stored unless
    [_create_context_summary] raises, and the handler keeps the context
    that was assigned. *)
Definition store_context (context_data : json) (m : manager) : manager :=
  match _create_context_summary context_data with
  | Ok text =>
      {| current_context := context_data; context_summary := Some text |}
  | Raise _ =>
      {| current_context := context_data;
         context_summary := context_summary m |}
  end.

(** [save_analysis_context]; [now] is [datetime.now().isoformat()].
    The exception of a failed write is caught and reported, and the
    manager keeps what it had. *)
Definition save_analysis_context (analysis_results : bundle)
  (project_path now : string) (outcome : write_outcome)
  (disk : disk_file) (m : manager) : disk_file * manager :=
  let context_data :=
    JDict [ ("timestamp", JStr now);
            ("project_path", JStr project_path);
            ("project_name", JStr (path_name project_path));
            ("summary", json_of_summary (bundle_summary analysis_results));
            ("architecture",
             json_of_architecture (bundle_architecture analysis_results));
            ("issues", json_of_issues (bundle_issues analysis_results));
            ("suggestions",
             json_of_suggestions (bundle_suggestions analysis_results));
            ("file_feedback",
             json_of_file_feedback (file_feedback analysis_results));
            ("key_files",
             json_of_key_files (_extract_key_files analysis_results));
            ("context_prompt",
             JStr (_create_context_prompt analysis_results project_path)) ] in
  match outcome with
  | Written => (Holds context_data, store_context context_data m)
  | Refused => (disk, m)
  | Broken => (Unreadable, m)
  end.

(** [load_analysis_context], with the value it returns.  Whatever
    [json.load] returns is assigned to [self.current_context] before the
    summary is made. *)
Definition load_analysis_context (disk : disk_file) (m : manager)
  : manager * json :=
  match disk with
  | Absent => (m, JNull)
  | Unreadable => (m, JNull)
  | Holds document =>
      (store_context document m,
       match _create_context_summary document with
       | Ok _ => document
       | Raise _ => JNull
       end)
  end.

(** [d[:k]] on a [dict] raises: a [TypeError] (the slice cannot be
    hashed) before Python 3.12, a [KeyError] from then on. *)
Variable slice_of_dict : exn.

(** [context[:max_length-100] + marker], for a [context] that has a
    length. *)
Definition truncated (context : json) (max_length : Z) : result json :=
  match context with
  | JStr s =>
      Ok (JStr (PyStr.slice_to s (max_length - 100) ++ truncation_marker)%string)
  | JList _ =>
      Raise (TypeError ("can only concatenate list (not " ++ double_quote
                        ++ "str" ++ double_quote ++ ") to list"))
  | JDict _ => Raise slice_of_dict
  | _ =>
      Raise (TypeError ("'" ++ type_name context
                        ++ "' object is not subscriptable"))
  end.

(** [get_context_for_chat] on the manager; [Ok JNull] is the return of
    [None]. *)
Definition context_for_chat (m : manager) (max_length : Z) : result json :=
  if negb (truthy (current_context m)) then Ok JNull
  else
    (context <- get (current_context m) "context_prompt" (JStr EmptyString) ;;
     n <- len context ;;
     if (max_length <? Z.of_nat n)%Z then truncated context max_length
     else Ok context)%result.

Definition get_context_summary (m : manager) : option string :=
  context_summary m.

(** [self.current_context is not None] *)
Definition has_context (m : manager) : bool :=
  match current_context m with
  | JNull => false
  | _ => true
  end.

(** [clear_context]; [removable] tells whether [os.remove] succeeds on
    an existing file.  Its exception is not caught. *)
Definition clear_context (removable : bool) (disk : disk_file) (m : manager)
  : result (disk_file * manager) :=
  let cleared := {| current_context := JNull; context_summary := None |} in
  match disk with
  | Absent => Ok (Absent, cleared)
  | _ =>
      if removable then Ok (Absent, cleared)
      else Raise (OSError "[Errno 13] Permission denied")
  end.

End Manager.

(** [AnalysisContextManager()] *)
Definition new_manager : manager :=
  {| current_context := JNull; context_summary := None |}.

End AnalysisContextManager.

(* ================================================================== *)
(** * Notions used to state the properties *)
(* ================================================================== *)

(** The four groups of the architecture summary. *)
Inductive category : Type := Main | Utils | Test | Config.

Definition category_eqb (a b : category) : bool :=
  match a, b with
  | Main, Main | Utils, Utils | Test, Test | Config, Config => true
  | _, _ => false
  end.

(** The classification as the specification words it: the keyword pairs
    are tried on the lowercased path in the order main, utils, test,
    config; the first pair with a keyword that occurs in the path
    decides, and a path without any keyword has no group. *)
Definition spec_classify (file_path : string) : option category :=
  let p := PyStr.lower file_path in
  let has kw := PyStr.contains kw p in
  if has "main" || has "app" then Some Main
  else if has "util" || has "helper" then Some Utils
  else if has "test" || has "spec" then Some Test
  else if has "config" || has "settings" then Some Config
  else None.

Definition in_category (c : category) (file_path : string) : bool :=
  match spec_classify file_path with
  | Some c' => category_eqb c c'
  | None => false
  end.

(** The record [_analyze_file] stores for a source file that could not be
    read or parsed. *)
Definition parse_failure_record (size : nat) (error : string) : info :=
  {| info_size := size; info_extension := ".py"; info_type := "Python";
     info_rest := ErrorOnly error |}.

(** Total byte size and total line count of a set of records. *)
Definition total_size_of (fa : dict info) : nat :=
  list_sum (map (fun item => info_size (snd item)) fa).

Definition total_lines_of (fa : dict info) : nat :=
  list_sum (map (fun item => match get_line_count (snd item) with
                             | Some n => n
                             | None => 0
                             end) fa).

(** The list of the architecture summary that holds a group. *)
Definition modules_of (a : architecture) (c : category) : list string :=
  match c with
  | Main => main_modules a
  | Utils => utils_modules a
  | Test => test_files a
  | Config => config_files a
  end.

(** [n] copies of a character. *)
Fixpoint replicate (n : nat) (c : ascii) : string :=
  match n with
  | 0 => EmptyString
  | S k => String c (replicate k c)
  end.

(** Events of a trace. *)
Definition is_progress (e : event) : bool :=
  match e with
  | Progress _ => true
  | IsSet _ => false
  end.

(** What follows the first poll that answered [True]; empty when no poll
    did. *)
Fixpoint after_first_cancel (tr : list event) : list event :=
  match tr with
  | [] => []
  | IsSet true :: rest => rest
  | _ :: rest => after_first_cancel rest
  end.

(** The events of one notification. *)
Definition note (progress_callback : bool) (msg : string) : list event :=
  if progress_callback then [Progress msg] else [].

(** The events of the loop rounds that process [files], from index [i]. *)
Fixpoint loop_events (progress_callback : bool) (total i : nat)
  (files : list file) : list event :=
  match files with
  | [] => []
  | f :: rest =>
      IsSet false
      :: note progress_callback
           ("Analyzing " ++ name f ++ "... (" ++ PyStr.of_nat (i + 1) ++ "/"
            ++ PyStr.of_nat total ++ ")")
      ++ loop_events progress_callback total (S i) rest
  end.

(** The records of [files], stored in order under their relative paths. *)
Definition analyze_files (parse : string -> result Ast.node)
  (object_str : Ast.node -> string) (files : list file) (fa : dict info)
  : result (dict info) :=
  foldM (fun fa f =>
           (inf <- ProjectAnalyzer._analyze_file parse object_str f ;;
            Ok (dict_set fa (rel_path f) inf))%result)
        files fa.

(** What the branches and the multi-operand conjunctions among [nodes]
    add to a complexity score. *)
Definition branch_count (nodes : list Ast.node) : Z :=
  Z.of_nat (List.length (filter ProjectAnalyzer.is_branch nodes)).

Definition and_bonus (nodes : list Ast.node) : Z :=
  fold_right
    (fun n acc =>
       match n with
       | Ast.BoolOp Ast.And values =>
           (Z.of_nat (List.length values) - 1 + acc)%Z
       | _ => acc
       end) 0%Z nodes.

(** The files [os.walk] can reach from a directory without entering an
    excluded subdirectory, by their paths below the directory. *)
Inductive file_under (exclude_dirs : list string)
  : dir_tree -> list string -> Prop :=
| file_here (n : string) (fs : list string) (ds : list dir_tree)
    (f : string) :
    In f fs -> file_under exclude_dirs (Dir n fs ds) [f]
| file_below (n : string) (fs : list string) (ds : list dir_tree)
    (sub : dir_tree) (p : list string) :
    In sub ds ->
    excluded exclude_dirs (name_of_dir sub) = false ->
    file_under exclude_dirs sub p ->
    file_under exclude_dirs (Dir n fs ds) (name_of_dir sub :: p).

(** The part of an analyzer record that the scanner has too. *)
Definition forget_class (c : class_info) : ProjectScanner.scan_class :=
  {| ProjectScanner.sc_name := cls_name c;
     ProjectScanner.sc_line := cls_line c;
     ProjectScanner.sc_methods := cls_methods c |}.

Definition forget_function (f : function_info)
  : ProjectScanner.scan_function :=
  {| ProjectScanner.sf_name := fn_name f;
     ProjectScanner.sf_line := fn_line f;
     ProjectScanner.sf_args := fn_args f |}.

Definition forget_details (d : details) : ProjectScanner.scan_details :=
  match d with
  | Analysis a =>
      ProjectScanner.ScanAnalysis
        {| ProjectScanner.scan_classes := map forget_class (classes a);
           ProjectScanner.scan_functions := map forget_function (functions a);
           ProjectScanner.scan_imports := imports a;
           ProjectScanner.scan_line_count := line_count a;
           ProjectScanner.scan_content_preview := content_preview a |}
  | ErrorOnly e => ProjectScanner.ScanError e
  | PreviewOnly p => ProjectScanner.ScanPreview p
  end.

Definition forget_info (i : info) : ProjectScanner.scan_info :=
  {| ProjectScanner.scan_size := info_size i;
     ProjectScanner.scan_extension := info_extension i;
     ProjectScanner.scan_type := info_type i;
     ProjectScanner.scan_rest := forget_details (info_rest i) |}.

Definition result_map {A B : Type} (f : A -> B) (r : result A) : result B :=
  match r with
  | Ok a => Ok (f a)
  | Raise e => Raise e
  end.

(** The events of the scanner's loop rounds that process [files]. *)
Fixpoint scan_events (progress_callback : bool) (total i : nat)
  (files : list file) : list event :=
  match files with
  | [] => []
  | f :: rest =>
      IsSet false
      :: note progress_callback
           ("Scanning " ++ name f ++ "... (" ++ PyStr.of_nat (i + 1) ++ "/"
            ++ PyStr.of_nat total ++ ")")
      ++ scan_events progress_callback total (S i) rest
  end.

(** The scanner's records of [files], stored in order. *)
Definition scan_files (parse : string -> result Ast.node)
  (files : list file) (files_info : dict ProjectScanner.scan_info)
  : result (dict ProjectScanner.scan_info) :=
  foldM (fun files_info f =>
           (inf <- ProjectScanner._analyze_file parse f ;;
            Ok (dict_set files_info (rel_path f) inf))%result)
        files files_info.

(** Records of the analyzable type. *)
Definition is_python (item : string * info) : bool :=
  String.eqb (info_type (snd item)) "Python".

(** [sum(l)] on integers. *)
Definition Zsum (l : list Z) : Z := fold_right Z.add 0%Z l.

(** Function and class definitions among nodes. *)
Definition is_function_def (n : Ast.node) : bool :=
  match n with
  | Ast.FunctionDef _ _ _ _ _ _ _ => true
  | _ => false
  end.

Definition is_class_def (n : Ast.node) : bool :=
  match n with
  | Ast.ClassDef _ _ _ _ _ _ _ => true
  | _ => false
  end.

Definition count_nodes (p : Ast.node -> bool) (nodes : list Ast.node) : nat :=
  List.length (filter p nodes).

(** What the context prompt can show of a record: nothing of a record
    of another type than ["Python"]; the path, the line count and the
    numbers of classes and functions of a record of type ["Python"]. *)
Definition blank_class : class_info :=
  {| cls_name := EmptyString; cls_line := 0; cls_methods := [];
     cls_bases := [] |}.

Definition blank_function : function_info :=
  {| fn_name := EmptyString; fn_line := 0; fn_args := [];
     fn_complexity := 0 |}.

Definition shown_record (item : string * info) : string * info :=
  if is_python item then
    (fst item,
     {| info_size := 0; info_extension := EmptyString;
        info_type := "Python";
        info_rest :=
          match info_rest (snd item) with
          | Analysis a =>
              Analysis
                {| classes := repeat blank_class (List.length (classes a));
                   functions :=
                     repeat blank_function (List.length (functions a));
                   imports := [];
                   line_count := line_count a;
                   content_preview := EmptyString;
                   complexity := 0;
                   docstrings :=
                     {| ds_functions := 0; ds_classes := 0;
                        ds_total_functions := 0; ds_total_classes := 0 |};
                   unused_imports := [] |}
          | _ => ErrorOnly EmptyString
          end |})
  else
    (EmptyString,
     {| info_size := 0; info_extension := EmptyString;
        info_type := EmptyString; info_rest := ErrorOnly EmptyString |}).

(** What the context prompt can show of a bundle: four numbers of the
    summary, the first three main and utility modules, the number of
    test files, the first three issues of each category, and what it
    can show of the first ten records.  All the rest is blanked. *)
Definition prompt_view (b : bundle) : bundle :=
  {| file_analysis := map shown_record (firstn 10 (file_analysis b));
     bundle_architecture :=
       {| languages := [];
          main_modules := firstn 3 (main_modules (bundle_architecture b));
          utils_modules := firstn 3 (utils_modules (bundle_architecture b));
          test_files :=
            repeat EmptyString
              (List.length (test_files (bundle_architecture b)));
          config_files := [];
          total_files := 0;
          total_lines := 0;
          avg_file_size := 0%Q |};
     bundle_issues :=
       {| high_complexity_files :=
            firstn 3 (high_complexity_files (bundle_issues b));
          missing_docstrings :=
            firstn 3 (missing_docstrings (bundle_issues b));
          issue_unused_imports :=
            firstn 3 (issue_unused_imports (bundle_issues b));
          large_files := firstn 3 (large_files (bundle_issues b));
          potential_bugs := firstn 3 (potential_bugs (bundle_issues b)) |};
     bundle_suggestions :=
       {| sugg_architecture := []; sugg_code_quality := [];
          sugg_performance := []; sugg_maintainability := [] |};
     file_feedback := [];
     bundle_summary :=
       {| sum_total_files := sum_total_files (bundle_summary b);
          sum_total_lines := sum_total_lines (bundle_summary b);
          sum_languages := sum_languages (bundle_summary b);
          sum_issues_count := sum_issues_count (bundle_summary b);
          sum_main_modules := 0;
          sum_test_coverage := 0%Q |} |}.

(** The entries of [missing_docstrings] that one record accounts for:
    one entry for a record of type ["Python"] that has functions and
    fewer than half of them documented, none otherwise. *)
Definition docstring_entries (format_percent : Q -> string)
  (item : string * info) : list string :=
  if is_python item then
    match get_docstrings (snd item) with
    | Some ds =>
        let ratio :=
          (Z.of_nat (ds_functions ds) # Pos.of_nat (ds_total_functions ds))%Q in
        if (0 <? ds_total_functions ds)%nat && Qltb ratio (1 # 2)%Q
        then [(fst item ++ " (" ++ format_percent ratio
               ++ " functions documented)")%string]
        else []
    | None => []
    end
  else [].

(* ================================================================== *)
(** * Strings *)
(* ================================================================== *)

Lemma take_length (n : nat) (s : string) :
  String.length (PyStr.take n s) = Nat.min n (String.length s).
Proof.
  revert s; induction n as [|n IH]; intros [|c t]; simpl; auto.
Qed.

Lemma take_all (n : nat) (s : string) :
  String.length s <= n -> PyStr.take n s = s.
Proof.
  revert s; induction n as [|n IH]; intros [|c t]; simpl; intros H;
    try reflexivity; try lia.
  f_equal. apply IH. lia.
Qed.

Lemma replicate_length (n : nat) (c : ascii) :
  String.length (replicate n c) = n.
Proof. induction n; simpl; congruence. Qed.

Lemma append_assoc (a b c : string) :
  ((a ++ b) ++ c = a ++ (b ++ c))%string.
Proof. induction a; simpl; congruence. Qed.

Lemma startswith_spec (p s : string) :
  PyStr.startswith p s = true <-> exists t, s = (p ++ t)%string.
Proof.
  revert s; induction p as [|a p IH]; intros s; simpl.
  - split; eauto.
  - destruct s as [|b s].
    + split; [discriminate | intros [t Ht]; discriminate].
    + rewrite andb_true_iff, Ascii.eqb_eq, IH. split.
      * intros [-> [t ->]]. eauto.
      * intros [t Ht]. injection Ht as -> ->. eauto.
Qed.

(** [needle in hay] holds exactly when [hay] is a prefix, then [needle],
    then a suffix. *)
Lemma contains_spec (needle hay : string) :
  PyStr.contains needle hay = true
  <-> exists pre post, hay = (pre ++ needle ++ post)%string.
Proof.
  induction hay as [|c hay IH].
  - simpl. rewrite orb_false_r, startswith_spec. split.
    + intros [t Ht]. exists EmptyString, t. exact Ht.
    + intros [[|a pre] [post H]]; [eauto | discriminate].
  - cbn [PyStr.contains]. rewrite orb_true_iff, startswith_spec, IH. split.
    + intros [[t Ht] | [pre [post H]]].
      * exists EmptyString, t. exact Ht.
      * exists (String c pre), post. simpl. congruence.
    + intros [[|a pre] [post H]].
      * left. eauto.
      * right. simpl in H. injection H as -> ->. eauto.
Qed.

Lemma contains_trans (a b c : string) :
  PyStr.contains a b = true -> PyStr.contains b c = true ->
  PyStr.contains a c = true.
Proof.
  rewrite !contains_spec. intros [p1 [s1 ->]] [p2 [s2 ->]].
  exists (p2 ++ p1)%string, (s1 ++ s2)%string.
  now rewrite !append_assoc.
Qed.

(* ================================================================== *)
(** * The condensed context *)
(* ================================================================== *)


(** Below 100 the bound of the slice is negative, and the cut removes
    the last [100 - max_length] characters instead. *)
Lemma get_context_for_chat_below_100 (context : string) (max_length : Z) :
  (max_length < 100)%Z ->
  (max_length < Z.of_nat (String.length context))%Z ->
  AnalysisContextManager.get_context_for_chat (Some context) max_length
  = Some (PyStr.take (String.length context - Z.to_nat (100 - max_length))
            context
          ++ AnalysisContextManager.truncation_marker)%string.
Proof.
  intros H1 H2.
  unfold AnalysisContextManager.get_context_for_chat, PyStr.slice_to.
  apply Z.ltb_lt in H2. rewrite H2.
  destruct (0 <=? max_length - 100)%Z eqn:E.
  - apply Z.leb_le in E. lia.
  - do 3 f_equal. lia.
Qed.

(** C8, at a maximum below 100.  A context of 110 characters and
    [max_length = 10]: the claim's result is the first
    [max_length - 100] characters, that is none, followed by the marker;
    [get_context_for_chat] returns the first 20 characters followed by
    the marker, 55 characters in all. *)
Theorem get_context_for_chat_max_10 :
  let context := replicate 110 "x" in
  let claimed :=
    (PyStr.take (Z.to_nat (10 - 100)) context
     ++ AnalysisContextManager.truncation_marker)%string in
  let returned :=
    AnalysisContextManager.get_context_for_chat (Some context) 10 in
  (10 < Z.of_nat (String.length context))%Z
  /\ returned
     = Some (replicate 20 "x" ++ AnalysisContextManager.truncation_marker)%string
  /\ returned <> Some claimed
  /\ option_map String.length returned = Some 55.
Proof.
  cbv zeta. split; [|split; [|split]].
  - reflexivity.
  - vm_compute. reflexivity.
  - vm_compute. discriminate.
  - vm_compute. reflexivity.
Qed.

(* ================================================================== *)
(** * The content preview *)
(* ================================================================== *)

(** A file whose whole text can be read opens, and no chunk of it
    fails. *)
Lemma contents_ok (f : file) (text : string) :
  contents f = Ok text ->
  opened f = Ok {| readable := text; failure := None |}.
Proof.
  unfold contents, read_all.
  destruct (opened f) as [[r [e|]]|e]; cbn; intros H;
    try discriminate H.
  now injection H as ->.
Qed.

(** On such a file [f.read(max_chars)] is a prefix of [f.read()]. *)
Lemma preview_of_contents (f : file) (text : string) (max_chars : nat) :
  contents f = Ok text ->
  let content := PyStr.take max_chars text in
  let preview :=
    if (String.length content =? max_chars)%nat
    then (content ++ "...")%string else content in
  ProjectAnalyzer._get_content_preview f max_chars = preview
  /\ ProjectScanner._get_content_preview f max_chars = preview.
Proof.
  intros Hf. apply contents_ok in Hf. cbv zeta.
  unfold ProjectAnalyzer._get_content_preview,
    ProjectScanner._get_content_preview, read_chars.
  rewrite Hf. cbn [readable failure].
  destruct (max_chars <=? String.length text)%nat eqn:E; [now split|].
  apply Nat.leb_gt in E. rewrite take_all by lia. now split.
Qed.

Lemma preview_at_limit (text : string) (max_chars : nat) :
  String.length text = max_chars ->
  forall f, contents f = Ok text ->
  ProjectAnalyzer._get_content_preview f max_chars = (text ++ "...")%string
  /\ ProjectScanner._get_content_preview f max_chars = (text ++ "...")%string.
Proof.
  intros Hlen f Hf.
  destruct (preview_of_contents f text max_chars Hf) as [-> ->].
  rewrite take_all by lia. rewrite Hlen, Nat.eqb_refl. auto.
Qed.

(** C10.  A file that is not a [.py] file, can be read, and holds
    exactly 200 characters gets the record whose preview is those 200
    characters followed by ["..."], although nothing was cut; both
    classes compute the preview alike.  So the marker on such a preview
    does not tell that the file was longer than 200 characters. *)
Theorem preview_of_200_characters
  (parse : string -> result Ast.node) (object_str : Ast.node -> string)
  (f : file) (size : nat) (text : string) :
  String.eqb (suffix f) ".py" = false ->
  stat f = Ok size ->
  contents f = Ok text ->
  String.length text = 200 ->
  (exists inf, ProjectAnalyzer._analyze_file parse object_str f = Ok inf
               /\ info_rest inf = PreviewOnly (text ++ "...")%string)
  /\ ProjectAnalyzer._get_content_preview f 200 = (text ++ "...")%string
  /\ ProjectScanner._get_content_preview f 200 = (text ++ "...")%string.
Proof.
  intros Hsuf Hstat Hc Hlen.
  destruct (preview_at_limit text 200 Hlen f Hc) as [Ha Hs].
  split; [|split; assumption].
  unfold ProjectAnalyzer._analyze_file. rewrite Hstat. simpl.
  rewrite Hsuf, Ha. eexists. split; reflexivity.
Qed.

Lemma preview_of_200_characters_witness :
  let f := {| name := "notes.txt"; rel_path := "notes.txt"; suffix := ".txt";
              stat := Ok 200; opened := text_of (replicate 200 "a") |} in
  (exists inf,
      ProjectAnalyzer._analyze_file (fun _ => Ok (Ast.Module []))
        (fun _ => EmptyString) f = Ok inf
      /\ info_rest inf = PreviewOnly (replicate 200 "a" ++ "...")%string)
  /\ ProjectAnalyzer._get_content_preview f 200
     = (replicate 200 "a" ++ "...")%string
  /\ ProjectScanner._get_content_preview f 200
     = (replicate 200 "a" ++ "...")%string.
Proof.
  cbv zeta.
  apply (preview_of_200_characters _ _ _ 200 (replicate 200 "a"));
    reflexivity.
Defined.

(* ================================================================== *)
(** * [ast.walk] *)
(* ================================================================== *)

Lemma sizes_app (l1 l2 : list Ast.node) :
  Ast.sizes (l1 ++ l2) = Ast.sizes l1 + Ast.sizes l2.
Proof. unfold Ast.sizes. now rewrite map_app, list_sum_app. Qed.

Lemma sizes_leaves {A : Type} (l : list A) :
  Ast.sizes (map (fun _ => Ast.leaf) l) = List.length l.
Proof.
  unfold Ast.sizes. induction l as [|a l IH]; simpl; [reflexivity|].
  now rewrite IH.
Qed.

Lemma size_children (n : Ast.node) :
  Ast.size n = S (Ast.sizes (Ast.iter_child_nodes n)).
Proof.
  destruct n; cbn [Ast.size Ast.iter_child_nodes];
    fold (Ast.sizes);
    repeat match goal with
           | |- context [list_sum (map Ast.size ?l)] =>
               change (list_sum (map Ast.size l)) with (Ast.sizes l)
           end;
    rewrite ?sizes_leaves;
    repeat (change (Ast.sizes (?x :: ?l)) with (Ast.size x + Ast.sizes l));
    rewrite ?sizes_app; try reflexivity; cbn; lia.
Qed.

(** The walk does not depend on the fuel once there is enough of it: the
    loop of [ast.walk] ends, after one round per node. *)
Lemma walk_queue_fuel (fuel : nat) :
  forall todo, Ast.sizes todo <= fuel ->
  Ast.walk_queue fuel todo = Ast.walk_queue (Ast.sizes todo) todo.
Proof.
  induction fuel as [|k IH]; intros [|n rest] H; try reflexivity.
  - change (Ast.sizes (n :: rest)) with (Ast.size n + Ast.sizes rest) in H.
    rewrite size_children in H. lia.
  - change (Ast.sizes (n :: rest)) with (Ast.size n + Ast.sizes rest) in *.
    rewrite size_children in *. cbn [plus Ast.walk_queue]. f_equal.
    rewrite IH by (rewrite sizes_app; lia).
    f_equal. rewrite sizes_app. lia.
Qed.

Lemma walk_queue_length (m : nat) :
  forall todo, Ast.sizes todo = m ->
  List.length (Ast.walk_queue m todo) = m.
Proof.
  induction m as [|m IH]; intros [|n rest] H; try reflexivity;
    try discriminate.
  change (Ast.sizes (n :: rest)) with (Ast.size n + Ast.sizes rest) in H.
  rewrite size_children in H. cbn [Ast.walk_queue List.length]. f_equal.
  apply IH. rewrite sizes_app. lia.
Qed.

Lemma walk_length (n : Ast.node) : List.length (Ast.walk n) = Ast.size n.
Proof.
  unfold Ast.walk. apply walk_queue_length. unfold Ast.sizes. simpl. lia.
Qed.

Lemma walk_head (n : Ast.node) : exists rest, Ast.walk n = n :: rest.
Proof.
  unfold Ast.walk. rewrite size_children. simpl. eauto.
Qed.

(* ================================================================== *)
(** * Complexity *)
(* ================================================================== *)

Lemma fold_function_complexity (nodes : list Ast.node) :
  forall c,
  fold_left (fun complexity n =>
               if ProjectAnalyzer.is_branch n then (complexity + 1)%Z
               else complexity) nodes c
  = (c + branch_count nodes)%Z.
Proof.
  unfold branch_count.
  induction nodes as [|n l IH]; intros c; simpl; [lia|].
  rewrite IH. destruct (ProjectAnalyzer.is_branch n); simpl List.length; lia.
Qed.

Lemma fold_file_complexity (nodes : list Ast.node) :
  forall c,
  fold_left (fun complexity n =>
               if ProjectAnalyzer.is_branch n then (complexity + 1)%Z
               else match n with
                    | Ast.BoolOp Ast.And values =>
                        (complexity + (Z.of_nat (List.length values) - 1))%Z
                    | _ => complexity
                    end) nodes c
  = (c + branch_count nodes + and_bonus nodes)%Z.
Proof.
  unfold branch_count.
  induction nodes as [|n l IH]; intros c; simpl; [lia|].
  rewrite IH.
  destruct n as [| | | | | | |[|]| | | |]; simpl; lia.
Qed.

(** The score of a function is one plus the branches the walk meets: a
    conjunction adds nothing to it. *)
Lemma _calculate_function_complexity_eq (func_node : Ast.node) :
  ProjectAnalyzer._calculate_function_complexity func_node
  = (1 + branch_count (Ast.walk func_node))%Z.
Proof. apply fold_function_complexity. Qed.

(** The score of a file counts the branches and the conjunctions. *)
Lemma _calculate_complexity_eq (tree : Ast.node) :
  ProjectAnalyzer._calculate_complexity tree
  = (1 + branch_count (Ast.walk tree) + and_bonus (Ast.walk tree))%Z.
Proof. apply fold_file_complexity. Qed.

(** On every node the two scores differ by the conjunctions below it. *)
Lemma complexity_scores_differ (n : Ast.node) :
  ProjectAnalyzer._calculate_complexity n
  = (ProjectAnalyzer._calculate_function_complexity n
     + and_bonus (Ast.walk n))%Z.
Proof.
  rewrite _calculate_complexity_eq, _calculate_function_complexity_eq. lia.
Qed.

Lemma function_complexity_positive (func_node : Ast.node) :
  (1 <= ProjectAnalyzer._calculate_function_complexity func_node)%Z.
Proof. rewrite _calculate_function_complexity_eq. unfold branch_count. lia. Qed.

(** C2, on [def f(a, b): return a and b].  The function has no branch
    and one conjunction of two operands, so the claimed score is 2, and
    the file-level count gives 2 on the same node;
    [_calculate_function_complexity] gives 1. *)
Theorem function_complexity_ignores_and :
  let conj := Ast.BoolOp Ast.And [Ast.Name "a"; Ast.Name "b"] in
  let func :=
    Ast.FunctionDef "f" 1 ["a"; "b"] [Ast.leaf; Ast.leaf]
      [Ast.Other [conj]] [] None in
  In conj (Ast.walk func)
  /\ (1 + branch_count (Ast.walk func) + and_bonus (Ast.walk func) = 2)%Z
  /\ ProjectAnalyzer._calculate_complexity func = 2%Z
  /\ ProjectAnalyzer._calculate_function_complexity func = 1%Z.
Proof.
  cbv zeta. split; [|split; [|split]]; try reflexivity.
  vm_compute. tauto.
Qed.

(* ================================================================== *)
(** * Unused imports *)
(* ================================================================== *)

Lemma split_dot_nonempty (s : string) : PyStr.split_dot s <> [].
Proof.
  destruct s as [|c t]; simpl; [discriminate|].
  destruct (Ascii.eqb c "."); [discriminate|].
  destruct (PyStr.split_dot t); discriminate.
Qed.

Lemma join_split_dot (s : string) : PyStr.join "." (PyStr.split_dot s) = s.
Proof.
  induction s as [|c t IH]; [reflexivity|].
  pose proof (split_dot_nonempty t) as Hne.
  cbn [PyStr.split_dot].
  destruct (Ascii.eqb c ".") eqn:E.
  - apply Ascii.eqb_eq in E. subst c.
    destruct (PyStr.split_dot t) as [|h r]; [congruence|].
    change (PyStr.join "." (EmptyString :: h :: r))
      with (EmptyString ++ "." ++ PyStr.join "." (h :: r))%string.
    rewrite IH. reflexivity.
  - destruct (PyStr.split_dot t) as [|h [|h' r]]; [congruence| |].
    + simpl in *. congruence.
    + change (PyStr.join "." (String c h :: h' :: r))
        with (String c (h ++ "." ++ PyStr.join "." (h' :: r)))%string.
      change (PyStr.join "." (h :: h' :: r))
        with (h ++ "." ++ PyStr.join "." (h' :: r))%string in IH.
      congruence.
Qed.

Lemma last_suffix_join (sep : string) (l : list string) :
  l <> [] ->
  exists pre, PyStr.join sep l = (pre ++ last l EmptyString)%string.
Proof.
  induction l as [|x [|y r] IH]; intros H; [congruence| |].
  - exists EmptyString. reflexivity.
  - destruct IH as [pre IH]; [discriminate|].
    exists (x ++ sep ++ pre)%string.
    change (PyStr.join sep (x :: y :: r))
      with (x ++ sep ++ PyStr.join sep (y :: r))%string.
    rewrite IH. change (last (x :: y :: r) EmptyString)
      with (last (y :: r) EmptyString).
    now rewrite !append_assoc.
Qed.

(** The base name is the end of the identifier. *)
Lemma base_name_suffix (imp : string) :
  exists pre, imp = (pre ++ ProjectAnalyzer.base_name imp)%string.
Proof.
  destruct (last_suffix_join "." (PyStr.split_dot imp)
              (split_dot_nonempty imp)) as [pre H].
  rewrite join_split_dot in H. exists pre. exact H.
Qed.

Lemma append_empty_r (s : string) : (s ++ EmptyString)%string = s.
Proof. induction s; simpl; congruence. Qed.

Lemma base_name_contained (imp : string) :
  PyStr.contains (ProjectAnalyzer.base_name imp) imp = true.
Proof.
  apply contains_spec. destruct (base_name_suffix imp) as [pre H].
  exists pre, EmptyString. now rewrite append_empty_r.
Qed.

(** A flagged identifier has a base name that occurs nowhere in the
    text. *)
Lemma flagged_base_name_absent (content : string) (tree : Ast.node)
  (imp : string) :
  In imp (ProjectAnalyzer._detect_unused_imports content tree) ->
  PyStr.contains (ProjectAnalyzer.base_name imp) content = false.
Proof.
  unfold ProjectAnalyzer._detect_unused_imports.
  rewrite filter_In. intros [_ H]. now apply negb_true_iff in H.
Qed.

(** An identifier that is written out in the text, as it is in the
    statement that imports it, is not flagged, whatever the tree. *)
Lemma written_import_not_flagged (content : string) (tree : Ast.node)
  (imp : string) :
  PyStr.contains imp content = true ->
  ~ In imp (ProjectAnalyzer._detect_unused_imports content tree).
Proof.
  intros Hc Hin. apply flagged_base_name_absent in Hin.
  rewrite (contains_trans _ _ _ (base_name_contained imp) Hc) in Hin.
  discriminate.
Qed.

Lemma import_os_not_flagged (content : string) (tree : Ast.node) :
  PyStr.contains "import os" content = true ->
  ~ In "os" (ProjectAnalyzer._detect_unused_imports content tree).
Proof.
  intros H. apply written_import_not_flagged.
  apply (contains_trans "os" "import os" content); [reflexivity | exact H].
Qed.

(** C1, on the file whose text is the line [import os].  The tree holds
    the import of ["os"], and the rest of the text, a line break, does
    not contain ["os"]; yet [_detect_unused_imports] returns no
    candidate, because the text it searches includes the import
    statement. *)
Theorem import_os_alone_not_flagged :
  let content := ("import os" ++ nl)%string in
  let tree := Ast.Module [Ast.Import ["os"]] in
  In (Ast.Import ["os"]) (Ast.walk tree)
  /\ PyStr.contains "os" nl = false
  /\ ProjectAnalyzer._detect_unused_imports content tree = []
  /\ ~ In "os" (ProjectAnalyzer._detect_unused_imports content tree).
Proof.
  cbv zeta. split; [|split; [|split]].
  - vm_compute. tauto.
  - reflexivity.
  - reflexivity.
  - vm_compute. tauto.
Qed.

(* ================================================================== *)
(** * The architecture summary *)
(* ================================================================== *)

Lemma path_has_classify (file_path : string) :
  spec_classify file_path
  = if ProjectAnalyzer.path_has "main" file_path
       || ProjectAnalyzer.path_has "app" file_path then Some Main
    else if ProjectAnalyzer.path_has "util" file_path
            || ProjectAnalyzer.path_has "helper" file_path then Some Utils
    else if ProjectAnalyzer.path_has "test" file_path
            || ProjectAnalyzer.path_has "spec" file_path then Some Test
    else if ProjectAnalyzer.path_has "config" file_path
            || ProjectAnalyzer.path_has "settings" file_path then Some Config
    else None.
Proof. reflexivity. Qed.

Lemma step_modules (a : architecture) (total_size : nat)
  (file_path : string) (inf : info) (c : category) :
  modules_of (fst (ProjectAnalyzer.architecture_step (a, total_size)
                     (file_path, inf))) c
  = modules_of a c ++ (if in_category c file_path then [file_path] else []).
Proof.
  unfold in_category. rewrite path_has_classify.
  unfold ProjectAnalyzer.architecture_step.
  destruct (ProjectAnalyzer.path_has "main" file_path
            || ProjectAnalyzer.path_has "app" file_path);
    [|destruct (ProjectAnalyzer.path_has "util" file_path
                || ProjectAnalyzer.path_has "helper" file_path);
      [|destruct (ProjectAnalyzer.path_has "test" file_path
                  || ProjectAnalyzer.path_has "spec" file_path);
        [|destruct (ProjectAnalyzer.path_has "config" file_path
                    || ProjectAnalyzer.path_has "settings" file_path)]]];
    destruct c; cbn [fst modules_of main_modules utils_modules test_files
                       config_files category_eqb];
    rewrite ?app_nil_r; reflexivity.
Qed.

Lemma step_counters (a : architecture) (total_size : nat)
  (file_path : string) (inf : info) :
  let r := ProjectAnalyzer.architecture_step (a, total_size) (file_path, inf) in
  total_files (fst r) = total_files a
  /\ total_lines (fst r)
     = total_lines a + match get_line_count inf with
                       | Some n => n
                       | None => 0
                       end
  /\ avg_file_size (fst r) = avg_file_size a
  /\ snd r = total_size + info_size inf.
Proof.
  unfold ProjectAnalyzer.architecture_step. cbv zeta.
  repeat match goal with |- context [if ?b then _ else _] => destruct b end;
    cbn [fst snd total_files total_lines avg_file_size];
    destruct (get_line_count inf); repeat split; try reflexivity; lia.
Qed.

(** What the loop of [_analyze_architecture] has done to its
    accumulators after the records [fa]. *)
Lemma architecture_fold (fa : dict info) :
  forall (a : architecture) (total_size : nat),
  let r := fold_left ProjectAnalyzer.architecture_step fa (a, total_size) in
  (forall c, modules_of (fst r) c
             = modules_of a c ++ filter (in_category c) (keys fa))
  /\ total_files (fst r) = total_files a
  /\ total_lines (fst r) = total_lines a + total_lines_of fa
  /\ avg_file_size (fst r) = avg_file_size a
  /\ snd r = total_size + total_size_of fa.
Proof.
  induction fa as [|[file_path inf] fa IH]; intros a total_size.
  - simpl. repeat split; auto.
    intros c. now rewrite app_nil_r.
  - cbn [fold_left]. cbv zeta in IH.
    destruct (IH (fst (ProjectAnalyzer.architecture_step (a, total_size)
                         (file_path, inf)))
                 (snd (ProjectAnalyzer.architecture_step (a, total_size)
                         (file_path, inf))))
      as (Hm & Hf & Hl & Ha & Hs).
    rewrite <- surjective_pairing in Hm, Hf, Hl, Ha, Hs.
    destruct (step_counters a total_size file_path inf) as (Sf & Sl & Sa & Ss).
    cbv zeta. split; [|split; [|split; [|split]]].
    + intros c. rewrite Hm, step_modules. cbn [keys map fst filter].
      destruct (in_category c file_path); rewrite <- app_assoc; reflexivity.
    + congruence.
    + rewrite Hl, Sl. unfold total_lines_of, list_sum.
      cbn [map fold_right snd]. lia.
    + congruence.
    + rewrite Hs, Ss. unfold total_size_of, list_sum.
      cbn [map fold_right snd]. lia.
Qed.

Lemma filter_groups_length (l : list string) :
  List.length (filter (in_category Main) l)
  + List.length (filter (in_category Utils) l)
  + List.length (filter (in_category Test) l)
  + List.length (filter (in_category Config) l)
  <= List.length l.
Proof.
  induction l as [|p l IH]; [simpl; lia|].
  cbn [filter].
  assert (E : forall c, in_category c p
                        = match spec_classify p with
                          | Some c' => category_eqb c c'
                          | None => false
                          end) by reflexivity.
  rewrite !E.
  destruct (spec_classify p) as [[| | |]|]; cbn [category_eqb List.length]; lia.
Qed.

(** [_analyze_architecture] returns, and this is what it returns. *)
Lemma _analyze_architecture_spec (fa : dict info) :
  exists a,
    ProjectAnalyzer._analyze_architecture fa = Ok a
    /\ (forall c, modules_of a c = filter (in_category c) (keys fa))
    /\ total_files a = List.length fa
    /\ total_lines a = total_lines_of fa
    /\ match fa with
       | [] => avg_file_size a = 0%Q
       | _ :: _ =>
           (avg_file_size a
            == inject_Z (Z.of_nat (total_size_of fa))
               / inject_Z (Z.of_nat (List.length fa)))%Q
       end.
Proof.
  unfold ProjectAnalyzer._analyze_architecture.
  pose proof (architecture_fold fa (ProjectAnalyzer.architecture_init fa) 0)
    as H. cbv zeta in H.
  destruct (fold_left ProjectAnalyzer.architecture_step fa
              (ProjectAnalyzer.architecture_init fa, 0)) as [a total_size].
  cbn [fst snd] in H. destruct H as (Hm & Hf & Hl & Ha & Hs).
  cbn [ProjectAnalyzer.architecture_init total_files total_lines
         avg_file_size] in Hf, Hl, Ha.
  assert (Hm' : forall c, modules_of a c = filter (in_category c) (keys fa)).
  { intros c. rewrite Hm. now destruct c. }
  rewrite Hf. destruct fa as [|item fa].
  - simpl. exists a. repeat split; auto.
  - cbn [List.length Nat.ltb Nat.leb]. unfold truediv.
    change (Z.of_nat (S (List.length fa)))
      with (Zpos (Pos.of_succ_nat (List.length fa))).
    cbn [rbind]. eexists. split; [reflexivity|].
    split; [|split; [|split]].
    + intros c. rewrite <- Hm'. now destruct c.
    + reflexivity.
    + exact Hl.
    + cbn [avg_file_size]. rewrite Hs. simpl plus. apply Qmake_Qdiv.
Qed.

(** C9.  [_analyze_architecture] always returns a summary, so it never
    divides by zero; without files the average size is 0, and with files
    it is the total byte size divided by the number of files. *)
Theorem average_file_size_defined (fa : dict info) :
  exists a,
    ProjectAnalyzer._analyze_architecture fa = Ok a
    /\ match fa with
       | [] => avg_file_size a = 0%Q
       | _ :: _ =>
           (avg_file_size a
            == inject_Z (Z.of_nat (total_size_of fa))
               / inject_Z (Z.of_nat (List.length fa)))%Q
       end.
Proof.
  destruct (_analyze_architecture_spec fa) as (a & H & _ & _ & _ & Havg).
  eauto.
Qed.

(** C6.  The four lists of the summary are the paths of the records, in
    order, that the classification by first matching keyword pair puts
    in each group.  So no path is in two of the lists, a path without
    keyword is in none, and the lists together are no longer than the
    records are many. *)
Theorem paths_grouped_by_first_keyword (fa : dict info) :
  exists a,
    ProjectAnalyzer._analyze_architecture fa = Ok a
    /\ (forall c, modules_of a c = filter (in_category c) (keys fa))
    /\ (forall p c1 c2,
          In p (modules_of a c1) -> In p (modules_of a c2) -> c1 = c2)
    /\ (forall p, spec_classify p = None ->
                  forall c, ~ In p (modules_of a c))
    /\ List.length (main_modules a) + List.length (utils_modules a)
       + List.length (test_files a) + List.length (config_files a)
       <= List.length fa.
Proof.
  destruct (_analyze_architecture_spec fa) as (a & H & Hm & _).
  exists a. split; [exact H|]. split; [exact Hm|].
  split; [|split].
  - intros p c1 c2. rewrite !Hm, !filter_In. unfold in_category.
    intros [_ H1] [_ H2].
    destruct (spec_classify p) as [c|]; [|discriminate].
    destruct c, c1, c2; simpl in *; congruence.
  - intros p Hp c. rewrite Hm, filter_In. unfold in_category.
    rewrite Hp. intros [_ Hf]. discriminate.
  - pose proof (filter_groups_length (keys fa)) as L.
    rewrite <- (Hm Main), <- (Hm Utils), <- (Hm Test), <- (Hm Config) in L.
    unfold keys in L. rewrite length_map in L. exact L.
Qed.

Example classify_examples :
  spec_classify "src/MAIN.py" = Some Main
  /\ spec_classify "tests/test_app.py" = Some Main
  /\ spec_classify "lib/Helper_Spec.py" = Some Utils
  /\ spec_classify "conftest.py" = Some Test
  /\ spec_classify "Settings.json" = Some Config
  /\ spec_classify "README.md" = None.
Proof. repeat split. Qed.

(* ================================================================== *)
(** * Issue detection *)
(* ================================================================== *)

Lemma foldM_app {A B : Type} (f : A -> B -> result A) (l1 l2 : list B) :
  forall a, foldM f (l1 ++ l2) a = rbind (foldM f l1 a) (foldM f l2).
Proof.
  induction l1 as [|b l1 IH]; intros a; simpl; [reflexivity|].
  destruct (f a b); simpl; auto.
Qed.

Lemma truediv_positive (a : Z) (n : nat) :
  0 < n -> truediv a (Z.of_nat n) = Ok (a # Pos.of_nat n)%Q.
Proof.
  destruct n as [|k]; [lia|]. intros _. unfold truediv.
  change (Z.of_nat (S k)) with (Zpos (Pos.of_succ_nat k)).
  now rewrite Pos.of_nat_succ.
Qed.

Lemma Qltb_lt (x y : Q) : Qltb x y = true <-> (x < y)%Q.
Proof.
  unfold Qltb. rewrite negb_true_iff, <- not_true_iff_false, Qle_bool_iff.
  split; [apply Qnot_le_lt | apply Qlt_not_le].
Qed.

(** The docstring rule returns; it adds an entry exactly below one
    half. *)
Lemma docstring_rule_spec (format_percent : Q -> string)
  (file_path : string) (inf : info) (i : issues) :
  exists i',
    ProjectAnalyzer.docstring_rule format_percent file_path inf i = Ok i'
    /\ high_complexity_files i' = high_complexity_files i
    /\ issue_unused_imports i' = issue_unused_imports i
    /\ large_files i' = large_files i
    /\ potential_bugs i' = potential_bugs i
    /\ match get_docstrings inf with
       | Some ds =>
           let ratio :=
             (Z.of_nat (ds_functions ds)
              # Pos.of_nat (ds_total_functions ds))%Q in
           if (0 <? ds_total_functions ds)%nat && Qltb ratio (1 # 2)%Q then
             missing_docstrings i'
             = missing_docstrings i
               ++ [(file_path ++ " (" ++ format_percent ratio
                    ++ " functions documented)")%string]
           else missing_docstrings i' = missing_docstrings i
       | None => missing_docstrings i' = missing_docstrings i
       end.
Proof.
  unfold ProjectAnalyzer.docstring_rule.
  destruct (get_docstrings inf) as [ds|]; [|exists i; repeat split].
  cbv zeta. destruct (0 <? ds_total_functions ds)%nat eqn:E;
    [|exists i; repeat split].
  apply Nat.ltb_lt in E. rewrite truediv_positive by exact E.
  cbn [rbind andb].
  destruct (Qltb _ _); eexists; repeat split.
Qed.

Lemma issues_step_spec (format_percent : Q -> string) (acc : issues)
  (file_path : string) (inf : info) :
  info_type inf = "Python" ->
  exists i2 acc',
    ProjectAnalyzer.issues_step format_percent acc (file_path, inf) = Ok acc'
    /\ ProjectAnalyzer.docstring_rule format_percent file_path inf
         (if (10 <? get_complexity inf 0)%Z then
            ProjectAnalyzer.add_high_complexity
              (file_path ++ " (complexity: "
               ++ PyStr.of_Z (get_complexity inf 0) ++ ")")%string acc
          else acc) = Ok i2
    /\ missing_docstrings acc' = missing_docstrings i2.
Proof.
  intros Hty. unfold ProjectAnalyzer.issues_step. rewrite Hty.
  cbn [String.eqb Ascii.eqb Bool.eqb andb negb].
  match goal with
  | |- context [ProjectAnalyzer.docstring_rule _ _ _ ?i1] =>
      destruct (docstring_rule_spec format_percent file_path inf i1)
        as (i2 & Hrule & _)
  end.
  exists i2. rewrite Hrule. cbn [rbind].
  destruct (get_unused_imports inf); destruct (get_line_count inf) as [n|];
    try destruct (500 <? n)%nat;
    match goal with |- context [if ?b then Ok _ else Ok _] => destruct b end;
    eexists; repeat split.
Qed.

(** [_detect_issues] returns. *)
Lemma issues_step_ok (format_percent : Q -> string) (acc : issues)
  (item : string * info) :
  exists acc', ProjectAnalyzer.issues_step format_percent acc item = Ok acc'.
Proof.
  destruct item as [file_path inf].
  destruct (String.eqb (info_type inf) "Python") eqn:E.
  - apply String.eqb_eq in E.
    destruct (issues_step_spec format_percent acc file_path inf E)
      as (_ & acc' & H & _). eauto.
  - unfold ProjectAnalyzer.issues_step. rewrite E. simpl. eauto.
Qed.

Lemma foldM_ok {A B : Type} (f : A -> B -> result A) :
  (forall a b, exists a', f a b = Ok a') ->
  forall l a, exists a', foldM f l a = Ok a'.
Proof.
  intros Hf l. induction l as [|b l IH]; intros a; simpl; [eauto|].
  destruct (Hf a b) as [a' ->]. simpl. apply IH.
Qed.

Lemma _detect_issues_ok (format_percent : Q -> string) (fa : dict info) :
  exists i, ProjectAnalyzer._detect_issues format_percent fa = Ok i.
Proof. apply foldM_ok. apply issues_step_ok. Qed.

(** What one round of the loop adds to [missing_docstrings]. *)
Lemma issues_step_missing (format_percent : Q -> string) (acc : issues)
  (item : string * info) :
  exists acc',
    ProjectAnalyzer.issues_step format_percent acc item = Ok acc'
    /\ missing_docstrings acc'
       = missing_docstrings acc ++ docstring_entries format_percent item.
Proof.
  unfold docstring_entries. destruct item as [file_path inf].
  unfold is_python. cbn [fst snd].
  destruct (String.eqb (info_type inf) "Python") eqn:Hty.
  - apply String.eqb_eq in Hty.
    destruct (issues_step_spec format_percent acc file_path inf Hty)
      as (i2 & acc' & Hstep & Hrule & Hacc).
    exists acc'. split; [exact Hstep|]. rewrite Hacc.
    match type of Hrule with
    | ProjectAnalyzer.docstring_rule _ _ _ ?i1 = _ =>
        destruct (docstring_rule_spec format_percent file_path inf i1)
          as (i2' & Hrule' & _ & _ & _ & _ & Hmiss);
        assert (Hi1 : missing_docstrings i1 = missing_docstrings acc)
          by (destruct (10 <? get_complexity inf 0)%Z; reflexivity)
    end.
    rewrite Hrule in Hrule'. injection Hrule' as <-.
    rewrite Hi1 in Hmiss.
    destruct (get_docstrings inf) as [ds|];
      [|now rewrite app_nil_r].
    cbv zeta in Hmiss |- *.
    destruct ((0 <? ds_total_functions ds)%nat && Qltb _ _);
      [exact Hmiss | now rewrite app_nil_r].
  - exists acc. split; [|now rewrite app_nil_r].
    unfold ProjectAnalyzer.issues_step. now rewrite Hty.
Qed.

(** The loop of [_detect_issues] appends to [missing_docstrings] the
    entries of the records, in the order of the records. *)
Lemma missing_docstrings_fold (format_percent : Q -> string)
  (fa : dict info) :
  forall acc,
  exists i,
    foldM (ProjectAnalyzer.issues_step format_percent) fa acc = Ok i
    /\ missing_docstrings i
       = missing_docstrings acc
         ++ flat_map (docstring_entries format_percent) fa.
Proof.
  induction fa as [|item fa IH]; intros acc; cbn [foldM flat_map].
  - exists acc. now rewrite app_nil_r.
  - destruct (issues_step_missing format_percent acc item)
      as (acc' & -> & Hacc).
    cbn [rbind]. destruct (IH acc') as (i & Hi & Hm).
    exists i. split; [exact Hi|]. now rewrite Hm, Hacc, <- app_assoc.
Qed.

Lemma _detect_issues_missing (format_percent : Q -> string)
  (fa : dict info) :
  exists i,
    ProjectAnalyzer._detect_issues format_percent fa = Ok i
    /\ missing_docstrings i = flat_map (docstring_entries format_percent) fa.
Proof.
  destruct (missing_docstrings_fold format_percent fa
              ProjectAnalyzer.issues_init) as (i & Hi & Hm).
  exists i. split; [exact Hi | exact Hm].
Qed.

(** C5.  Take the records that [_detect_issues] is given, and among
    them a record of type ["Python"] with docstring counts and at least
    one function.  The detector returns, and the [missing_docstrings]
    list of its result is the list it returns for the records before,
    then the entry of this record if its documented share is below one
    half and nothing if it is not, then the list it returns for the
    records after.  One documented function out of two adds no entry. *)
Theorem missing_docstrings_below_half (format_percent : Q -> string)
  (before after : dict info) (file_path : string) (inf : info)
  (ds : docstring_stats) :
  info_type inf = "Python" ->
  get_docstrings inf = Some ds ->
  0 < ds_total_functions ds ->
  let ratio :=
    (Z.of_nat (ds_functions ds) # Pos.of_nat (ds_total_functions ds))%Q in
  let entry :=
    (file_path ++ " (" ++ format_percent ratio
     ++ " functions documented)")%string in
  exists i0 i1 i,
    ProjectAnalyzer._detect_issues format_percent before = Ok i0
    /\ ProjectAnalyzer._detect_issues format_percent after = Ok i1
    /\ ProjectAnalyzer._detect_issues format_percent
         (before ++ (file_path, inf) :: after) = Ok i
    /\ ((ratio < 1 # 2)%Q
        /\ missing_docstrings i
           = missing_docstrings i0 ++ [entry] ++ missing_docstrings i1
        \/ ~ (ratio < 1 # 2)%Q
           /\ missing_docstrings i
              = missing_docstrings i0 ++ missing_docstrings i1)
    /\ (ds_functions ds = 1 -> ds_total_functions ds = 2 ->
        missing_docstrings i
        = missing_docstrings i0 ++ missing_docstrings i1).
Proof.
  intros Hty Hds Hpos ratio entry.
  destruct (_detect_issues_missing format_percent before) as (i0 & H0 & M0).
  destruct (_detect_issues_missing format_percent after) as (i1 & H1 & M1).
  destruct (_detect_issues_missing format_percent
              (before ++ (file_path, inf) :: after)) as (i & H & M).
  exists i0, i1, i. repeat (split; [assumption|]).
  rewrite flat_map_app in M. cbn [flat_map] in M.
  rewrite <- M0, <- M1 in M.
  assert (E : docstring_entries format_percent (file_path, inf)
              = if Qltb ratio (1 # 2)%Q then [entry] else []).
  { unfold docstring_entries, is_python. cbn [fst snd].
    rewrite Hty, Hds. cbv zeta. fold ratio. fold entry.
    apply Nat.ltb_lt in Hpos. rewrite Hpos. reflexivity. }
  rewrite E in M. clear E.
  destruct (Qltb ratio (1 # 2)%Q) eqn:E.
  - apply Qltb_lt in E. split; [left; split; assumption|].
    intros F1 F2. exfalso. revert E. unfold ratio. rewrite F1, F2.
    vm_compute. discriminate.
  - assert (~ (ratio < 1 # 2)%Q) as Hn
        by (rewrite <- Qltb_lt; congruence).
    split; [right; split; assumption | intros _ _; exact M].
Qed.

Lemma missing_docstrings_below_half_witness :
  let record total documented :=
    {| info_size := 120; info_extension := ".py"; info_type := "Python";
       info_rest :=
         Analysis {| classes := []; functions := []; imports := [];
                     line_count := 8; content_preview := "def f(): pass";
                     complexity := 1;
                     docstrings := {| ds_functions := documented;
                                      ds_classes := 0;
                                      ds_total_functions := total;
                                      ds_total_classes := 0 |};
                     unused_imports := [] |} |} in
  let format_percent (ratio : Q) :=
    if Qltb ratio (1 # 2)%Q then "0.0%" else "50.0%" in
  exists i,
    ProjectAnalyzer._detect_issues format_percent
      [("none.py", record 2 0); ("half.py", record 2 1)] = Ok i
    /\ missing_docstrings i = ["none.py (0.0% functions documented)"].
Proof.
  intros record format_percent.
  destruct (missing_docstrings_below_half format_percent
              [("none.py", record 2 0)] [] "half.py" (record 2 1) _
              eq_refl eq_refl (Nat.lt_0_succ 1))
    as (i0 & i1 & i & H0 & H1 & H & _ & Hhalf).
  exists i. split; [exact H|].
  rewrite (Hhalf eq_refl eq_refl).
  injection H0 as <-. injection H1 as <-. reflexivity.
Defined.

(** A parse-failure record adds nothing to the issues. *)
Lemma issues_step_parse_failure (format_percent : Q -> string)
  (acc : issues) (file_path : string) (size : nat) (error : string) :
  ProjectAnalyzer.issues_step format_percent acc
    (file_path, parse_failure_record size error) = Ok acc.
Proof. reflexivity. Qed.

Lemma total_lines_of_app (l1 l2 : dict info) :
  total_lines_of (l1 ++ l2) = total_lines_of l1 + total_lines_of l2.
Proof. unfold total_lines_of. now rewrite map_app, list_sum_app. Qed.

(** C7.  Put a parse-failure record anywhere among the records: the
    summary counts one file more and the same number of lines, and the
    five issue lists are what they are without the record. *)
Theorem parse_failure_record_counts (format_percent : Q -> string)
  (l1 l2 : dict info) (file_path : string) (size : nat) (error : string) :
  let r := parse_failure_record size error in
  (exists a a',
      ProjectAnalyzer._analyze_architecture (l1 ++ (file_path, r) :: l2) = Ok a
      /\ ProjectAnalyzer._analyze_architecture (l1 ++ l2) = Ok a'
      /\ total_files a = List.length (l1 ++ (file_path, r) :: l2)
      /\ total_files a = S (total_files a')
      /\ total_lines a = total_lines a')
  /\ ProjectAnalyzer._detect_issues format_percent (l1 ++ (file_path, r) :: l2)
     = ProjectAnalyzer._detect_issues format_percent (l1 ++ l2).
Proof.
  intros r. split.
  - destruct (_analyze_architecture_spec (l1 ++ (file_path, r) :: l2))
      as (a & Ha & _ & Hf & Hl & _).
    destruct (_analyze_architecture_spec (l1 ++ l2))
      as (a' & Ha' & _ & Hf' & Hl' & _).
    exists a, a'. repeat split; try assumption.
    + rewrite Hf, Hf', !length_app. simpl. lia.
    + rewrite Hl, Hl', !total_lines_of_app.
      change (total_lines_of ((file_path, r) :: l2))
        with (0 + total_lines_of l2). lia.
  - unfold ProjectAnalyzer._detect_issues. rewrite !foldM_app.
    destruct (foldM _ l1 _) as [acc|e]; [|reflexivity].
    cbn [rbind foldM]. unfold r. rewrite issues_step_parse_failure.
    reflexivity.
Qed.

(* ================================================================== *)
(** * Failures on single files *)
(* ================================================================== *)

Lemma file_type_of_py (f : file) :
  suffix f = ".py" -> ProjectAnalyzer._get_file_type f = "Python".
Proof. unfold ProjectAnalyzer._get_file_type. now intros ->. Qed.

(** With a size at hand [_analyze_file] returns a record, whatever
    reading and parsing do. *)
Lemma _analyze_file_ok (parse : string -> result Ast.node)
  (object_str : Ast.node -> string) (f : file) (size : nat) :
  stat f = Ok size ->
  exists inf,
    ProjectAnalyzer._analyze_file parse object_str f = Ok inf
    /\ info_size inf = size.
Proof.
  intros H. unfold ProjectAnalyzer._analyze_file. rewrite H. simpl. eauto.
Qed.

(** A source file that cannot be read or parsed gets the parse-failure
    record. *)
Lemma parse_failure_is_recorded (parse : string -> result Ast.node)
  (object_str : Ast.node -> string) (f : file) (size : nat) (e : exn) :
  suffix f = ".py" ->
  stat f = Ok size ->
  ProjectAnalyzer.analyze_source parse object_str f = Raise e ->
  ProjectAnalyzer._analyze_file parse object_str f
  = Ok (parse_failure_record size (str_of_exn e)).
Proof.
  intros Hs Hst He. unfold ProjectAnalyzer._analyze_file.
  rewrite Hst, (file_type_of_py f Hs). simpl.
  unfold ProjectAnalyzer._analyze_python_file. rewrite He, Hs. reflexivity.
Qed.

(** A file of another kind that cannot be opened, or whose reading
    fails before 200 characters are there, gets the marker. *)
Lemma unreadable_file_is_marked (parse : string -> result Ast.node)
  (object_str : Ast.node -> string) (f : file) (size : nat) (e : exn) :
  String.eqb (suffix f) ".py" = false ->
  stat f = Ok size ->
  opened f = Raise e
  \/ (exists st, opened f = Ok st /\ failure st = Some e
                 /\ String.length (readable st) < 200) ->
  exists inf,
    ProjectAnalyzer._analyze_file parse object_str f = Ok inf
    /\ info_rest inf = PreviewOnly "[Binary or unreadable file]".
Proof.
  intros Hs Hst He. unfold ProjectAnalyzer._analyze_file.
  rewrite Hst. simpl. rewrite Hs.
  unfold ProjectAnalyzer._get_content_preview, read_chars.
  destruct He as [-> | (st & -> & -> & Hlen)]; [eauto|].
  apply Nat.leb_gt in Hlen. rewrite Hlen. eauto.
Qed.

(** The size is asked for outside of any handler. *)
Lemma _analyze_file_raises (parse : string -> result Ast.node)
  (object_str : Ast.node -> string) (f : file) (e : exn) :
  stat f = Raise e ->
  ProjectAnalyzer._analyze_file parse object_str f = Raise e.
Proof.
  intros H. unfold ProjectAnalyzer._analyze_file. now rewrite H.
Qed.

(** C4, on a project of three files whose second is a dangling symbolic
    link: [stat] fails on it.  The exception leaves [_analyze_file] and
    [analyze_project]; the run ends after the second notification,
    without a result and without a look at the third file. *)
Theorem stat_failure_aborts_run :
  let parse := fun _ : string => Ok (Ast.Module []) in
  let object_str := fun _ : Ast.node => EmptyString in
  let format_percent := fun _ : Q => EmptyString in
  let missing := OSError "[Errno 2] No such file or directory: 'link.txt'" in
  let files :=
    [ {| name := "a.py"; rel_path := "a.py"; suffix := ".py";
         stat := Ok 10; opened := text_of "x = 1" |};
      {| name := "link.txt"; rel_path := "link.txt"; suffix := ".txt";
         stat := Raise missing; opened := Raise missing |};
      {| name := "b.txt"; rel_path := "b.txt"; suffix := ".txt";
         stat := Ok 5; opened := text_of "hello" |} ] in
  let outcome :=
    ProjectAnalyzer.analyze_project parse object_str format_percent true
      (fun _ => false) files initial_state in
  ProjectAnalyzer._analyze_file parse object_str
    {| name := "link.txt"; rel_path := "link.txt"; suffix := ".txt";
       stat := Raise missing; opened := Raise missing |} = Raise missing
  /\ snd outcome = Raise missing
  /\ trace (fst outcome)
     = [ Progress "Starting project analysis..."; IsSet false;
         Progress "Analyzing a.py... (1/3)"; IsSet false;
         Progress "Analyzing link.txt... (2/3)" ].
Proof. cbv zeta. repeat split. Qed.

(* ================================================================== *)
(** * The orchestrator *)
(* ================================================================== *)

Lemma feedback_text_ok (format_percent : Q -> string) (file_path : string)
  (inf : info) :
  exists text,
    ProjectAnalyzer.feedback_text format_percent file_path inf = Ok text.
Proof.
  unfold ProjectAnalyzer.feedback_text.
  destruct (String.eqb (info_type inf) "Python"); [|eauto].
  destruct (get_docstrings inf) as [ds|]; [|simpl; eauto].
  destruct (0 <? ds_total_functions ds)%nat eqn:E; [|simpl; eauto].
  apply Nat.ltb_lt in E. rewrite truediv_positive by exact E. simpl. eauto.
Qed.

Lemma _generate_file_feedback_ok (format_percent : Q -> string)
  (fa : dict info) :
  exists feedback,
    ProjectAnalyzer._generate_file_feedback format_percent fa = Ok feedback.
Proof.
  apply foldM_ok. intros feedback [file_path inf].
  destruct (feedback_text_ok format_percent file_path inf) as [text ->].
  simpl. eauto.
Qed.

Lemma _create_summary_ok (a : architecture) (i : issues) :
  exists summ, ProjectAnalyzer._create_summary a i = Ok summ.
Proof.
  unfold ProjectAnalyzer._create_summary.
  rewrite truediv_positive by lia. simpl. eauto.
Qed.

Lemma notify_eq (progress_callback : bool) (msg : string) (s : state) :
  ProjectAnalyzer.notify progress_callback msg s
  = ({| flag := flag s; polls := polls s;
        trace := trace s ++ note progress_callback msg |}, Ok tt).
Proof.
  unfold ProjectAnalyzer.notify, note. destruct progress_callback;
    [reflexivity|]. destruct s. simpl. now rewrite app_nil_r.
Qed.

(** The loop when the first request to cancel is seen at the boundary
    before file [k]: the [k] files before it are processed, file [k] and
    those after it are not. *)
Lemma file_loop_cancelled (parse : string -> result Ast.node)
  (object_str : Ast.node -> string) (progress_callback : bool)
  (cancel_requests : nat -> bool) (total : nat) (k : nat) :
  forall (files : list file) (i p : nat) (tr : list event) (fa : dict info),
  k < List.length files ->
  (forall j, j < k -> cancel_requests (p + j) = false) ->
  cancel_requests (p + k) = true ->
  Forall (fun f => exists size, stat f = Ok size) (firstn k files) ->
  exists fa',
    analyze_files parse object_str (firstn k files) fa = Ok fa'
    /\ ProjectAnalyzer.file_loop parse object_str progress_callback
         cancel_requests total i files fa
         {| flag := false; polls := p; trace := tr |}
       = ({| flag := true; polls := S (p + k);
             trace := tr ++ loop_events progress_callback total i
                              (firstn k files) ++ [IsSet true] |},
          Ok fa').
Proof.
  induction k as [|k IH]; intros [|f rest] i p tr fa Hlen Hno Hyes Hstat;
    try (simpl in Hlen; lia).
  - exists fa. split; [reflexivity|].
    cbn [ProjectAnalyzer.file_loop]. unfold bind, ProjectAnalyzer.is_set.
    cbn [flag polls trace orb]. rewrite Nat.add_0_r in Hyes. rewrite Hyes.
    unfold ret. now rewrite Nat.add_0_r.
  - cbn [firstn] in Hstat. inversion Hstat as [|? ? [size Hsize] Hrest]; subst.
    destruct (_analyze_file_ok parse object_str f size Hsize)
      as (inf & Hinf & _).
    destruct (IH rest (S i) (S p)
                (tr ++ IsSet false
                    :: note progress_callback
                         ("Analyzing " ++ name f ++ "... ("
                          ++ PyStr.of_nat (i + 1) ++ "/"
                          ++ PyStr.of_nat total ++ ")"))
                (dict_set fa (rel_path f) inf))
      as (fa' & Hfiles & Hloop).
    + simpl in Hlen. lia.
    + intros j Hj. rewrite Nat.add_succ_l, <- Nat.add_succ_r. apply Hno. lia.
    + rewrite Nat.add_succ_l, <- Nat.add_succ_r. exact Hyes.
    + exact Hrest.
    + exists fa'. split.
      * unfold analyze_files in *. cbn [firstn foldM]. rewrite Hinf.
        exact Hfiles.
      * cbn [ProjectAnalyzer.file_loop]. unfold bind at 1.
        unfold ProjectAnalyzer.is_set. cbn [flag polls trace orb].
        pose proof (Hno 0 (Nat.lt_0_succ k)) as H0.
        rewrite Nat.add_0_r in H0. rewrite H0.
        unfold bind at 1. rewrite notify_eq.
        cbn [flag polls trace]. unfold bind at 1, lift. rewrite Hinf.
        rewrite <- app_assoc. cbn [app].
        rewrite Hloop. cbn [firstn loop_events].
        rewrite <- !app_assoc. cbn [app].
        now rewrite Nat.add_succ_l, <- Nat.add_succ_r, <- app_assoc.
Qed.

Lemma bind_notify {B : Type} (progress_callback : bool) (msg : string)
  (k : unit -> run B) (s : state) :
  bind (ProjectAnalyzer.notify progress_callback msg) k s
  = k tt {| flag := flag s; polls := polls s;
            trace := trace s ++ note progress_callback msg |}.
Proof. unfold bind. now rewrite notify_eq. Qed.

Lemma bind_lift_ok {A B : Type} (a : A) (k : A -> run B) (s : state) :
  bind (lift (Ok a)) k s = k a s.
Proof. reflexivity. Qed.

Lemma after_first_cancel_app (pre post : list event) :
  ~ In (IsSet true) pre ->
  after_first_cancel (pre ++ IsSet true :: post) = post.
Proof.
  induction pre as [|e pre IH]; intros H; [reflexivity|].
  simpl in *. destruct e as [msg|[|]]; try (apply IH; tauto).
  exfalso. apply H. now left.
Qed.

Lemma loop_events_no_cancel (progress_callback : bool) (total : nat)
  (files : list file) :
  forall i, ~ In (IsSet true) (loop_events progress_callback total i files).
Proof.
  induction files as [|f rest IH]; intros i; simpl; [tauto|].
  intros [H|H]; [discriminate|].
  apply in_app_or in H. destruct H as [H|H]; [|now apply (IH (S i))].
  unfold note in H. destruct progress_callback; simpl in H;
    [destruct H as [H|[]]; discriminate | contradiction].
Qed.

(** C3, as the code has it.  When the first request to cancel is seen at
    the loop boundary before file [k], and the [k] files before it gave
    records, the run returns a bundle.  Its records are those of the
    first [k] files and its other parts are computed from them.  After
    the poll that saw the request no file is announced or processed; what
    follows is the four stage notifications, one more poll, and the
    notification of the cancellation (nothing at all without a
    callback). *)
Theorem cancelled_run_finishes_stages (parse : string -> result Ast.node)
  (object_str : Ast.node -> string) (format_percent : Q -> string)
  (progress_callback : bool) (cancel_requests : nat -> bool)
  (files : list file) (k : nat) :
  k < List.length files ->
  (forall j, j < k -> cancel_requests j = false) ->
  cancel_requests k = true ->
  Forall (fun f => exists size, stat f = Ok size) (firstn k files) ->
  let stages :=
    note progress_callback "Analyzing project architecture..."
    ++ note progress_callback "Detecting potential issues..."
    ++ note progress_callback "Generating improvement suggestions..."
    ++ note progress_callback "Creating file-specific feedback..."
    ++ (if progress_callback
        then [IsSet true; Progress "Analysis cancelled"] else []) in
  exists s b,
    ProjectAnalyzer.analyze_project parse object_str format_percent
      progress_callback cancel_requests files initial_state = (s, Ok b)
    /\ trace s
       = note progress_callback "Starting project analysis..."
         ++ loop_events progress_callback (List.length files) 0
              (firstn k files)
         ++ IsSet true :: stages
    /\ after_first_cancel (trace s) = stages
    /\ analyze_files parse object_str (firstn k files) []
       = Ok (file_analysis b)
    /\ ProjectAnalyzer._analyze_architecture (file_analysis b)
       = Ok (bundle_architecture b)
    /\ ProjectAnalyzer._detect_issues format_percent (file_analysis b)
       = Ok (bundle_issues b)
    /\ bundle_suggestions b
       = ProjectAnalyzer._generate_suggestions (bundle_architecture b)
           (bundle_issues b)
    /\ ProjectAnalyzer._generate_file_feedback format_percent
         (file_analysis b) = Ok (file_feedback b)
    /\ ProjectAnalyzer._create_summary (bundle_architecture b)
         (bundle_issues b) = Ok (bundle_summary b).
Proof.
  intros Hlen Hno Hyes Hstat stages.
  destruct (file_loop_cancelled parse object_str progress_callback
              cancel_requests (List.length files) k files 0 0
              (note progress_callback "Starting project analysis...") []
              Hlen Hno Hyes Hstat) as (fa & Hfiles & Hloop).
  destruct (_analyze_architecture_spec fa) as (arch & Harch & _).
  destruct (_detect_issues_ok format_percent fa) as (iss & Hiss).
  destruct (_generate_file_feedback_ok format_percent fa) as (fb & Hfb).
  destruct (_create_summary_ok arch iss) as (summ & Hsumm).
  assert (Hrun :
    ProjectAnalyzer.analyze_project parse object_str format_percent
      progress_callback cancel_requests files initial_state
    = ({| flag := true;
          polls := if progress_callback then S (S k) else S k;
          trace := note progress_callback "Starting project analysis..."
                   ++ loop_events progress_callback (List.length files) 0
                        (firstn k files)
                   ++ IsSet true :: stages |},
       Ok {| file_analysis := fa; bundle_architecture := arch;
             bundle_issues := iss;
             bundle_suggestions :=
               ProjectAnalyzer._generate_suggestions arch iss;
             file_feedback := fb; bundle_summary := summ |})).
  { unfold ProjectAnalyzer.analyze_project.
    unfold bind at 1. unfold ProjectAnalyzer.clear at 1.
    cbn [initial_state flag polls trace].
    rewrite bind_notify. cbn [flag polls trace app].
    unfold bind at 1. rewrite Hloop. cbn [Nat.add].
    rewrite bind_notify, Harch, bind_lift_ok.
    rewrite bind_notify, Hiss, bind_lift_ok.
    rewrite bind_notify. cbv zeta.
    rewrite bind_notify, Hfb, bind_lift_ok.
    cbn [flag polls trace]. unfold stages.
    destruct progress_callback.
    - unfold bind at 1. unfold bind at 1.
      unfold ProjectAnalyzer.is_set at 1. cbn [flag polls trace orb].
      rewrite notify_eq. cbn [flag polls trace].
      rewrite Hsumm, bind_lift_ok. unfold ret, note.
      rewrite <- !app_assoc. reflexivity.
    - unfold bind at 1. unfold ret at 1.
      rewrite Hsumm, bind_lift_ok. unfold ret, note.
      rewrite <- !app_assoc. reflexivity. }
  eexists. eexists. split; [exact Hrun|]. cbn [trace file_analysis
    bundle_architecture bundle_issues bundle_suggestions file_feedback
    bundle_summary].
  repeat split; try assumption.
  rewrite app_assoc. apply after_first_cancel_app.
  intros H. apply in_app_or in H. destruct H as [H|H].
  - unfold note in H. destruct progress_callback; simpl in H;
      [destruct H as [H|[]]; discriminate | contradiction].
  - exact (loop_events_no_cancel _ _ _ _ H).
Qed.

Lemma cancelled_run_finishes_stages_witness :
  let files :=
    [ {| name := "a.txt"; rel_path := "a.txt"; suffix := ".txt";
         stat := Ok 5; opened := text_of "hello" |};
      {| name := "b.txt"; rel_path := "b.txt"; suffix := ".txt";
         stat := Ok 5; opened := text_of "world" |} ] in
  exists s b,
    ProjectAnalyzer.analyze_project (fun _ => Ok (Ast.Module []))
      (fun _ => EmptyString) (fun _ => EmptyString) true
      (fun poll => (poll =? 1)%nat) files initial_state = (s, Ok b)
    /\ after_first_cancel (trace s)
       = [ Progress "Analyzing project architecture...";
           Progress "Detecting potential issues...";
           Progress "Generating improvement suggestions...";
           Progress "Creating file-specific feedback...";
           IsSet true; Progress "Analysis cancelled" ]
    /\ keys (file_analysis b) = ["a.txt"].
Proof.
  intros files.
  assert (Hno : forall j, j < 1 -> (j =? 1)%nat = false)
    by (intros [|j] Hj; [reflexivity | lia]).
  assert (Hstat : Forall (fun f => exists size, stat f = Ok size)
                    (firstn 1 files))
    by (repeat constructor; exists 5; reflexivity).
  destruct (cancelled_run_finishes_stages (fun _ => Ok (Ast.Module []))
              (fun _ => EmptyString) (fun _ => EmptyString) true
              (fun poll => (poll =? 1)%nat) files 1
              (Nat.lt_succ_diag_r 1) Hno eq_refl Hstat)
    as (s & b & Hrun & _ & Hafter & Hfiles & _).
  exists s, b. split; [exact Hrun|]. split; [exact Hafter|].
  remember (file_analysis b) as fa eqn:Efa. clear Efa.
  vm_compute in Hfiles. injection Hfiles as <-. reflexivity.
Defined.

(** C3, as the claim has it, fails.  Two files, a callback, and a
    request to cancel that the second poll sees: after that poll the
    callback is called five times, not at most once. *)
Lemma cancelled_run_counterexample :
  let files :=
    [ {| name := "a.txt"; rel_path := "a.txt"; suffix := ".txt";
         stat := Ok 5; opened := text_of "hello" |};
      {| name := "b.txt"; rel_path := "b.txt"; suffix := ".txt";
         stat := Ok 5; opened := text_of "world" |} ] in
  let outcome :=
    ProjectAnalyzer.analyze_project (fun _ => Ok (Ast.Module []))
      (fun _ => EmptyString) (fun _ => EmptyString) true
      (fun poll => (poll =? 1)%nat) files initial_state in
  trace (fst outcome)
  = [ Progress "Starting project analysis..."; IsSet false;
      Progress "Analyzing a.txt... (1/2)"; IsSet true;
      Progress "Analyzing project architecture...";
      Progress "Detecting potential issues...";
      Progress "Generating improvement suggestions...";
      Progress "Creating file-specific feedback...";
      IsSet true; Progress "Analysis cancelled" ]
  /\ List.length
       (filter is_progress (after_first_cancel (trace (fst outcome)))) = 5
  /\ ~ (List.length
          (filter is_progress (after_first_cancel (trace (fst outcome))))
        <= 1).
Proof.
  cbv zeta. split; [reflexivity|]. split; [reflexivity|].
  vm_compute. intros H.
  repeat match goal with H : _ <= _ |- _ => inversion H; clear H end.
Qed.

(** ** Runs that are not cancelled *)

(** The loop over files that all have a size, without a request to
    cancel: every file is processed, whatever reading and parsing do. *)
Lemma file_loop_completes (parse : string -> result Ast.node)
  (object_str : Ast.node -> string) (progress_callback : bool)
  (cancel_requests : nat -> bool) (total : nat) (files : list file) :
  forall (i p : nat) (tr : list event) (fa : dict info),
  (forall j, j < List.length files -> cancel_requests (p + j) = false) ->
  Forall (fun f => exists size, stat f = Ok size) files ->
  exists fa',
    analyze_files parse object_str files fa = Ok fa'
    /\ ProjectAnalyzer.file_loop parse object_str progress_callback
         cancel_requests total i files fa
         {| flag := false; polls := p; trace := tr |}
       = ({| flag := false; polls := p + List.length files;
             trace := tr ++ loop_events progress_callback total i files |},
          Ok fa').
Proof.
  induction files as [|f rest IH]; intros i p tr fa Hno Hstat.
  - exists fa. split; [reflexivity|]. simpl. unfold ret.
    now rewrite Nat.add_0_r, app_nil_r.
  - inversion Hstat as [|? ? [size Hsize] Hrest]; subst.
    destruct (_analyze_file_ok parse object_str f size Hsize)
      as (inf & Hinf & _).
    destruct (IH (S i) (S p)
                (tr ++ IsSet false
                    :: note progress_callback
                         ("Analyzing " ++ name f ++ "... ("
                          ++ PyStr.of_nat (i + 1) ++ "/"
                          ++ PyStr.of_nat total ++ ")"))
                (dict_set fa (rel_path f) inf))
      as (fa' & Hfiles & Hloop).
    + intros j Hj. rewrite Nat.add_succ_l, <- Nat.add_succ_r.
      apply Hno. simpl. lia.
    + exact Hrest.
    + exists fa'. split.
      * unfold analyze_files in *. cbn [foldM]. rewrite Hinf. exact Hfiles.
      * cbn [ProjectAnalyzer.file_loop]. unfold bind at 1.
        unfold ProjectAnalyzer.is_set. cbn [flag polls trace orb].
        pose proof (Hno 0 (Nat.lt_0_succ _)) as H0.
        rewrite Nat.add_0_r in H0. rewrite H0.
        unfold bind at 1. rewrite notify_eq.
        cbn [flag polls trace]. unfold bind at 1, lift. rewrite Hinf.
        rewrite <- app_assoc. cbn [app]. rewrite Hloop.
        cbn [loop_events List.length].
        rewrite <- !app_assoc. cbn [app].
        now rewrite Nat.add_succ_l, <- Nat.add_succ_r.
Qed.

(** The loop when file [k] has no size: the exception ends it. *)
Lemma file_loop_stat_failure (parse : string -> result Ast.node)
  (object_str : Ast.node -> string) (progress_callback : bool)
  (cancel_requests : nat -> bool) (total : nat) (k : nat) :
  forall (files : list file) (i p : nat) (tr : list event) (fa : dict info)
         (e : exn),
  (forall j, j <= k -> cancel_requests (p + j) = false) ->
  Forall (fun f => exists size, stat f = Ok size) (firstn k files) ->
  option_map stat (nth_error files k) = Some (Raise e) ->
  ProjectAnalyzer.file_loop parse object_str progress_callback
    cancel_requests total i files fa
    {| flag := false; polls := p; trace := tr |}
  = ({| flag := false; polls := S (p + k);
        trace := tr ++ loop_events progress_callback total i
                         (firstn (S k) files) |},
     Raise e).
Proof.
  induction k as [|k IH]; intros [|f rest] i p tr fa e Hno Hstat Hk;
    try discriminate.
  - cbn [nth_error option_map] in Hk. injection Hk as Hk.
    cbn [ProjectAnalyzer.file_loop]. unfold bind at 1.
    unfold ProjectAnalyzer.is_set. cbn [flag polls trace orb].
    pose proof (Hno 0 (Nat.le_refl 0)) as H0.
    rewrite Nat.add_0_r in H0. rewrite H0.
    unfold bind at 1. rewrite notify_eq. cbn [flag polls trace].
    unfold bind at 1, lift.
    rewrite (_analyze_file_raises parse object_str f e Hk).
    cbn [firstn loop_events]. rewrite <- app_assoc. cbn [app].
    now rewrite Nat.add_0_r, app_nil_r.
  - cbn [firstn] in Hstat.
    inversion Hstat as [|? ? [size Hsize] Hrest]; subst.
    destruct (_analyze_file_ok parse object_str f size Hsize)
      as (inf & Hinf & _).
    cbn [ProjectAnalyzer.file_loop]. unfold bind at 1.
    unfold ProjectAnalyzer.is_set. cbn [flag polls trace orb].
    pose proof (Hno 0 (Nat.le_0_l _)) as H0.
    rewrite Nat.add_0_r in H0. rewrite H0.
    unfold bind at 1. rewrite notify_eq. cbn [flag polls trace].
    unfold bind at 1, lift. rewrite Hinf.
    rewrite (IH rest (S i) (S p) _ _ e).
    + cbn [firstn loop_events]. rewrite <- !app_assoc. cbn [app].
      now rewrite Nat.add_succ_l, <- Nat.add_succ_r.
    + intros j Hj. rewrite Nat.add_succ_l, <- Nat.add_succ_r.
      apply Hno. lia.
    + exact Hrest.
    + exact Hk.
Qed.

(** A run in which every file has a size and nobody cancels returns a
    bundle with the records of all files: failures to read or to parse
    are inside the records. *)
Lemma analyze_project_completes (parse : string -> result Ast.node)
  (object_str : Ast.node -> string) (format_percent : Q -> string)
  (progress_callback : bool) (cancel_requests : nat -> bool)
  (files : list file) :
  (forall j, cancel_requests j = false) ->
  Forall (fun f => exists size, stat f = Ok size) files ->
  exists s b,
    ProjectAnalyzer.analyze_project parse object_str format_percent
      progress_callback cancel_requests files initial_state = (s, Ok b)
    /\ analyze_files parse object_str files [] = Ok (file_analysis b)
    /\ trace s
       = note progress_callback "Starting project analysis..."
         ++ loop_events progress_callback (List.length files) 0 files
         ++ note progress_callback "Analyzing project architecture..."
         ++ note progress_callback "Detecting potential issues..."
         ++ note progress_callback "Generating improvement suggestions..."
         ++ note progress_callback "Creating file-specific feedback..."
         ++ (if progress_callback
             then [IsSet false; Progress "Analysis completed"] else []).
Proof.
  intros Hno Hstat.
  destruct (file_loop_completes parse object_str progress_callback
              cancel_requests (List.length files) files 0 0
              (note progress_callback "Starting project analysis...") []
              (fun j _ => Hno (0 + j)) Hstat) as (fa & Hfiles & Hloop).
  destruct (_analyze_architecture_spec fa) as (arch & Harch & _).
  destruct (_detect_issues_ok format_percent fa) as (iss & Hiss).
  destruct (_generate_file_feedback_ok format_percent fa) as (fb & Hfb).
  destruct (_create_summary_ok arch iss) as (summ & Hsumm).
  unfold ProjectAnalyzer.analyze_project.
  unfold bind at 1. unfold ProjectAnalyzer.clear at 1.
  cbn [initial_state flag polls trace].
  rewrite bind_notify. cbn [flag polls trace app].
  unfold bind at 1. rewrite Hloop. cbn [Nat.add].
  rewrite bind_notify, Harch, bind_lift_ok.
  rewrite bind_notify, Hiss, bind_lift_ok.
  rewrite bind_notify. cbv zeta.
  rewrite bind_notify, Hfb, bind_lift_ok.
  cbn [flag polls trace].
  destruct progress_callback.
  - unfold bind at 1. unfold bind at 1.
    unfold ProjectAnalyzer.is_set at 1. cbn [flag polls trace orb].
    rewrite Hno, notify_eq. cbn [flag polls trace].
    rewrite Hsumm, bind_lift_ok. unfold ret, note.
    eexists. eexists. split; [reflexivity|]. cbn [file_analysis trace].
    split; [exact Hfiles|]. now rewrite <- !app_assoc.
  - unfold bind at 1. unfold ret at 1.
    rewrite Hsumm, bind_lift_ok. unfold ret, note.
    eexists. eexists. split; [reflexivity|]. cbn [file_analysis trace].
    split; [exact Hfiles|]. now rewrite <- !app_assoc.
Qed.

(** A run in which file [k] has no size, the files before it have one
    and nobody cancels before it ends with the exception of [stat]. *)
Lemma analyze_project_stat_failure (parse : string -> result Ast.node)
  (object_str : Ast.node -> string) (format_percent : Q -> string)
  (progress_callback : bool) (cancel_requests : nat -> bool)
  (files : list file) (k : nat) (e : exn) :
  (forall j, j <= k -> cancel_requests j = false) ->
  Forall (fun f => exists size, stat f = Ok size) (firstn k files) ->
  option_map stat (nth_error files k) = Some (Raise e) ->
  snd (ProjectAnalyzer.analyze_project parse object_str format_percent
         progress_callback cancel_requests files initial_state)
  = Raise e.
Proof.
  intros Hno Hstat Hk.
  unfold ProjectAnalyzer.analyze_project.
  unfold bind at 1. unfold ProjectAnalyzer.clear at 1.
  cbn [initial_state flag polls trace].
  rewrite bind_notify. cbn [flag polls trace app].
  unfold bind at 1.
  rewrite (file_loop_stat_failure parse object_str progress_callback
             cancel_requests (List.length files) k files 0 0 _ [] e
             Hno Hstat Hk).
  reflexivity.
Qed.

(* ================================================================== *)
(** * The enumeration of the files *)
(* ================================================================== *)

(** Induction on directories: the property holds for a directory when
    it holds for its subdirectories. *)
Fixpoint dir_tree_induction (P : dir_tree -> Prop)
  (step : forall n fs ds, Forall P ds -> P (Dir n fs ds)) (d : dir_tree)
  : P d :=
  match d with
  | Dir n fs ds =>
      step n fs ds
        ((fix all (l : list dir_tree) : Forall P l :=
            match l with
            | [] => Forall_nil P
            | x :: r =>
                Forall_cons x (dir_tree_induction P step x) (all r)
            end) ds)
  end.

Lemma walk_files_spec (exclude_dirs : list string) (d : dir_tree) :
  forall root p,
  In p (walk_files exclude_dirs root d)
  <-> exists q, p = root ++ q /\ file_under exclude_dirs d q.
Proof.
  induction d as [n fs ds IH] using dir_tree_induction.
  intros root p. cbn [walk_files]. rewrite in_app_iff, in_map_iff, in_flat_map.
  split.
  - intros [[f [<- Hf]] | [sub [Hsub Hp]]].
    + exists [f]. split; [reflexivity | now constructor].
    + destruct (excluded exclude_dirs (name_of_dir sub)) eqn:E;
        [contradiction|].
      rewrite Forall_forall in IH. apply (IH sub Hsub) in Hp.
      destruct Hp as [q [-> Hq]].
      exists (name_of_dir sub :: q). split.
      * now rewrite <- app_assoc.
      * now apply file_below.
  - intros [q [-> Hq]]. inversion Hq as [? ? ? f Hf | ? ? ? sub q' Hsub He Hq'];
      subst.
    + left. exists f. auto.
    + right. exists sub. split; [exact Hsub|]. rewrite He.
      rewrite Forall_forall in IH. apply (IH sub Hsub).
      exists q'. split; [|exact Hq']. now rewrite <- app_assoc.
Qed.

Lemma file_under_directories (exclude_dirs : list string) (d : dir_tree)
  (p : list string) :
  file_under exclude_dirs d p ->
  p <> [] /\ forall c, In c (removelast p) -> excluded exclude_dirs c = false.
Proof.
  induction 1 as [n fs ds f Hf | n fs ds sub p Hsub He Hp [Hne IH]].
  - split; [discriminate | intros c []].
  - split; [discriminate|]. intros c Hc.
    destruct p as [|x p]; [congruence|].
    cbn [removelast] in Hc. destruct Hc as [<- | Hc]; [exact He|].
    apply IH. exact Hc.
Qed.

Lemma excluded_spec (exclude_dirs : list string) (d : string) :
  excluded exclude_dirs d = true <-> In d exclude_dirs.
Proof.
  unfold excluded. rewrite existsb_exists. split.
  - intros [x [Hx E]]. apply String.eqb_eq in E. now subst.
  - intros H. exists d. split; [exact H | apply String.eqb_refl].
Qed.

Lemma file_under_same_exclusions (ex1 ex2 : list string) :
  (forall c, excluded ex1 c = excluded ex2 c) ->
  forall d root, walk_files ex1 root d = walk_files ex2 root d.
Proof.
  intros Hex d. induction d as [n fs ds IH] using dir_tree_induction.
  intros root. cbn [walk_files]. f_equal.
  induction IH as [|sub ds Hsub _ IHds]; [reflexivity|].
  cbn [flat_map]. rewrite IHds, Hex, Hsub. reflexivity.
Qed.

(** X1.  [_get_files] lists exactly the files that can be reached from
    the root through directories whose names are not excluded: no
    listed path has an excluded name among its directories, at any
    depth, and both classes list the same files in the same order. *)
Theorem get_files_skips_excluded_directories (root : dir_tree)
  (p : list string) :
  (In p (ProjectAnalyzer._get_files root)
   <-> file_under ProjectAnalyzer.exclude_dirs root p)
  /\ (In p (ProjectAnalyzer._get_files root) ->
      forall c, In c (removelast p) ->
                ~ In c [".git"; "__pycache__"; ".venv"; "node_modules";
                        ".idea"; "build"; "dist"])
  /\ ProjectScanner._get_files root = ProjectAnalyzer._get_files root.
Proof.
  unfold ProjectAnalyzer._get_files, ProjectScanner._get_files.
  assert (Hiff : In p (walk_files ProjectAnalyzer.exclude_dirs [] root)
                 <-> file_under ProjectAnalyzer.exclude_dirs root p).
  { rewrite walk_files_spec. split.
    - intros [q [-> Hq]]. exact Hq.
    - intros H. exists p. auto. }
  split; [exact Hiff|]. split.
  - intros Hp c Hc Hin. apply Hiff in Hp.
    destruct (file_under_directories _ _ _ Hp) as [_ Hd].
    specialize (Hd c Hc).
    assert (excluded ProjectAnalyzer.exclude_dirs c = true) as E.
    { apply excluded_spec. simpl in Hin. simpl. tauto. }
    congruence.
  - apply file_under_same_exclusions. intros c.
    unfold excluded, ProjectScanner.exclude_dirs, ProjectAnalyzer.exclude_dirs.
    cbn [existsb]. destruct (String.eqb c "__pycache__");
      repeat (rewrite ?orb_true_r, ?orb_false_r; cbn [orb]); reflexivity.
Qed.

(* ================================================================== *)
(** * The scanner *)
(* ================================================================== *)

Lemma scanner_analyze_file_ok (parse : string -> result Ast.node) (f : file)
  (size : nat) :
  stat f = Ok size ->
  exists inf, ProjectScanner._analyze_file parse f = Ok inf.
Proof.
  intros H. unfold ProjectScanner._analyze_file. rewrite H. simpl. eauto.
Qed.

Lemma scan_loop_cancelled (parse : string -> result Ast.node)
  (progress_callback : bool) (cancel_requests : nat -> bool)
  (total : nat) (k : nat) :
  forall (files : list file) (i p : nat) (tr : list event)
         (files_info : dict ProjectScanner.scan_info),
  k < List.length files ->
  (forall j, j < k -> cancel_requests (p + j) = false) ->
  cancel_requests (p + k) = true ->
  Forall (fun f => exists size, stat f = Ok size) (firstn k files) ->
  exists info',
    scan_files parse (firstn k files) files_info = Ok info'
    /\ ProjectScanner.scan_loop parse progress_callback cancel_requests
         total i files files_info
         {| flag := false; polls := p; trace := tr |}
       = ({| flag := true; polls := S (p + k);
             trace := tr ++ scan_events progress_callback total i
                              (firstn k files) ++ [IsSet true] |},
          Ok info').
Proof.
  induction k as [|k IH];
    intros [|f rest] i p tr files_info Hlen Hno Hyes Hstat;
    try (simpl in Hlen; lia).
  - exists files_info. split; [reflexivity|].
    cbn [ProjectScanner.scan_loop]. unfold bind, ProjectAnalyzer.is_set.
    cbn [flag polls trace orb]. rewrite Nat.add_0_r in Hyes. rewrite Hyes.
    unfold ret. now rewrite Nat.add_0_r.
  - cbn [firstn] in Hstat.
    inversion Hstat as [|? ? [size Hsize] Hrest]; subst.
    destruct (scanner_analyze_file_ok parse f size Hsize) as (inf & Hinf).
    destruct (IH rest (S i) (S p)
                (tr ++ IsSet false
                    :: note progress_callback
                         ("Scanning " ++ name f ++ "... ("
                          ++ PyStr.of_nat (i + 1) ++ "/"
                          ++ PyStr.of_nat total ++ ")"))
                (dict_set files_info (rel_path f) inf))
      as (info' & Hfiles & Hloop).
    + simpl in Hlen. lia.
    + intros j Hj. rewrite Nat.add_succ_l, <- Nat.add_succ_r. apply Hno. lia.
    + rewrite Nat.add_succ_l, <- Nat.add_succ_r. exact Hyes.
    + exact Hrest.
    + exists info'. split.
      * unfold scan_files in *. cbn [firstn foldM]. rewrite Hinf.
        exact Hfiles.
      * cbn [ProjectScanner.scan_loop]. unfold bind at 1.
        unfold ProjectAnalyzer.is_set. cbn [flag polls trace orb].
        pose proof (Hno 0 (Nat.lt_0_succ k)) as H0.
        rewrite Nat.add_0_r in H0. rewrite H0.
        unfold bind at 1. rewrite notify_eq.
        cbn [flag polls trace]. unfold bind at 1, lift. rewrite Hinf.
        rewrite <- app_assoc. cbn [app].
        rewrite Hloop. cbn [firstn scan_events].
        rewrite <- !app_assoc. cbn [app].
        now rewrite Nat.add_succ_l, <- Nat.add_succ_r, <- app_assoc.
Qed.

Lemma scan_events_no_cancel (progress_callback : bool) (total : nat)
  (files : list file) :
  forall i, ~ In (IsSet true) (scan_events progress_callback total i files).
Proof.
  induction files as [|f rest IH]; intros i; simpl; [tauto|].
  intros [H|H]; [discriminate|].
  apply in_app_or in H. destruct H as [H|H]; [|now apply (IH (S i))].
  unfold note in H. destruct progress_callback; simpl in H;
    [destruct H as [H|[]]; discriminate | contradiction].
Qed.

(** X2.  A scan whose first request to cancel is seen at the loop
    boundary before file [k] returns the records of the [k] files before
    it, and after the poll that saw the request it does one thing only:
    with a callback it polls once more and calls the callback once, with
    ["Scan cancelled"]. *)
Theorem cancelled_scan_notifies_once (parse : string -> result Ast.node)
  (progress_callback : bool) (cancel_requests : nat -> bool)
  (files : list file) (k : nat) :
  k < List.length files ->
  (forall j, j < k -> cancel_requests j = false) ->
  cancel_requests k = true ->
  Forall (fun f => exists size, stat f = Ok size) (firstn k files) ->
  exists s files_info,
    ProjectScanner.scan_directory parse progress_callback cancel_requests
      files initial_state = (s, Ok files_info)
    /\ scan_files parse (firstn k files) [] = Ok files_info
    /\ trace s
       = scan_events progress_callback (List.length files) 0 (firstn k files)
         ++ IsSet true
            :: (if progress_callback
                then [IsSet true; Progress "Scan cancelled"] else [])
    /\ after_first_cancel (trace s)
       = (if progress_callback
          then [IsSet true; Progress "Scan cancelled"] else []).
Proof.
  intros Hlen Hno Hyes Hstat.
  destruct (scan_loop_cancelled parse progress_callback cancel_requests
              (List.length files) k files 0 0 [] [] Hlen Hno Hyes Hstat)
    as (files_info & Hfiles & Hloop).
  assert (Hrun :
    ProjectScanner.scan_directory parse progress_callback cancel_requests
      files initial_state
    = ({| flag := true;
          polls := if progress_callback then S (S k) else S k;
          trace := scan_events progress_callback (List.length files) 0
                     (firstn k files)
                   ++ IsSet true
                      :: (if progress_callback
                          then [IsSet true; Progress "Scan cancelled"]
                          else []) |},
       Ok files_info)).
  { unfold ProjectScanner.scan_directory.
    unfold bind at 1. unfold ProjectAnalyzer.clear at 1.
    cbn [initial_state flag polls trace].
    unfold bind at 1. rewrite Hloop. cbn [Nat.add app].
    destruct progress_callback.
    - unfold bind at 1. unfold bind at 1.
      unfold ProjectAnalyzer.is_set at 1. cbn [flag polls trace orb].
      rewrite notify_eq. cbn [flag polls trace]. unfold ret, note.
      rewrite <- !app_assoc. reflexivity.
    - unfold bind at 1. unfold ret. reflexivity. }
  eexists. eexists. split; [exact Hrun|]. cbn [trace].
  split; [exact Hfiles|]. split; [reflexivity|].
  apply after_first_cancel_app. apply scan_events_no_cancel.
Qed.

Lemma cancelled_scan_notifies_once_witness :
  let files :=
    [ {| name := "a.txt"; rel_path := "a.txt"; suffix := ".txt";
         stat := Ok 5; opened := text_of "hello" |};
      {| name := "b.txt"; rel_path := "b.txt"; suffix := ".txt";
         stat := Ok 5; opened := text_of "world" |} ] in
  exists s files_info,
    ProjectScanner.scan_directory (fun _ => Ok (Ast.Module [])) true
      (fun poll => (poll =? 1)%nat) files initial_state = (s, Ok files_info)
    /\ after_first_cancel (trace s) = [IsSet true; Progress "Scan cancelled"]
    /\ keys files_info = ["a.txt"].
Proof.
  intros files.
  assert (Hno : forall j, j < 1 -> (j =? 1)%nat = false)
    by (intros [|j] Hj; [reflexivity | lia]).
  assert (Hstat : Forall (fun f => exists size, stat f = Ok size)
                    (firstn 1 files))
    by (repeat constructor; exists 5; reflexivity).
  destruct (cancelled_scan_notifies_once (fun _ => Ok (Ast.Module [])) true
              (fun poll => (poll =? 1)%nat) files 1
              (Nat.lt_succ_diag_r 1) Hno eq_refl Hstat)
    as (s & files_info & Hrun & Hfiles & _ & Hafter).
  exists s, files_info. split; [exact Hrun|]. split; [exact Hafter|].
  vm_compute in Hfiles. injection Hfiles as <-. reflexivity.
Defined.

Lemma collect_forget (object_str : Ast.node -> string) (nodes : list Ast.node) :
  forall cs fs imps,
  fold_left ProjectScanner.collect nodes
    (map forget_class cs, map forget_function fs, imps)
  = let '(cs', fs', imps') :=
      fold_left (ProjectAnalyzer.collect object_str) nodes (cs, fs, imps) in
    (map forget_class cs', map forget_function fs', imps').
Proof.
  induction nodes as [|n l IH]; intros cs fs imps; [reflexivity|].
  cbn [fold_left].
  destruct n; cbn [ProjectScanner.collect ProjectAnalyzer.collect];
    try apply IH.
  - rewrite <- IH. now rewrite map_app.
  - rewrite <- IH. now rewrite map_app.
Qed.

(** X3.  The record the scanner stores for a file is the record the
    analyzer stores for it without the analyzer's additions (the bases
    of the classes, the complexity scores, the docstring counts, the
    unused imports); the two fail on the same files, with the same
    exception. *)
Theorem scanner_record_is_analyzer_record (parse : string -> result Ast.node)
  (object_str : Ast.node -> string) (f : file) :
  ProjectScanner._analyze_file parse f
  = result_map forget_info (ProjectAnalyzer._analyze_file parse object_str f).
Proof.
  unfold ProjectScanner._analyze_file, ProjectAnalyzer._analyze_file.
  destruct (stat f) as [size|e]; [|reflexivity].
  cbn [rbind result_map]. unfold forget_info.
  cbn [info_size info_extension info_type info_rest]. do 2 f_equal.
  destruct (String.eqb (suffix f) ".py"); [|reflexivity].
  unfold ProjectScanner._analyze_python_file,
    ProjectAnalyzer._analyze_python_file,
    ProjectScanner.analyze_source, ProjectAnalyzer.analyze_source.
  destruct (contents f) as [content|e]; [|reflexivity].
  cbn [rbind]. destruct (parse content) as [tree|e]; [|reflexivity].
  cbn [rbind].
  pose proof (collect_forget object_str (Ast.walk tree) [] [] []) as H.
  cbn [map] in H. rewrite H.
  destruct (fold_left (ProjectAnalyzer.collect object_str) (Ast.walk tree)
              ([], [], [])) as [[cs fs] imps].
  reflexivity.
Qed.

(** X4.  The type label looks at the lowercased extension and the
    choice of the analysis at the extension as it is written: a file
    whose extension is [.py] in another case ([.PY], [.Py]) is labelled
    ["Python"] and gets a record with a 200-character preview and none
    of the analysis fields. *)
Theorem uppercase_py_is_python_without_analysis
  (parse : string -> result Ast.node) (object_str : Ast.node -> string)
  (f : file) (size : nat) :
  PyStr.lower (suffix f) = ".py" ->
  String.eqb (suffix f) ".py" = false ->
  stat f = Ok size ->
  exists inf,
    ProjectAnalyzer._analyze_file parse object_str f = Ok inf
    /\ info_type inf = "Python"
    /\ info_rest inf
       = PreviewOnly (ProjectAnalyzer._get_content_preview f 200)
    /\ get_line_count inf = None
    /\ get_docstrings inf = None.
Proof.
  intros Hlow Hne Hstat. unfold ProjectAnalyzer._analyze_file.
  rewrite Hstat. cbn [rbind]. rewrite Hne. eexists. split; [reflexivity|].
  cbn [info_type info_rest]. unfold ProjectAnalyzer._get_file_type.
  rewrite Hlow. repeat split.
Qed.

Lemma uppercase_py_is_python_without_analysis_witness :
  let f := {| name := "SETUP.PY"; rel_path := "SETUP.PY"; suffix := ".PY";
              stat := Ok 12; opened := text_of "import sys" |} in
  exists inf,
    ProjectAnalyzer._analyze_file (fun _ => Ok (Ast.Module []))
      (fun _ => EmptyString) f = Ok inf
    /\ info_type inf = "Python"
    /\ info_rest inf = PreviewOnly "import sys".
Proof.
  intros f.
  destruct (uppercase_py_is_python_without_analysis
              (fun _ => Ok (Ast.Module [])) (fun _ => EmptyString) f 12
              eq_refl eq_refl eq_refl)
    as (inf & Hrun & Hty & Hrest & _).
  exists inf. split; [exact Hrun|]. split; [exact Hty|]. exact Hrest.
Defined.

(* ================================================================== *)
(** * The analysis of one source file *)
(* ================================================================== *)

Lemma docstrings_fold (nodes : list Ast.node) :
  forall ds,
  let ds' :=
    fold_left
      (fun ds n =>
         match n with
         | Ast.FunctionDef _ _ _ _ _ _ d =>
             {| ds_functions :=
                  if ProjectAnalyzer.has_docstring d then S (ds_functions ds)
                  else ds_functions ds;
                ds_classes := ds_classes ds;
                ds_total_functions := S (ds_total_functions ds);
                ds_total_classes := ds_total_classes ds |}
         | Ast.ClassDef _ _ _ _ _ _ d =>
             {| ds_functions := ds_functions ds;
                ds_classes :=
                  if ProjectAnalyzer.has_docstring d then S (ds_classes ds)
                  else ds_classes ds;
                ds_total_functions := ds_total_functions ds;
                ds_total_classes := S (ds_total_classes ds) |}
         | _ => ds
         end) nodes ds in
  ds_total_functions ds'
  = ds_total_functions ds + count_nodes is_function_def nodes
  /\ ds_total_classes ds'
     = ds_total_classes ds + count_nodes is_class_def nodes
  /\ ds_functions ds' <= ds_functions ds + count_nodes is_function_def nodes
  /\ ds_classes ds' <= ds_classes ds + count_nodes is_class_def nodes
  /\ ds_functions ds <= ds_functions ds'
  /\ ds_classes ds <= ds_classes ds'.
Proof.
  unfold count_nodes.
  induction nodes as [|n l IH]; intros ds; cbn [fold_left].
  - simpl. lia.
  - cbv zeta in IH.
    destruct n;
      match goal with
      | |- context [fold_left ?f l ?d] =>
          specialize (IH d); cbv zeta; cbn [filter is_function_def is_class_def
                                              List.length];
          cbn [ds_functions ds_classes ds_total_functions ds_total_classes]
            in IH
      end;
      try (destruct (ProjectAnalyzer.has_docstring docstring));
      lia.
Qed.

(** X5.  In the counts of [_check_docstrings] the totals are the numbers
    of function and class definitions that [ast.walk] meets, at any
    depth, and the documented ones are never more than the totals. *)
Theorem docstring_counts_bounded (tree : Ast.node) :
  let ds := ProjectAnalyzer._check_docstrings tree in
  ds_total_functions ds = count_nodes is_function_def (Ast.walk tree)
  /\ ds_total_classes ds = count_nodes is_class_def (Ast.walk tree)
  /\ ds_functions ds <= ds_total_functions ds
  /\ ds_classes ds <= ds_total_classes ds.
Proof.
  pose proof (docstrings_fold (Ast.walk tree)
                {| ds_functions := 0; ds_classes := 0;
                   ds_total_functions := 0; ds_total_classes := 0 |}) as H.
  cbv zeta in *. fold (ProjectAnalyzer._check_docstrings tree) in H.
  cbn [ds_functions ds_classes ds_total_functions ds_total_classes] in H.
  lia.
Qed.

Lemma collect_fold (object_str : Ast.node -> string)
  (nodes : list Ast.node) :
  forall cs fs imps,
  let r := fold_left (ProjectAnalyzer.collect object_str) nodes
             (cs, fs, imps) in
  List.length (fst (fst r))
  = List.length cs + count_nodes is_class_def nodes
  /\ List.length (snd (fst r))
     = List.length fs + count_nodes is_function_def nodes
  /\ snd r = imps ++ flat_map ProjectAnalyzer.import_names nodes
  /\ (Forall (fun fn => (1 <= fn_complexity fn)%Z) fs ->
      Forall (fun fn => (1 <= fn_complexity fn)%Z) (snd (fst r))).
Proof.
  unfold count_nodes.
  induction nodes as [|n l IH]; intros cs fs imps; cbn [fold_left].
  - simpl. rewrite app_nil_r. repeat split; auto.
  - cbv zeta in IH.
    destruct n; cbn [ProjectAnalyzer.collect ProjectAnalyzer.import_names];
      match goal with
      | |- context [fold_left _ l (?c, ?f, ?i)] =>
          destruct (IH c f i) as (Hc & Hf & Hi & Hall)
      end;
      cbv zeta; cbn [filter is_function_def is_class_def List.length flat_map
                       ProjectAnalyzer.import_names];
      rewrite ?length_app in *; cbn [List.length] in *;
      rewrite ?app_nil_l;
      (split; [lia|]); (split; [lia|]); split;
      try (rewrite Hi, <- ?app_assoc; reflexivity);
      try exact Hall.
    intros Hfs. apply Hall. apply Forall_app. split; [exact Hfs|].
    constructor; [|constructor]. cbn [fn_complexity].
    apply function_complexity_positive.
Qed.

(** X6.  Every analysis record is consistent in itself: it lists as
    many functions and classes as its docstring counts give as totals,
    each listed function has a complexity of at least one, and its
    unused imports are those of its imports whose base name does not
    occur in the text of the file, in the same order. *)
Theorem analysis_record_consistent (parse : string -> result Ast.node)
  (object_str : Ast.node -> string) (f : file) (a : analysis) :
  ProjectAnalyzer.analyze_source parse object_str f = Ok a ->
  ds_total_functions (docstrings a) = List.length (functions a)
  /\ ds_total_classes (docstrings a) = List.length (classes a)
  /\ ds_functions (docstrings a) <= List.length (functions a)
  /\ ds_classes (docstrings a) <= List.length (classes a)
  /\ Forall (fun fn => (1 <= fn_complexity fn)%Z) (functions a)
  /\ exists content,
       contents f = Ok content
       /\ unused_imports a
          = filter (fun imp =>
                      negb (PyStr.contains (ProjectAnalyzer.base_name imp)
                              content))
              (imports a).
Proof.
  unfold ProjectAnalyzer.analyze_source.
  destruct (contents f) as [content|e]; [|discriminate]. cbn [rbind].
  destruct (parse content) as [tree|e]; [|discriminate]. cbn [rbind].
  pose proof (collect_fold object_str (Ast.walk tree) [] [] []) as H.
  cbv zeta in H.
  destruct (fold_left (ProjectAnalyzer.collect object_str) (Ast.walk tree)
              ([], [], [])) as [[cs fs] imps].
  cbn [fst snd List.length app plus] in H.
  destruct H as (Hc & Hf & Hi & Hall).
  intros Ha. injection Ha as <-.
  cbn [docstrings functions classes unused_imports imports].
  pose proof (docstrings_fold (Ast.walk tree)
                {| ds_functions := 0; ds_classes := 0;
                   ds_total_functions := 0; ds_total_classes := 0 |}) as D.
  cbv zeta in D. fold (ProjectAnalyzer._check_docstrings tree) in D.
  cbn [ds_functions ds_classes ds_total_functions ds_total_classes] in D.
  repeat split; try lia.
  - apply Hall. constructor.
  - exists content. split; [reflexivity|].
    unfold ProjectAnalyzer._detect_unused_imports. now rewrite Hi.
Qed.

Lemma analysis_record_consistent_witness :
  let f := {| name := "m.py"; rel_path := "m.py"; suffix := ".py";
              stat := Ok 30; opened := text_of "import os" |} in
  let parse := fun _ : string =>
    Ok (Ast.Module
          [ Ast.Import ["os"];
            Ast.FunctionDef "f" 2 [] [] [Ast.If Ast.leaf [] []] []
              (Some "doc") ]) in
  exists a,
    ProjectAnalyzer.analyze_source parse (fun _ => EmptyString) f = Ok a
    /\ ds_total_functions (docstrings a) = List.length (functions a)
    /\ Forall (fun fn => (1 <= fn_complexity fn)%Z) (functions a).
Proof.
  intros f parse.
  destruct (ProjectAnalyzer.analyze_source parse (fun _ => EmptyString) f)
    as [a|e] eqn:E; [|vm_compute in E; discriminate].
  exists a. split; [reflexivity|].
  destruct (analysis_record_consistent parse (fun _ => EmptyString) f a E)
    as (H1 & _ & _ & _ & H5 & _).
  split; assumption.
Defined.

(* ================================================================== *)
(** * Complexity and the structure of the tree *)
(* ================================================================== *)

Lemma sizes_cons (n : Ast.node) (l : list Ast.node) :
  Ast.sizes (n :: l) = Ast.size n + Ast.sizes l.
Proof. reflexivity. Qed.

Lemma walk_unfold (n : Ast.node) :
  Ast.walk n
  = n :: Ast.walk_queue (Ast.sizes (Ast.iter_child_nodes n))
           (Ast.iter_child_nodes n).
Proof. unfold Ast.walk. rewrite size_children. reflexivity. Qed.

(** The walk of a queue visits what the walks of its nodes visit. *)
Lemma walk_queue_perm (m : nat) :
  forall todo, Ast.sizes todo = m ->
  Permutation (Ast.walk_queue m todo) (flat_map Ast.walk todo).
Proof.
  induction m as [m IH] using lt_wf_ind. intros [|n rest] Hm.
  - destruct m; constructor.
  - rewrite sizes_cons, size_children in Hm. subst m.
    cbn [plus Ast.walk_queue flat_map]. rewrite walk_unfold. cbn [app].
    constructor.
    assert (Ast.sizes (rest ++ Ast.iter_child_nodes n)
            = Ast.sizes (Ast.iter_child_nodes n) + Ast.sizes rest) as E
      by (rewrite sizes_app; lia).
    assert (Ast.sizes (rest ++ Ast.iter_child_nodes n)
            < S (Ast.sizes (Ast.iter_child_nodes n)) + Ast.sizes rest) as L1
      by lia.
    assert (Ast.sizes (Ast.iter_child_nodes n)
            < S (Ast.sizes (Ast.iter_child_nodes n)) + Ast.sizes rest) as L2
      by lia.
    rewrite <- E.
    etransitivity; [apply (IH _ L1 _ eq_refl)|].
    rewrite flat_map_app.
    etransitivity; [apply Permutation_app_comm|].
    apply Permutation_app_tail. apply Permutation_sym.
    apply (IH _ L2 _ eq_refl).
Qed.

Lemma walk_children_perm (n : Ast.node) :
  Permutation (Ast.walk n) (n :: flat_map Ast.walk (Ast.iter_child_nodes n)).
Proof.
  rewrite walk_unfold. constructor. now apply walk_queue_perm.
Qed.

Lemma size_of_child (n c : Ast.node) :
  In c (Ast.iter_child_nodes n) -> Ast.size c < Ast.size n.
Proof.
  intros H. rewrite (size_children n).
  apply in_split in H. destruct H as (l1 & l2 & ->).
  rewrite sizes_app, sizes_cons. lia.
Qed.

(** The walk of a tree contains the walk of each of its nodes. *)
Lemma walk_subtree_perm (m : nat) :
  forall tree f, Ast.size tree = m -> In f (Ast.walk tree) ->
  exists rest, Permutation (Ast.walk tree) (Ast.walk f ++ rest).
Proof.
  induction m as [m IH] using lt_wf_ind. intros tree f Hm Hin.
  pose proof (walk_children_perm tree) as P.
  apply (Permutation_in _ P) in Hin. destruct Hin as [<- | Hin].
  - exists []. now rewrite app_nil_r.
  - apply in_flat_map in Hin. destruct Hin as (c & Hc & Hf).
    destruct (IH (Ast.size c)
                ltac:(subst m; now apply size_of_child) c f eq_refl Hf)
      as (rest & Pc).
    apply in_split in Hc. destruct Hc as (l1 & l2 & Hch).
    exists (tree :: flat_map Ast.walk l1 ++ rest ++ flat_map Ast.walk l2).
    rewrite P, Hch, flat_map_app. cbn [flat_map]. rewrite Pc.
    rewrite <- app_assoc.
    apply (Permutation_app_swap_app (tree :: flat_map Ast.walk l1)
             (Ast.walk f) (rest ++ flat_map Ast.walk l2)).
Qed.

Lemma branch_count_app (l1 l2 : list Ast.node) :
  branch_count (l1 ++ l2) = (branch_count l1 + branch_count l2)%Z.
Proof. unfold branch_count. rewrite filter_app, length_app. lia. Qed.

Lemma and_bonus_app (l1 l2 : list Ast.node) :
  and_bonus (l1 ++ l2) = (and_bonus l1 + and_bonus l2)%Z.
Proof.
  induction l1 as [|n l1 IH]; [reflexivity|].
  cbn [app and_bonus fold_right]. fold (and_bonus (l1 ++ l2)).
  fold (and_bonus l1). rewrite IH.
  destruct n as [| | | | | | |[|]| | | |]; lia.
Qed.

Lemma branch_count_perm (l l' : list Ast.node) :
  Permutation l l' -> branch_count l = branch_count l'.
Proof.
  induction 1 as [|x l l' _ IH|x y l|l l' l'' _ IH1 _ IH2];
    [reflexivity | | | congruence].
  - change (x :: l) with ([x] ++ l). change (x :: l') with ([x] ++ l').
    now rewrite !branch_count_app, IH.
  - change (y :: x :: l) with ([y] ++ [x] ++ l).
    change (x :: y :: l) with ([x] ++ [y] ++ l).
    rewrite !branch_count_app. lia.
Qed.

Lemma and_bonus_perm (l l' : list Ast.node) :
  Permutation l l' -> and_bonus l = and_bonus l'.
Proof.
  induction 1 as [|x l l' _ IH|x y l|l l' l'' _ IH1 _ IH2];
    [reflexivity | | | congruence].
  - change (x :: l) with ([x] ++ l). change (x :: l') with ([x] ++ l').
    now rewrite !and_bonus_app, IH.
  - change (y :: x :: l) with ([y] ++ [x] ++ l).
    change (x :: y :: l) with ([x] ++ [y] ++ l).
    rewrite !and_bonus_app. lia.
Qed.

Lemma score_of_children (l : list Ast.node) :
  (branch_count (flat_map Ast.walk l) + and_bonus (flat_map Ast.walk l))%Z
  = Zsum (map (fun c => (ProjectAnalyzer._calculate_complexity c - 1)%Z) l).
Proof.
  induction l as [|c l IH]; [reflexivity|].
  cbn [flat_map map Zsum fold_right]. fold (Zsum (map (fun c =>
    (ProjectAnalyzer._calculate_complexity c - 1)%Z) l)).
  rewrite branch_count_app, and_bonus_app, <- IH, _calculate_complexity_eq.
  lia.
Qed.

(** X7.  The complexity of a file is built up along the tree: the score
    of a node is one, plus what the node adds by itself (one for a
    branch, the number of operands less one for a conjunction), plus
    what each child's score has above one.  So the score of a module is
    one plus the excesses of its statements. *)
Theorem complexity_adds_over_children (n : Ast.node) (body : list Ast.node) :
  ProjectAnalyzer._calculate_complexity n
  = (1 + (branch_count [n] + and_bonus [n])
     + Zsum (map (fun c => ProjectAnalyzer._calculate_complexity c - 1)
               (Ast.iter_child_nodes n)))%Z
  /\ ProjectAnalyzer._calculate_complexity (Ast.Module body)
     = (1 + Zsum (map (fun c => ProjectAnalyzer._calculate_complexity c - 1)
                    body))%Z.
Proof.
  assert (H : forall n,
    ProjectAnalyzer._calculate_complexity n
    = (1 + (branch_count [n] + and_bonus [n])
       + Zsum (map (fun c => ProjectAnalyzer._calculate_complexity c - 1)
                 (Ast.iter_child_nodes n)))%Z).
  { intros m. rewrite _calculate_complexity_eq.
    rewrite (branch_count_perm _ _ (walk_children_perm m)).
    rewrite (and_bonus_perm _ _ (walk_children_perm m)).
    change (m :: flat_map Ast.walk (Ast.iter_child_nodes m))
      with ([m] ++ flat_map Ast.walk (Ast.iter_child_nodes m)).
    rewrite branch_count_app, and_bonus_app, <- score_of_children. lia. }
  split; [apply H|]. rewrite (H (Ast.Module body)). reflexivity.
Qed.

Lemma and_bonus_nonnegative (nodes : list Ast.node) :
  (forall op values, In (Ast.BoolOp op values) nodes -> values <> []) ->
  (0 <= and_bonus nodes)%Z.
Proof.
  induction nodes as [|n l IH]; intros H; [simpl; lia|].
  cbn [and_bonus fold_right]. fold (and_bonus l).
  assert (0 <= and_bonus l)%Z
    by (apply IH; intros op values Hin; apply (H op values); now right).
  destruct n as [| | | | | | |[|] values| | | |]; try lia.
  assert (values <> []) by (apply (H Ast.And values); now left).
  destruct values; [congruence|]. cbn [List.length]. lia.
Qed.

Lemma branch_count_nonnegative (nodes : list Ast.node) :
  (0 <= branch_count nodes)%Z.
Proof. unfold branch_count. lia. Qed.

(** X8.  The score of a function is at most one plus the number of
    branches of the whole file, and at most the score of the file when
    no boolean operation in the tree is without operands (the parser
    gives each at least two): a file below the threshold has no function
    above it. *)
Theorem function_complexity_at_most_file (tree func_node : Ast.node) :
  In func_node (Ast.walk tree) ->
  (ProjectAnalyzer._calculate_function_complexity func_node
   <= 1 + branch_count (Ast.walk tree))%Z
  /\ ((forall op values,
         In (Ast.BoolOp op values) (Ast.walk tree) -> values <> []) ->
      (ProjectAnalyzer._calculate_function_complexity func_node
       <= ProjectAnalyzer._calculate_complexity tree)%Z).
Proof.
  intros Hin.
  destruct (walk_subtree_perm (Ast.size tree) tree func_node eq_refl Hin)
    as (rest & P).
  assert (ProjectAnalyzer._calculate_function_complexity func_node
          <= 1 + branch_count (Ast.walk tree))%Z as Hb.
  { rewrite _calculate_function_complexity_eq, (branch_count_perm _ _ P),
      branch_count_app.
    pose proof (branch_count_nonnegative rest). lia. }
  split; [exact Hb|]. intros Hwf.
  rewrite _calculate_complexity_eq.
  pose proof (and_bonus_nonnegative (Ast.walk tree) Hwf). lia.
Qed.

Lemma function_complexity_at_most_file_witness :
  let func :=
    Ast.FunctionDef "f" 2 [] []
      [Ast.If (Ast.BoolOp Ast.And [Ast.Name "a"; Ast.Name "b"]) [] []] []
      None in
  let tree := Ast.Module [Ast.While (Ast.Name "x") [] []; func] in
  (ProjectAnalyzer._calculate_function_complexity func
   <= 1 + branch_count (Ast.walk tree))%Z
  /\ (ProjectAnalyzer._calculate_function_complexity func
      <= ProjectAnalyzer._calculate_complexity tree)%Z
  /\ ProjectAnalyzer._calculate_function_complexity func = 2%Z
  /\ ProjectAnalyzer._calculate_complexity tree = 4%Z.
Proof.
  intros func tree.
  assert (Hin : In func (Ast.walk tree)) by (vm_compute; tauto).
  assert (Hwf : forall op values,
            In (Ast.BoolOp op values) (Ast.walk tree) -> values <> []).
  { intros op values H. vm_compute in H.
    repeat (destruct H as [H|H]; [try discriminate H|]);
      [injection H as _ <-; discriminate | contradiction]. }
  destruct (function_complexity_at_most_file tree func Hin) as [H1 H2].
  split; [exact H1|]. split; [exact (H2 Hwf)|]. split; reflexivity.
Defined.

(* ================================================================== *)
(** * Dictionaries *)
(* ================================================================== *)

Lemma dict_get_set_same {V : Type} (d : dict V) (k : string) (v default : V) :
  dict_get (dict_set d k v) k default = v.
Proof.
  induction d as [|[k' v'] d IH]; simpl.
  - now rewrite String.eqb_refl.
  - destruct (String.eqb k' k) eqn:E; simpl; rewrite E; auto.
Qed.

Lemma dict_get_set_other {V : Type} (d : dict V) (k k' : string)
  (v default : V) :
  k <> k' -> dict_get (dict_set d k v) k' default = dict_get d k' default.
Proof.
  intros Hne. induction d as [|[k0 v0] d IH]; simpl.
  - apply String.eqb_neq in Hne. now rewrite Hne.
  - destruct (String.eqb k0 k) eqn:E; simpl.
    + apply String.eqb_eq in E. subst k0.
      apply String.eqb_neq in Hne. now rewrite Hne.
    + destruct (String.eqb k0 k'); auto.
Qed.

Lemma dict_set_fresh {V : Type} (d : dict V) (k : string) (v : V) :
  ~ In k (keys d) -> dict_set d k v = d ++ [(k, v)].
Proof.
  induction d as [|[k' v'] d IH]; simpl; intros H; [reflexivity|].
  destruct (String.eqb k' k) eqn:E.
  - apply String.eqb_eq in E. tauto.
  - f_equal. apply IH. tauto.
Qed.

Lemma dict_set_keys {V : Type} (d : dict V) (k : string) (v : V) :
  keys (dict_set d k v) = if in_dec string_dec k (keys d) then keys d
                          else keys d ++ [k].
Proof.
  induction d as [|[k' v'] d IH]; simpl; [reflexivity|].
  destruct (String.eqb k' k) eqn:E.
  - apply String.eqb_eq in E. subst k'.
    destruct (string_dec k k); [|congruence].
    reflexivity.
  - apply String.eqb_neq in E. destruct (string_dec k' k); [congruence|].
    simpl. rewrite IH. destruct (in_dec string_dec k (keys d)); reflexivity.
Qed.

Lemma dict_set_nodup {V : Type} (d : dict V) (k : string) (v : V) :
  NoDup (keys d) -> NoDup (keys (dict_set d k v)).
Proof.
  intros H. rewrite dict_set_keys.
  destruct (in_dec string_dec k (keys d)); [exact H|].
  apply NoDup_app; [exact H | repeat constructor; intros [] |].
  intros x Hx [<- | []]. contradiction.
Qed.

Lemma dict_set_sum (d : dict nat) (k : string) :
  list_sum (map snd (dict_set d k (dict_get d k 0 + 1)))
  = S (list_sum (map snd d)).
Proof.
  induction d as [|[k' v'] d IH]; simpl; [reflexivity|].
  destruct (String.eqb k' k); simpl; lia.
Qed.

(* ================================================================== *)
(** * The language histogram *)
(* ================================================================== *)

Lemma step_languages (a : architecture) (total_size : nat)
  (file_path : string) (inf : info) :
  languages (fst (ProjectAnalyzer.architecture_step (a, total_size)
                    (file_path, inf)))
  = dict_set (languages a) (info_type inf)
      (dict_get (languages a) (info_type inf) 0 + 1).
Proof.
  unfold ProjectAnalyzer.architecture_step. cbv zeta.
  repeat match goal with |- context [if ?b then _ else _] => destruct b end;
    reflexivity.
Qed.

Lemma languages_fold (fa : dict info) :
  forall (a : architecture) (total_size : nat),
  let r := fold_left ProjectAnalyzer.architecture_step fa (a, total_size) in
  (forall lang,
      dict_get (languages (fst r)) lang 0
      = dict_get (languages a) lang 0
        + List.length
            (filter (fun item => String.eqb (info_type (snd item)) lang) fa))
  /\ (NoDup (keys (languages a)) -> NoDup (keys (languages (fst r))))
  /\ list_sum (map snd (languages (fst r)))
     = list_sum (map snd (languages a)) + List.length fa.
Proof.
  induction fa as [|[file_path inf] fa IH]; intros a total_size.
  - simpl. repeat split; auto.
  - cbn [fold_left]. cbv zeta in IH.
    destruct (IH (fst (ProjectAnalyzer.architecture_step (a, total_size)
                         (file_path, inf)))
                 (snd (ProjectAnalyzer.architecture_step (a, total_size)
                         (file_path, inf))))
      as (Hg & Hn & Hs).
    rewrite <- surjective_pairing in Hg, Hn, Hs.
    rewrite step_languages in Hg, Hn, Hs.
    cbv zeta. split; [|split].
    + intros lang. rewrite Hg. cbn [filter snd].
      destruct (String.eqb (info_type inf) lang) eqn:E.
      * apply String.eqb_eq in E. subst lang.
        rewrite dict_get_set_same. cbn [List.length]. lia.
      * apply String.eqb_neq in E.
        rewrite dict_get_set_other by exact E. reflexivity.
    + intros H. apply Hn. now apply dict_set_nodup.
    + rewrite Hs, dict_set_sum. cbn [List.length]. lia.
Qed.

Lemma languages_keys_fold (fa : dict info) :
  forall (a : architecture) (total_size : nat) (lang : string),
  In lang (keys (languages
                   (fst (fold_left ProjectAnalyzer.architecture_step fa
                           (a, total_size)))))
  <-> In lang (keys (languages a))
      \/ exists item, In item fa /\ info_type (snd item) = lang.
Proof.
  induction fa as [|[file_path inf] fa IH]; intros a total_size lang.
  - simpl. split; [tauto | intros [H | [item [[] _]]]; exact H].
  - cbn [fold_left].
    rewrite (surjective_pairing
               (ProjectAnalyzer.architecture_step (a, total_size)
                  (file_path, inf))).
    rewrite IH, step_languages, dict_set_keys.
    destruct (in_dec string_dec (info_type inf) (keys (languages a)))
      as [Hin | Hin].
    + split.
      * intros [H | [item [Hi Ht]]]; [tauto|].
        right. exists item. split; [now right | exact Ht].
      * intros [H | [item [[<- | Hi] Ht]]]; [tauto | |].
        -- left. simpl in Ht. now subst lang.
        -- right. eauto.
    + rewrite in_app_iff. split.
      * intros [[H | [<- | []]] | [item [Hi Ht]]]; [tauto | |].
        -- right. exists (file_path, inf). split; [now left | reflexivity].
        -- right. exists item. split; [now right | exact Ht].
      * intros [H | [item [[<- | Hi] Ht]]]; [tauto | |].
        -- left. right. left. exact Ht.
        -- right. eauto.
Qed.

(** The summary has the lists and counters that the loop leaves. *)
Lemma _analyze_architecture_fold (fa : dict info) :
  exists a,
    ProjectAnalyzer._analyze_architecture fa = Ok a
    /\ languages a
       = languages (fst (fold_left ProjectAnalyzer.architecture_step fa
                           (ProjectAnalyzer.architecture_init fa, 0))).
Proof.
  unfold ProjectAnalyzer._analyze_architecture.
  pose proof (architecture_fold fa (ProjectAnalyzer.architecture_init fa) 0)
    as H. cbv zeta in H.
  destruct (fold_left ProjectAnalyzer.architecture_step fa
              (ProjectAnalyzer.architecture_init fa, 0)) as [a total_size].
  cbn [fst snd] in *. destruct H as (_ & Hf & _).
  destruct (0 <? total_files a)%nat eqn:E; [|eauto].
  apply Nat.ltb_lt in E. rewrite truediv_positive by exact E.
  cbn [rbind]. eexists. split; reflexivity.
Qed.

(** X9.  The language histogram of the summary has one entry per type
    label that occurs; the entry of a label counts the records of that
    type, a label that does not occur has none (it reads as 0), and the
    counts add up to the number of records. *)
Theorem languages_count_records (fa : dict info) (lang : string) :
  exists a,
    ProjectAnalyzer._analyze_architecture fa = Ok a
    /\ dict_get (languages a) lang 0
       = List.length
           (filter (fun item => String.eqb (info_type (snd item)) lang) fa)
    /\ NoDup (keys (languages a))
    /\ list_sum (map snd (languages a)) = List.length fa
    /\ (In lang (keys (languages a))
        <-> exists item, In item fa /\ info_type (snd item) = lang).
Proof.
  destruct (_analyze_architecture_fold fa) as (a & Ha & Hl).
  exists a. split; [exact Ha|]. rewrite Hl.
  destruct (languages_fold fa (ProjectAnalyzer.architecture_init fa) 0)
    as (Hg & Hn & Hs).
  split; [apply Hg|]. split; [apply Hn; constructor|].
  split; [exact Hs|].
  rewrite languages_keys_fold. simpl. tauto.
Qed.

(* ================================================================== *)
(** * What the issue lists hold *)
(* ================================================================== *)

Lemma issues_step_other_type (format_percent : Q -> string) (acc : issues)
  (item : string * info) :
  is_python item = false ->
  ProjectAnalyzer.issues_step format_percent acc item = Ok acc.
Proof.
  destruct item as [file_path inf]. unfold is_python. cbn [snd].
  intros H. unfold ProjectAnalyzer.issues_step. now rewrite H.
Qed.

Lemma docstring_rule_growth (format_percent : Q -> string)
  (file_path : string) (inf : info) (i i' : issues) :
  ProjectAnalyzer.docstring_rule format_percent file_path inf i = Ok i' ->
  high_complexity_files i' = high_complexity_files i
  /\ issue_unused_imports i' = issue_unused_imports i
  /\ large_files i' = large_files i
  /\ potential_bugs i' = potential_bugs i
  /\ List.length (missing_docstrings i')
     <= S (List.length (missing_docstrings i)).
Proof.
  intros H.
  destruct (docstring_rule_spec format_percent file_path inf i)
    as (i2 & H2 & Hh & Hu & Hl & Hp & Hm).
  rewrite H in H2. injection H2 as <-.
  repeat split; try assumption.
  destruct (get_docstrings inf) as [ds|]; [|rewrite Hm; lia].
  cbv zeta in Hm.
  destruct ((0 <? ds_total_functions ds)%nat && Qltb _ _);
    rewrite Hm; rewrite ?length_app; simpl; lia.
Qed.

(** One round adds at most one entry to each list. *)
Lemma issues_step_growth (format_percent : Q -> string) (acc acc' : issues)
  (item : string * info) :
  ProjectAnalyzer.issues_step format_percent acc item = Ok acc' ->
  List.length (high_complexity_files acc')
  <= S (List.length (high_complexity_files acc))
  /\ List.length (missing_docstrings acc')
     <= S (List.length (missing_docstrings acc))
  /\ List.length (issue_unused_imports acc')
     <= S (List.length (issue_unused_imports acc))
  /\ List.length (large_files acc') <= S (List.length (large_files acc))
  /\ List.length (potential_bugs acc') <= S (List.length (potential_bugs acc)).
Proof.
  destruct item as [file_path inf].
  unfold ProjectAnalyzer.issues_step.
  destruct (negb (String.eqb (info_type inf) "Python")).
  - intros H. injection H as <-. lia.
  - match goal with
    | |- context [ProjectAnalyzer.docstring_rule _ _ _ ?i1] =>
        set (i1' := i1);
        assert (H1 : List.length (high_complexity_files i1')
                     <= S (List.length (high_complexity_files acc))
                     /\ missing_docstrings i1' = missing_docstrings acc
                     /\ issue_unused_imports i1' = issue_unused_imports acc
                     /\ large_files i1' = large_files acc
                     /\ potential_bugs i1' = potential_bugs acc)
          by (subst i1'; destruct (10 <? get_complexity inf 0)%Z;
              cbn [ProjectAnalyzer.add_high_complexity high_complexity_files
                     missing_docstrings issue_unused_imports large_files
                     potential_bugs];
              rewrite ?length_app; simpl; repeat split; lia)
    end.
    destruct H1 as (Hh & Hm & Hu & Hl & Hp).
    destruct (ProjectAnalyzer.docstring_rule format_percent file_path inf i1')
      as [i2|e] eqn:E; [|discriminate].
    apply docstring_rule_growth in E.
    destruct E as (Eh & Eu & El & Ep & Em).
    cbn [rbind].
    destruct (get_unused_imports inf); destruct (get_line_count inf) as [n|];
      try destruct (500 <? n)%nat;
      match goal with |- context [if ?b then Ok _ else Ok _] => destruct b end;
      intros H; injection H as <-;
      cbn [ProjectAnalyzer.add_unused_imports ProjectAnalyzer.add_large_file
             ProjectAnalyzer.add_potential_bug high_complexity_files
             missing_docstrings issue_unused_imports large_files
             potential_bugs];
      rewrite ?length_app; cbn [List.length];
      rewrite ?Eh, ?Eu, ?El, ?Ep, <- ?Hm, <- ?Hu, <- ?Hl, <- ?Hp;
      repeat split; lia.
Qed.

Lemma detect_issues_fold (format_percent : Q -> string) (fa : dict info) :
  forall acc,
  exists i,
    foldM (ProjectAnalyzer.issues_step format_percent) fa acc = Ok i
    /\ foldM (ProjectAnalyzer.issues_step format_percent)
         (filter is_python fa) acc = Ok i
    /\ List.length (high_complexity_files i)
       <= List.length (high_complexity_files acc)
          + List.length (filter is_python fa)
    /\ List.length (missing_docstrings i)
       <= List.length (missing_docstrings acc)
          + List.length (filter is_python fa)
    /\ List.length (issue_unused_imports i)
       <= List.length (issue_unused_imports acc)
          + List.length (filter is_python fa)
    /\ List.length (large_files i)
       <= List.length (large_files acc) + List.length (filter is_python fa)
    /\ List.length (potential_bugs i)
       <= List.length (potential_bugs acc)
          + List.length (filter is_python fa).
Proof.
  induction fa as [|item fa IH]; intros acc.
  - exists acc. simpl. repeat split; lia.
  - cbn [foldM filter]. destruct (is_python item) eqn:E.
    + destruct (issues_step_ok format_percent acc item) as [acc' Hstep].
      destruct (issues_step_growth _ _ _ _ Hstep) as (G1 & G2 & G3 & G4 & G5).
      destruct (IH acc') as (i & H1 & H2 & B1 & B2 & B3 & B4 & B5).
      exists i. cbn [foldM List.length]. rewrite Hstep. cbn [rbind].
      repeat split; try assumption; lia.
    + rewrite issues_step_other_type by exact E. cbn [rbind]. apply IH.
Qed.

(** X10.  [_detect_issues] looks at the records of type ["Python"]
    only: the other records change nothing in its result, and no list
    gets more entries than there are such records. *)
Theorem issues_come_from_python_records (format_percent : Q -> string)
  (fa : dict info) :
  exists i,
    ProjectAnalyzer._detect_issues format_percent fa = Ok i
    /\ ProjectAnalyzer._detect_issues format_percent (filter is_python fa)
       = Ok i
    /\ List.length (high_complexity_files i)
       <= List.length (filter is_python fa)
    /\ List.length (missing_docstrings i)
       <= List.length (filter is_python fa)
    /\ List.length (issue_unused_imports i)
       <= List.length (filter is_python fa)
    /\ List.length (large_files i) <= List.length (filter is_python fa)
    /\ List.length (potential_bugs i) <= List.length (filter is_python fa).
Proof.
  destruct (detect_issues_fold format_percent fa ProjectAnalyzer.issues_init)
    as (i & H). exists i. exact H.
Qed.

(* ================================================================== *)
(** * Suggestions and summary *)
(* ================================================================== *)

Lemma total_size_bound (bound : Z) (fa : dict info) :
  Forall (fun item => (Z.of_nat (info_size (snd item)) <= bound)%Z) fa ->
  (Z.of_nat (total_size_of fa) <= bound * Z.of_nat (List.length fa))%Z.
Proof.
  unfold total_size_of, list_sum.
  induction 1 as [|item fa Hi _ IH]; cbn [map fold_right List.length];
    [lia|].
  rewrite Nat2Z.inj_add, Nat2Z.inj_succ. lia.
Qed.

(** X11.  When no file is larger than 100000 bytes, the average size is
    not, and [_generate_suggestions] makes no performance suggestion,
    whatever the issues are. *)
Theorem no_performance_suggestion_for_small_files (fa : dict info)
  (i : issues) :
  Forall (fun item => (Z.of_nat (info_size (snd item)) <= 100000)%Z) fa ->
  exists a,
    ProjectAnalyzer._analyze_architecture fa = Ok a
    /\ (avg_file_size a <= 100000 # 1)%Q
    /\ sugg_performance (ProjectAnalyzer._generate_suggestions a i) = [].
Proof.
  intros Hsmall.
  destruct (_analyze_architecture_spec fa) as (a & Ha & _ & _ & _ & Havg).
  assert (Hle : (avg_file_size a <= 100000 # 1)%Q).
  { destruct fa as [|item fa].
    - rewrite Havg. discriminate.
    - rewrite Havg. apply Qle_shift_div_r.
      + unfold Qlt. cbn [Qnum Qden inject_Z List.length].
        rewrite Nat2Z.inj_succ. lia.
      + pose proof (total_size_bound 100000 (item :: fa) Hsmall) as B.
        unfold Qle. cbn [Qnum Qden inject_Z Qmult]. lia. }
  exists a. split; [exact Ha|]. split; [exact Hle|].
  unfold ProjectAnalyzer._generate_suggestions. cbn [sugg_performance].
  unfold Qltb. apply Qle_bool_iff in Hle. now rewrite Hle.
Qed.

Lemma no_performance_suggestion_for_small_files_witness :
  let fa :=
    [ ("a.txt", {| info_size := 900; info_extension := ".txt";
                   info_type := "Text"; info_rest := PreviewOnly "x" |});
      ("b.bin", {| info_size := 7; info_extension := ".bin";
                   info_type := "Unknown"; info_rest := PreviewOnly "y" |}) ] in
  exists a,
    ProjectAnalyzer._analyze_architecture fa = Ok a
    /\ sugg_performance
         (ProjectAnalyzer._generate_suggestions a ProjectAnalyzer.issues_init)
       = [].
Proof.
  intros fa.
  assert (H : Forall (fun item =>
                        (Z.of_nat (info_size (snd item)) <= 100000)%Z) fa)
    by (repeat constructor; vm_compute; discriminate).
  destruct (no_performance_suggestion_for_small_files fa
              ProjectAnalyzer.issues_init H) as (a & Ha & _ & Hs).
  exists a. split; assumption.
Defined.

Lemma Zpos_of_nat (n : nat) : 0 < n -> Zpos (Pos.of_nat n) = Z.of_nat n.
Proof.
  intros H. rewrite <- positive_nat_Z, Nat2Pos.id by lia. reflexivity.
Qed.

Lemma _create_summary_spec (a : architecture) (i : issues) :
  exists s,
    ProjectAnalyzer._create_summary a i = Ok s
    /\ sum_total_files s = total_files a
    /\ sum_total_lines s = total_lines a
    /\ sum_languages s = languages a
    /\ sum_main_modules s = List.length (main_modules a)
    /\ sum_issues_count s
       = List.length (high_complexity_files i)
         + List.length (missing_docstrings i)
         + List.length (issue_unused_imports i)
         + List.length (large_files i)
         + List.length (potential_bugs i)
    /\ sum_test_coverage s
       = (Z.of_nat (List.length (test_files a))
          # Pos.of_nat (Nat.max 1 (total_files a)))%Q.
Proof.
  unfold ProjectAnalyzer._create_summary.
  rewrite truediv_positive by lia. cbn [rbind]. eexists.
  split; [reflexivity|]. repeat split.
Qed.

(** X12.  The summary of the records [fa]: the file count is their
    number and the line count their sum, the test coverage is a share
    between 0 and 1 (0 without records: the divisor is never zero), there
    are no more main modules than records, and no more issues than five
    for each record of type ["Python"]. *)
Theorem summary_of_records (format_percent : Q -> string) (fa : dict info) :
  exists a i s,
    ProjectAnalyzer._analyze_architecture fa = Ok a
    /\ ProjectAnalyzer._detect_issues format_percent fa = Ok i
    /\ ProjectAnalyzer._create_summary a i = Ok s
    /\ sum_total_files s = List.length fa
    /\ sum_total_lines s = total_lines_of fa
    /\ (0 <= sum_test_coverage s)%Q
    /\ (sum_test_coverage s <= 1)%Q
    /\ sum_main_modules s <= List.length fa
    /\ sum_issues_count s <= 5 * List.length (filter is_python fa).
Proof.
  destruct (_analyze_architecture_spec fa) as (a & Ha & Hm & Hf & Hl & _).
  destruct (detect_issues_fold format_percent fa ProjectAnalyzer.issues_init)
    as (i & Hi & _ & B1 & B2 & B3 & B4 & B5).
  destruct (_create_summary_spec a i)
    as (s & Hs & S1 & S2 & _ & S4 & S5 & S6).
  exists a, i, s. split; [exact Ha|]. split; [exact Hi|]. split; [exact Hs|].
  pose proof (filter_groups_length (keys fa)) as G.
  rewrite <- (Hm Main), <- (Hm Utils), <- (Hm Test), <- (Hm Config) in G.
  cbn [modules_of] in G. unfold keys in G. rewrite length_map in G.
  split; [congruence|]. split; [congruence|].
  split; [|split; [|split]].
  - rewrite S6. unfold Qle. simpl. lia.
  - rewrite S6. unfold Qle. cbn [Qnum Qden].
    rewrite Zpos_of_nat by lia. rewrite Hf. lia.
  - rewrite S4. lia.
  - rewrite S5. cbn [ProjectAnalyzer.issues_init high_complexity_files
                       missing_docstrings issue_unused_imports large_files
                       potential_bugs List.length] in *. lia.
Qed.

(* ================================================================== *)
(** * Records and feedback, path by path *)
(* ================================================================== *)

Lemma foldM_ext {A B : Type} (f g : A -> B -> result A) :
  (forall a b, f a b = g a b) ->
  forall l a, foldM f l a = foldM g l a.
Proof.
  intros H l. induction l as [|b l IH]; intros a; simpl; [reflexivity|].
  rewrite H. destruct (g a b); simpl; auto.
Qed.

(** A loop that stores one value per element under a key of its own:
    with keys that are new and differ from each other, the dictionary
    gets one entry per element, in order. *)
Lemma foldM_dict_entries {X V : Type} (key : X -> string)
  (g : X -> result V) (l : list X) :
  forall acc r,
  foldM (fun d x => (v <- g x ;; Ok (dict_set d (key x) v))%result) l acc
  = Ok r ->
  NoDup (keys acc ++ map key l) ->
  exists entries,
    r = acc ++ entries
    /\ Forall2 (fun x entry => fst entry = key x /\ g x = Ok (snd entry))
         l entries.
Proof.
  induction l as [|x l IH]; intros acc r Hr Hnd.
  - injection Hr as <-. exists []. split; [now rewrite app_nil_r|constructor].
  - cbn [foldM] in Hr. destruct (g x) as [v|e] eqn:Eg; [|discriminate].
    cbn [rbind] in Hr.
    assert (Hfresh : ~ In (key x) (keys acc)).
    { intros Hin. apply NoDup_remove_2 in Hnd. apply Hnd.
      apply in_or_app. now left. }
    rewrite (dict_set_fresh acc (key x) v Hfresh) in Hr.
    destruct (IH _ _ Hr) as (entries & -> & Hall).
    + unfold keys. rewrite map_app. cbn [map fst]. rewrite <- app_assoc.
      exact Hnd.
    + exists ((key x, v) :: entries). split; [now rewrite <- app_assoc|].
      constructor; [split; [reflexivity | exact Eg] | exact Hall].
Qed.

Lemma entries_keys {X V : Type} (key : X -> string) (g : X -> result V)
  (l : list X) (entries : dict V) :
  Forall2 (fun x entry => fst entry = key x /\ g x = Ok (snd entry))
    l entries ->
  keys entries = map key l.
Proof.
  induction 1 as [|x entry l entries [Hk _] _ IH]; [reflexivity|].
  unfold keys in *. cbn [map]. now rewrite Hk, IH.
Qed.

Lemma file_feedback_entries (format_percent : Q -> string)
  (fa : dict info) :
  NoDup (keys fa) ->
  exists feedback,
    ProjectAnalyzer._generate_file_feedback format_percent fa = Ok feedback
    /\ keys feedback = keys fa
    /\ Forall2 (fun item entry =>
                  fst entry = fst item
                  /\ ProjectAnalyzer.feedback_text format_percent
                       (fst item) (snd item) = Ok (snd entry))
         fa feedback.
Proof.
  intros Hnd.
  destruct (_generate_file_feedback_ok format_percent fa) as (fb & Hfb).
  exists fb. split; [exact Hfb|].
  unfold ProjectAnalyzer._generate_file_feedback in Hfb.
  rewrite (foldM_ext _
             (fun d x =>
                (v <- ProjectAnalyzer.feedback_text format_percent
                        (fst x) (snd x) ;;
                 Ok (dict_set d (fst x) v))%result)) in Hfb
    by (intros a [file_path inf]; reflexivity).
  destruct (foldM_dict_entries fst _ fa [] fb Hfb Hnd) as (entries & -> & H).
  split; [|exact H]. exact (entries_keys _ _ _ _ H).
Qed.

(** X13.  [_generate_file_feedback] gives every record one text, under
    the path of the record and in the order of the records: the text
    that the feedback rules build for that record.  (The paths of the
    records differ, as the keys of a dictionary do.) *)
Theorem feedback_for_every_record (format_percent : Q -> string)
  (fa : dict info) :
  NoDup (keys fa) ->
  exists feedback,
    ProjectAnalyzer._generate_file_feedback format_percent fa = Ok feedback
    /\ keys feedback = keys fa
    /\ Forall2 (fun item entry =>
                  fst entry = fst item
                  /\ ProjectAnalyzer.feedback_text format_percent
                       (fst item) (snd item) = Ok (snd entry))
         fa feedback.
Proof. apply file_feedback_entries. Qed.

Lemma feedback_for_every_record_witness :
  let fa :=
    [ ("a.txt", {| info_size := 3; info_extension := ".txt";
                   info_type := "Text"; info_rest := PreviewOnly "abc" |});
      ("b.py", parse_failure_record 9 "invalid syntax") ] in
  exists feedback,
    ProjectAnalyzer._generate_file_feedback (fun _ => EmptyString) fa
    = Ok feedback
    /\ keys feedback = ["a.txt"; "b.py"].
Proof.
  intros fa.
  assert (Hnd : NoDup (keys fa)).
  { repeat constructor; simpl; intros H;
      repeat destruct H as [H|H]; try discriminate; exact H. }
  destruct (feedback_for_every_record (fun _ => EmptyString) fa Hnd)
    as (fb & Hfb & Hk & _).
  exists fb. split; [exact Hfb | exact Hk].
Defined.

(** What [analyze_project] returns belongs together: the other parts of
    the bundle are computed from its records. *)
Lemma analyze_project_parts (parse : string -> result Ast.node)
  (object_str : Ast.node -> string) (format_percent : Q -> string)
  (progress_callback : bool) (cancel_requests : nat -> bool)
  (files : list file) (s0 s : state) (b : bundle) :
  ProjectAnalyzer.analyze_project parse object_str format_percent
    progress_callback cancel_requests files s0 = (s, Ok b) ->
  ProjectAnalyzer._analyze_architecture (file_analysis b)
  = Ok (bundle_architecture b)
  /\ ProjectAnalyzer._detect_issues format_percent (file_analysis b)
     = Ok (bundle_issues b)
  /\ bundle_suggestions b
     = ProjectAnalyzer._generate_suggestions (bundle_architecture b)
         (bundle_issues b)
  /\ ProjectAnalyzer._generate_file_feedback format_percent (file_analysis b)
     = Ok (file_feedback b)
  /\ ProjectAnalyzer._create_summary (bundle_architecture b)
       (bundle_issues b) = Ok (bundle_summary b).
Proof.
  unfold ProjectAnalyzer.analyze_project.
  unfold bind at 1. unfold ProjectAnalyzer.clear at 1.
  rewrite bind_notify. unfold bind at 1.
  destruct (ProjectAnalyzer.file_loop _ _ _ _ _ _ _ _ _) as [s1 [fa|e]];
    [|discriminate].
  rewrite bind_notify. unfold bind at 1, lift at 1.
  destruct (ProjectAnalyzer._analyze_architecture fa) as [arch|e] eqn:Ea;
    [|discriminate].
  rewrite bind_notify. unfold bind at 1, lift at 1.
  destruct (ProjectAnalyzer._detect_issues format_percent fa) as [iss|e]
    eqn:Ei; [|discriminate].
  rewrite bind_notify. cbv zeta. rewrite bind_notify.
  unfold bind at 1, lift at 1.
  destruct (ProjectAnalyzer._generate_file_feedback format_percent fa)
    as [fb|e] eqn:Ef; [|discriminate].
  unfold bind at 1.
  match goal with
  | |- context [match ?m ?st with _ => _ end] =>
      destruct (m st) as [s2 [[]|e]] eqn:Efinal
  end; [|discriminate].
  unfold bind at 1, lift at 1.
  destruct (ProjectAnalyzer._create_summary arch iss) as [summ|e] eqn:Es;
    [|discriminate].
  unfold ret. intros H. injection H as _ <-.
  cbn [file_analysis bundle_architecture bundle_issues bundle_suggestions
         file_feedback bundle_summary].
  repeat split; assumption.
Qed.

Lemma file_loop_nodup (parse : string -> result Ast.node)
  (object_str : Ast.node -> string) (progress_callback : bool)
  (cancel_requests : nat -> bool) (total : nat) (files : list file) :
  forall i fa s s' fa',
  NoDup (keys fa) ->
  ProjectAnalyzer.file_loop parse object_str progress_callback
    cancel_requests total i files fa s = (s', Ok fa') ->
  NoDup (keys fa').
Proof.
  induction files as [|f rest IH]; intros i fa s s' fa' Hnd H.
  - cbn in H. injection H as _ <-. exact Hnd.
  - cbn [ProjectAnalyzer.file_loop] in H. unfold bind at 1 in H.
    unfold ProjectAnalyzer.is_set at 1 in H.
    destruct (flag s || cancel_requests (polls s)).
    + unfold ret in H. injection H as _ <-. exact Hnd.
    + rewrite bind_notify in H. unfold bind at 1, lift at 1 in H.
      destruct (ProjectAnalyzer._analyze_file parse object_str f)
        as [inf|e]; [|discriminate].
      apply IH in H; [exact H|]. now apply dict_set_nodup.
Qed.

Lemma dict_set_length {V : Type} (d : dict V) (k : string) (v : V) :
  List.length (dict_set d k v) <= S (List.length d).
Proof.
  induction d as [|[k' v'] d IH]; simpl; [lia|].
  destruct (String.eqb k' k); simpl; lia.
Qed.

Lemma file_loop_length (parse : string -> result Ast.node)
  (object_str : Ast.node -> string) (progress_callback : bool)
  (cancel_requests : nat -> bool) (total : nat) (files : list file) :
  forall i fa s s' fa',
  ProjectAnalyzer.file_loop parse object_str progress_callback
    cancel_requests total i files fa s = (s', Ok fa') ->
  List.length fa' <= List.length fa + List.length files.
Proof.
  induction files as [|f rest IH]; intros i fa s s' fa' H.
  - cbn in H. injection H as _ <-. simpl. lia.
  - cbn [ProjectAnalyzer.file_loop] in H. unfold bind at 1 in H.
    unfold ProjectAnalyzer.is_set at 1 in H.
    destruct (flag s || cancel_requests (polls s)).
    + unfold ret in H. injection H as _ <-. simpl. lia.
    + rewrite bind_notify in H. unfold bind at 1, lift at 1 in H.
      destruct (ProjectAnalyzer._analyze_file parse object_str f)
        as [inf|e]; [|discriminate].
      apply IH in H. pose proof (dict_set_length fa (rel_path f) inf).
      cbn [List.length]. lia.
Qed.

(** X14.  Whatever a run does, complete or cancelled, with a callback or
    without: when it returns a bundle, the parts of the bundle belong
    together.  The architecture, the issues, the suggestions, the
    feedback and the summary are those of its records; the summary and
    the architecture count exactly its records, and there is one
    feedback text per record, under the same paths in the same order. *)
Theorem returned_bundle_is_consistent (parse : string -> result Ast.node)
  (object_str : Ast.node -> string) (format_percent : Q -> string)
  (progress_callback : bool) (cancel_requests : nat -> bool)
  (files : list file) (s : state) (b : bundle) :
  ProjectAnalyzer.analyze_project parse object_str format_percent
    progress_callback cancel_requests files initial_state = (s, Ok b) ->
  ProjectAnalyzer._analyze_architecture (file_analysis b)
  = Ok (bundle_architecture b)
  /\ ProjectAnalyzer._detect_issues format_percent (file_analysis b)
     = Ok (bundle_issues b)
  /\ bundle_suggestions b
     = ProjectAnalyzer._generate_suggestions (bundle_architecture b)
         (bundle_issues b)
  /\ ProjectAnalyzer._create_summary (bundle_architecture b)
       (bundle_issues b) = Ok (bundle_summary b)
  /\ NoDup (keys (file_analysis b))
  /\ keys (file_feedback b) = keys (file_analysis b)
  /\ total_files (bundle_architecture b) = List.length (file_analysis b)
  /\ sum_total_files (bundle_summary b) = List.length (file_analysis b)
  /\ List.length (file_analysis b) <= List.length files.
Proof.
  intros Hrun.
  destruct (analyze_project_parts _ _ _ _ _ _ _ _ _ Hrun)
    as (Ha & Hi & Hs & Hf & Hsum).
  assert (Hloop : exists s1 s2,
            ProjectAnalyzer.file_loop parse object_str progress_callback
              cancel_requests (List.length files) 0 files [] s1
            = (s2, Ok (file_analysis b))).
  { revert Hrun. unfold ProjectAnalyzer.analyze_project.
    unfold bind at 1. unfold ProjectAnalyzer.clear at 1.
    rewrite bind_notify. unfold bind at 1.
    destruct (ProjectAnalyzer.file_loop _ _ _ _ _ _ _ _ _)
      as [s1 [fa|e]] eqn:El; [|discriminate].
    rewrite bind_notify. unfold bind at 1, lift at 1.
    destruct (ProjectAnalyzer._analyze_architecture fa) as [arch|e];
      [|discriminate].
    rewrite bind_notify. unfold bind at 1, lift at 1.
    destruct (ProjectAnalyzer._detect_issues format_percent fa) as [iss|e];
      [|discriminate].
    rewrite bind_notify. cbv zeta. rewrite bind_notify.
    unfold bind at 1, lift at 1.
    destruct (ProjectAnalyzer._generate_file_feedback format_percent fa)
      as [fb|e]; [|discriminate].
    unfold bind at 1.
    match goal with
    | |- context [match ?m ?st with _ => _ end] =>
        destruct (m st) as [s2 [[]|e]]
    end; [|discriminate].
    unfold bind at 1, lift at 1.
    destruct (ProjectAnalyzer._create_summary arch iss) as [summ|e];
      [|discriminate].
    unfold ret. intros H. injection H as _ <-. cbn [file_analysis]. eauto. }
  destruct Hloop as (s1 & s2 & Hloop).
  assert (Hnd : NoDup (keys (file_analysis b)))
    by (eapply file_loop_nodup; [|exact Hloop]; constructor).
  destruct (_analyze_architecture_spec (file_analysis b))
    as (a & Ha' & _ & Htf & _).
  rewrite Ha in Ha'. injection Ha' as <-.
  destruct (_create_summary_spec (bundle_architecture b) (bundle_issues b))
    as (sm & Hsm & S1 & _).
  rewrite Hsum in Hsm. injection Hsm as <-.
  destruct (file_feedback_entries format_percent (file_analysis b) Hnd)
    as (fb & Hfb & Hk & _).
  rewrite Hf in Hfb. injection Hfb as <-.
  repeat split; try assumption; try congruence.
  apply file_loop_length in Hloop. simpl in Hloop. exact Hloop.
Qed.

Lemma returned_bundle_is_consistent_witness :
  let files :=
    [ {| name := "a.txt"; rel_path := "a.txt"; suffix := ".txt";
         stat := Ok 5; opened := text_of "hello" |};
      {| name := "b.txt"; rel_path := "b.txt"; suffix := ".txt";
         stat := Ok 5; opened := text_of "world" |} ] in
  exists s b,
    ProjectAnalyzer.analyze_project (fun _ => Ok (Ast.Module []))
      (fun _ => EmptyString) (fun _ => EmptyString) true
      (fun poll => (poll =? 1)%nat) files initial_state = (s, Ok b)
    /\ sum_total_files (bundle_summary b) = List.length (file_analysis b)
    /\ keys (file_feedback b) = keys (file_analysis b).
Proof.
  intros files.
  destruct (ProjectAnalyzer.analyze_project (fun _ => Ok (Ast.Module []))
              (fun _ => EmptyString) (fun _ => EmptyString) true
              (fun poll => (poll =? 1)%nat) files initial_state)
    as [s [b|e]] eqn:E; [|vm_compute in E; discriminate].
  exists s, b. split; [reflexivity|].
  destruct (returned_bundle_is_consistent _ _ _ _ _ _ _ _ E)
    as (_ & _ & _ & _ & _ & Hk & _ & Hn & _).
  split; assumption.
Defined.

Lemma analyze_files_entries (parse : string -> result Ast.node)
  (object_str : Ast.node -> string) (files : list file) (fa : dict info) :
  analyze_files parse object_str files [] = Ok fa ->
  NoDup (map rel_path files) ->
  keys fa = map rel_path files
  /\ Forall2 (fun f entry =>
                fst entry = rel_path f
                /\ ProjectAnalyzer._analyze_file parse object_str f
                   = Ok (snd entry))
       files fa.
Proof.
  intros H Hnd. unfold analyze_files in H.
  destruct (foldM_dict_entries rel_path
              (ProjectAnalyzer._analyze_file parse object_str) files [] fa
              H Hnd) as (entries & -> & Hall).
  split; [|exact Hall]. exact (entries_keys _ _ _ _ Hall).
Qed.

Lemma last_app_singleton {A : Type} (l : list A) (x d : A) :
  last (l ++ [x]) d = x.
Proof.
  induction l as [|a l IH]; [reflexivity|].
  cbn [app]. destruct (l ++ [x]) eqn:E; [now destruct l|].
  cbn [last]. exact IH.
Qed.

(** X15.  A run that nobody cancels over files that all have a size and
    differ in their relative paths returns one record per file, under
    the file's relative path and in the order of the files, each the
    record of its file; the summary counts all files, and the last thing
    the callback hears is ["Analysis completed"]. *)
Theorem complete_run_has_a_record_per_file
  (parse : string -> result Ast.node) (object_str : Ast.node -> string)
  (format_percent : Q -> string) (cancel_requests : nat -> bool)
  (files : list file) :
  (forall j, cancel_requests j = false) ->
  Forall (fun f => exists size, stat f = Ok size) files ->
  NoDup (map rel_path files) ->
  exists s b,
    ProjectAnalyzer.analyze_project parse object_str format_percent true
      cancel_requests files initial_state = (s, Ok b)
    /\ keys (file_analysis b) = map rel_path files
    /\ Forall2 (fun f entry =>
                  fst entry = rel_path f
                  /\ ProjectAnalyzer._analyze_file parse object_str f
                     = Ok (snd entry))
         files (file_analysis b)
    /\ sum_total_files (bundle_summary b) = List.length files
    /\ last (trace s) (IsSet false) = Progress "Analysis completed".
Proof.
  intros Hno Hstat Hnd.
  destruct (analyze_project_completes parse object_str format_percent true
              cancel_requests files Hno Hstat)
    as (s & b & Hrun & Hfiles & Htrace).
  destruct (analyze_files_entries _ _ _ _ Hfiles Hnd) as (Hk & Hall).
  destruct (analyze_project_parts _ _ _ _ _ _ _ _ _ Hrun)
    as (Ha & _ & _ & _ & Hsum).
  destruct (_analyze_architecture_spec (file_analysis b))
    as (a & Ha' & _ & Htf & _).
  rewrite Ha in Ha'. injection Ha' as <-.
  destruct (_create_summary_spec (bundle_architecture b) (bundle_issues b))
    as (sm & Hsm & S1 & _).
  rewrite Hsum in Hsm. injection Hsm as <-.
  exists s, b. split; [exact Hrun|]. split; [exact Hk|].
  split; [exact Hall|]. split.
  - rewrite S1, Htf. apply (f_equal (@List.length string)) in Hk.
    unfold keys in Hk. now rewrite !length_map in Hk.
  - rewrite Htrace. cbn [note].
    change [IsSet false; Progress "Analysis completed"]
      with ([IsSet false] ++ [Progress "Analysis completed"]).
    rewrite !app_assoc. apply last_app_singleton.
Qed.

Lemma complete_run_has_a_record_per_file_witness :
  let files :=
    [ {| name := "a.txt"; rel_path := "a.txt"; suffix := ".txt";
         stat := Ok 5; opened := text_of "hello" |};
      {| name := "b.py"; rel_path := "pkg/b.py"; suffix := ".py";
         stat := Ok 9; opened := Ok {| readable := EmptyString;
                        failure := Some (UnicodeDecodeError "bad byte") |} |} ] in
  exists s b,
    ProjectAnalyzer.analyze_project (fun _ => Ok (Ast.Module []))
      (fun _ => EmptyString) (fun _ => EmptyString) true
      (fun _ => false) files initial_state = (s, Ok b)
    /\ keys (file_analysis b) = ["a.txt"; "pkg/b.py"]
    /\ sum_total_files (bundle_summary b) = 2.
Proof.
  intros files.
  assert (Hstat : Forall (fun f => exists size, stat f = Ok size) files)
    by (repeat constructor; eexists; reflexivity).
  assert (Hnd : NoDup (map rel_path files)).
  { repeat constructor; simpl; intros H;
      repeat destruct H as [H|H]; try discriminate; exact H. }
  destruct (complete_run_has_a_record_per_file
              (fun _ => Ok (Ast.Module [])) (fun _ => EmptyString)
              (fun _ => EmptyString) (fun _ => false) files
              (fun _ => eq_refl) Hstat Hnd)
    as (s & b & Hrun & Hk & _ & Hn & _).
  exists s, b. split; [exact Hrun|]. split; [exact Hk | exact Hn].
Defined.

Lemma analyze_project_cancelled_records (parse : string -> result Ast.node)
  (object_str : Ast.node -> string) (format_percent : Q -> string)
  (progress_callback : bool) (cancel_requests : nat -> bool)
  (files : list file) (k : nat) :
  k < List.length files ->
  (forall j, j < k -> cancel_requests j = false) ->
  cancel_requests k = true ->
  Forall (fun f => exists size, stat f = Ok size) (firstn k files) ->
  exists s b,
    ProjectAnalyzer.analyze_project parse object_str format_percent
      progress_callback cancel_requests files initial_state = (s, Ok b)
    /\ analyze_files parse object_str (firstn k files) []
       = Ok (file_analysis b).
Proof.
  intros Hlen Hno Hyes Hstat.
  destruct (file_loop_cancelled parse object_str progress_callback
              cancel_requests (List.length files) k files 0 0
              (note progress_callback "Starting project analysis...") []
              Hlen Hno Hyes Hstat) as (fa & Hfiles & Hloop).
  destruct (_analyze_architecture_spec fa) as (arch & Harch & _).
  destruct (_detect_issues_ok format_percent fa) as (iss & Hiss).
  destruct (_generate_file_feedback_ok format_percent fa) as (fb & Hfb).
  destruct (_create_summary_ok arch iss) as (summ & Hsumm).
  unfold ProjectAnalyzer.analyze_project.
  unfold bind at 1. unfold ProjectAnalyzer.clear at 1.
  cbn [initial_state flag polls trace].
  rewrite bind_notify. cbn [flag polls trace app].
  unfold bind at 1. rewrite Hloop. cbn [Nat.add].
  rewrite bind_notify, Harch, bind_lift_ok.
  rewrite bind_notify, Hiss, bind_lift_ok.
  rewrite bind_notify. cbv zeta.
  rewrite bind_notify, Hfb, bind_lift_ok.
  cbn [flag polls trace].
  destruct progress_callback.
  - unfold bind at 1. unfold bind at 1.
    unfold ProjectAnalyzer.is_set at 1. cbn [flag polls trace orb].
    rewrite notify_eq. cbn [flag polls trace].
    rewrite Hsumm, bind_lift_ok. unfold ret.
    eexists. eexists. split; [reflexivity | exact Hfiles].
  - unfold bind at 1. unfold ret at 1.
    rewrite Hsumm, bind_lift_ok. unfold ret.
    eexists. eexists. split; [reflexivity | exact Hfiles].
Qed.

Lemma NoDup_firstn {A : Type} (n : nat) (l : list A) :
  NoDup l -> NoDup (firstn n l).
Proof.
  revert l. induction n as [|n IH]; intros [|a l] H; cbn [firstn];
    try constructor.
  - inversion H as [|? ? Hn Hl]; subst. intros Hin. apply Hn.
    rewrite <- (firstn_skipn n l). apply in_or_app. now left.
  - apply IH. now inversion H.
Qed.

(** X16.  A run cancelled at the loop boundary before file [k], over
    files with distinct relative paths, returns exactly [k] records:
    those of the first [k] files, under their relative paths and in
    their order; the summary counts [k] files. *)
Theorem cancelled_run_has_the_first_records
  (parse : string -> result Ast.node) (object_str : Ast.node -> string)
  (format_percent : Q -> string) (progress_callback : bool)
  (cancel_requests : nat -> bool) (files : list file) (k : nat) :
  k < List.length files ->
  (forall j, j < k -> cancel_requests j = false) ->
  cancel_requests k = true ->
  Forall (fun f => exists size, stat f = Ok size) (firstn k files) ->
  NoDup (map rel_path files) ->
  exists s b,
    ProjectAnalyzer.analyze_project parse object_str format_percent
      progress_callback cancel_requests files initial_state = (s, Ok b)
    /\ keys (file_analysis b) = firstn k (map rel_path files)
    /\ List.length (file_analysis b) = k
    /\ Forall2 (fun f entry =>
                  fst entry = rel_path f
                  /\ ProjectAnalyzer._analyze_file parse object_str f
                     = Ok (snd entry))
         (firstn k files) (file_analysis b)
    /\ sum_total_files (bundle_summary b) = k.
Proof.
  intros Hlen Hno Hyes Hstat Hnd.
  destruct (analyze_project_cancelled_records parse object_str
              format_percent progress_callback cancel_requests files k
              Hlen Hno Hyes Hstat) as (s & b & Hrun & Hfiles).
  assert (Hnd' : NoDup (map rel_path (firstn k files)))
    by (rewrite <- firstn_map; now apply NoDup_firstn).
  destruct (analyze_files_entries _ _ _ _ Hfiles Hnd') as (Hk & Hall).
  assert (Hn : List.length (file_analysis b) = k).
  { apply (f_equal (@List.length string)) in Hk. unfold keys in Hk.
    rewrite !length_map, length_firstn in Hk. lia. }
  destruct (analyze_project_parts _ _ _ _ _ _ _ _ _ Hrun)
    as (Ha & _ & _ & _ & Hsum).
  destruct (_analyze_architecture_spec (file_analysis b))
    as (a & Ha' & _ & Htf & _).
  rewrite Ha in Ha'. injection Ha' as <-.
  destruct (_create_summary_spec (bundle_architecture b) (bundle_issues b))
    as (sm & Hsm & S1 & _).
  rewrite Hsum in Hsm. injection Hsm as <-.
  exists s, b. split; [exact Hrun|]. split; [now rewrite Hk, firstn_map|].
  split; [exact Hn|]. split; [exact Hall|]. congruence.
Qed.

Lemma cancelled_run_has_the_first_records_witness :
  let mk := fun n : string =>
    {| name := n; rel_path := n; suffix := ".txt";
       stat := Ok 5; opened := text_of "hello" |} in
  let files := [mk "f1.txt"; mk "f2.txt"; mk "f3.txt"; mk "f4.txt";
                mk "f5.txt"] in
  exists s b,
    ProjectAnalyzer.analyze_project (fun _ => Ok (Ast.Module []))
      (fun _ => EmptyString) (fun _ => EmptyString) true
      (fun poll => (poll =? 2)%nat) files initial_state = (s, Ok b)
    /\ keys (file_analysis b) = ["f1.txt"; "f2.txt"]
    /\ List.length (file_analysis b) = 2.
Proof.
  intros mk files.
  assert (Hno : forall j, j < 2 -> (j =? 2)%nat = false)
    by (intros [|[|j]] Hj; [reflexivity | reflexivity | lia]).
  assert (Hstat : Forall (fun f => exists size, stat f = Ok size)
                    (firstn 2 files))
    by (repeat constructor; exists 5; reflexivity).
  assert (Hnd : NoDup (map rel_path files)).
  { repeat constructor; simpl; intros H;
      repeat destruct H as [H|H]; try discriminate; exact H. }
  assert (Hlen : 2 < List.length files) by (simpl; lia).
  destruct (cancelled_run_has_the_first_records
              (fun _ => Ok (Ast.Module [])) (fun _ => EmptyString)
              (fun _ => EmptyString) true (fun poll => (poll =? 2)%nat)
              files 2 Hlen Hno eq_refl Hstat Hnd)
    as (s & b & Hrun & Hk & Hn & _).
  exists s, b. split; [exact Hrun|]. split; [exact Hk | exact Hn].
Defined.

(* ================================================================== *)
(** * The context manager *)
(* ================================================================== *)

(** The summary of the dictionary that [save_analysis_context] builds. *)
Lemma saved_context_summary (path_name : string -> string)
  (repr : AnalysisContextManager.json -> string)
  (analysis_results : bundle) (project_path now : string)
  (disk : AnalysisContextManager.disk_file)
  (m : AnalysisContextManager.manager) :
  exists context_data,
    AnalysisContextManager.save_analysis_context path_name repr
      analysis_results project_path now AnalysisContextManager.Written disk m
    = (AnalysisContextManager.Holds context_data,
       {| AnalysisContextManager.current_context := context_data;
          AnalysisContextManager.context_summary :=
            Some ("Analyzed project '" ++ path_name project_path ++ "' with "
                  ++ PyStr.of_nat (sum_total_files
                                     (bundle_summary analysis_results))
                  ++ " files, "
                  ++ PyStr.of_nat (sum_issues_count
                                     (bundle_summary analysis_results))
                  ++ " issues found. Ready to discuss codebase architecture and improvements.")%string |})
    /\ AnalysisContextManager._create_context_summary repr context_data
       = Ok ("Analyzed project '" ++ path_name project_path ++ "' with "
             ++ PyStr.of_nat (sum_total_files
                                (bundle_summary analysis_results))
             ++ " files, "
             ++ PyStr.of_nat (sum_issues_count
                                (bundle_summary analysis_results))
             ++ " issues found. Ready to discuss codebase architecture and improvements.")%string
    /\ AnalysisContextManager.get context_data "context_prompt"
         (AnalysisContextManager.JStr EmptyString)
       = Ok (AnalysisContextManager.JStr
               (AnalysisContextManager._create_context_prompt path_name
                  analysis_results project_path))
    /\ AnalysisContextManager.get context_data "summary"
         AnalysisContextManager.JNull
       = Ok (AnalysisContextManager.json_of_summary
               (bundle_summary analysis_results))
    /\ AnalysisContextManager.get context_data "project_name"
         AnalysisContextManager.JNull
       = Ok (AnalysisContextManager.JStr (path_name project_path))
    /\ AnalysisContextManager.truthy context_data = true.
Proof.
  eexists. split; [reflexivity|]. repeat split.
Qed.

(** X17.  After a save that wrote the file, the manager holds the saved
    context, and any manager (one started later, say) that loads the
    file gets that context back and is in the state of the manager that
    saved: same context, same summary, same answer to the chat. *)
Theorem save_then_load_restores (path_name : string -> string)
  (repr : AnalysisContextManager.json -> string) (slice_of_dict : exn)
  (analysis_results : bundle) (project_path now : string)
  (disk : AnalysisContextManager.disk_file)
  (m other : AnalysisContextManager.manager) (max_length : Z) :
  let saved :=
    AnalysisContextManager.save_analysis_context path_name repr
      analysis_results project_path now AnalysisContextManager.Written
      disk m in
  let loaded :=
    AnalysisContextManager.load_analysis_context repr (fst saved) other in
  fst loaded = snd saved
  /\ snd loaded = AnalysisContextManager.current_context (snd saved)
  /\ AnalysisContextManager.has_context (fst loaded) = true
  /\ AnalysisContextManager.context_for_chat slice_of_dict (fst loaded)
       max_length
     = Ok (match AnalysisContextManager.get_context_for_chat
                   (Some (AnalysisContextManager._create_context_prompt
                            path_name analysis_results project_path))
                   max_length with
           | Some s => AnalysisContextManager.JStr s
           | None => AnalysisContextManager.JNull
           end)
  /\ AnalysisContextManager.get (snd loaded) "summary"
       AnalysisContextManager.JNull
     = Ok (AnalysisContextManager.json_of_summary
             (bundle_summary analysis_results))
  /\ AnalysisContextManager.get (snd loaded) "project_name"
       AnalysisContextManager.JNull
     = Ok (AnalysisContextManager.JStr (path_name project_path))
  /\ AnalysisContextManager.get_context_summary (fst loaded)
     = Some ("Analyzed project '" ++ path_name project_path ++ "' with "
             ++ PyStr.of_nat (sum_total_files
                                (bundle_summary analysis_results))
             ++ " files, "
             ++ PyStr.of_nat (sum_issues_count
                                (bundle_summary analysis_results))
             ++ " issues found. Ready to discuss codebase architecture and improvements.")%string.
Proof.
  cbv zeta.
  destruct (saved_context_summary path_name repr analysis_results
              project_path now disk m)
    as (context_data & -> & Hsum & Hprompt & Hs & Hn & Ht).
  cbn [fst snd AnalysisContextManager.load_analysis_context
         AnalysisContextManager.current_context].
  unfold AnalysisContextManager.store_context. rewrite Hsum.
  cbn [fst snd AnalysisContextManager.current_context
         AnalysisContextManager.get_context_summary
         AnalysisContextManager.context_summary].
  split; [reflexivity|]. split; [reflexivity|].
  split; [unfold AnalysisContextManager.has_context;
          cbn [AnalysisContextManager.current_context];
          destruct context_data; try reflexivity; discriminate Ht|].
  split; [|repeat split; assumption].
  unfold AnalysisContextManager.context_for_chat.
  cbn [AnalysisContextManager.current_context]. rewrite Ht, Hprompt.
  cbn [negb rbind AnalysisContextManager.len
         AnalysisContextManager.get_context_for_chat].
  destruct (max_length <? _)%Z; reflexivity.
Qed.

(** X18.  A save that fails leaves the manager as it was, so the chat is
    served the context of before.  When the failure left a truncated
    file, loading returns nothing and changes nothing either: the
    manager goes on with a context that is no longer on disk. *)
Theorem failed_save_keeps_old_context (path_name : string -> string)
  (repr : AnalysisContextManager.json -> string) (slice_of_dict : exn)
  (analysis_results : bundle) (project_path now : string)
  (outcome : AnalysisContextManager.write_outcome)
  (disk : AnalysisContextManager.disk_file)
  (m : AnalysisContextManager.manager)
  (max_length : Z) :
  outcome <> AnalysisContextManager.Written ->
  let saved :=
    AnalysisContextManager.save_analysis_context path_name repr
      analysis_results project_path now outcome disk m in
  snd saved = m
  /\ AnalysisContextManager.context_for_chat slice_of_dict (snd saved)
       max_length
     = AnalysisContextManager.context_for_chat slice_of_dict m max_length
  /\ (outcome = AnalysisContextManager.Refused -> fst saved = disk)
  /\ (outcome = AnalysisContextManager.Broken ->
      AnalysisContextManager.load_analysis_context repr (fst saved)
        (snd saved)
      = (m, AnalysisContextManager.JNull)).
Proof.
  intros Hne. destruct outcome; [congruence | |]; cbv zeta; cbn;
    repeat split; congruence.
Qed.

Lemma failed_save_keeps_old_context_witness :
  let empty_bundle :=
    {| file_analysis := [];
       bundle_architecture := ProjectAnalyzer.architecture_init [];
       bundle_issues := ProjectAnalyzer.issues_init;
       bundle_suggestions :=
         ProjectAnalyzer._generate_suggestions
           (ProjectAnalyzer.architecture_init []) ProjectAnalyzer.issues_init;
       file_feedback := [];
       bundle_summary :=
         {| sum_total_files := 0; sum_total_lines := 0; sum_languages := [];
            sum_issues_count := 0; sum_main_modules := 0;
            sum_test_coverage := 0%Q |} |} in
  let repr := fun _ : AnalysisContextManager.json => "0.0" in
  let first :=
    AnalysisContextManager.save_analysis_context (fun p => p) repr
      empty_bundle "proj" "2024-01-01T00:00:00"
      AnalysisContextManager.Written
      AnalysisContextManager.Absent AnalysisContextManager.new_manager in
  let second :=
    AnalysisContextManager.save_analysis_context (fun p => p) repr
      empty_bundle "other" "2024-01-02T00:00:00"
      AnalysisContextManager.Broken
      (fst first) (snd first) in
  AnalysisContextManager.has_context (snd second) = true
  /\ snd second = snd first
  /\ AnalysisContextManager.load_analysis_context repr (fst second)
       (snd second)
     = (snd first, AnalysisContextManager.JNull).
Proof.
  intros empty_bundle repr first second.
  assert (Hne : AnalysisContextManager.Broken
                <> AnalysisContextManager.Written) by discriminate.
  destruct (failed_save_keeps_old_context (fun p => p) repr
              (TypeError "unhashable type: 'slice'") empty_bundle
              "other" "2024-01-02T00:00:00" AnalysisContextManager.Broken
              (fst first) (snd first) 2000 Hne)
    as (Hm & _ & _ & Hload).
  split; [reflexivity|]. split; [exact Hm | exact (Hload eq_refl)].
Defined.

(** X19.  [clear_context] that succeeds leaves nothing: no file, no
    context, no summary, no answer to the chat, and nothing to load.  When
    the file exists and cannot be removed, the exception leaves the
    method before it resets the manager, which keeps its context. *)
Theorem clear_context_forgets
  (repr : AnalysisContextManager.json -> string) (slice_of_dict : exn)
  (removable : bool)
  (disk : AnalysisContextManager.disk_file)
  (m : AnalysisContextManager.manager) (max_length : Z) :
  match AnalysisContextManager.clear_context removable disk m with
  | Ok (disk', m') =>
      disk' = AnalysisContextManager.Absent
      /\ AnalysisContextManager.has_context m' = false
      /\ AnalysisContextManager.get_context_summary m' = None
      /\ AnalysisContextManager.context_for_chat slice_of_dict m' max_length
         = Ok AnalysisContextManager.JNull
      /\ AnalysisContextManager.load_analysis_context repr disk' m'
         = (m', AnalysisContextManager.JNull)
  | Raise _ =>
      removable = false /\ disk <> AnalysisContextManager.Absent
  end.
Proof.
  unfold AnalysisContextManager.clear_context.
  destruct disk; [repeat split | |]; destruct removable;
    repeat split; discriminate.
Qed.







Lemma fold_left_ext {A B : Type} (f g : A -> B -> A) :
  (forall a b, f a b = g a b) ->
  forall l a, fold_left f l a = fold_left g l a.
Proof.
  intros H l. induction l as [|b l IH]; intros a; simpl; [reflexivity|].
  now rewrite H, IH.
Qed.

Lemma fold_dict_set_filter {X V : Type} (p : X -> bool) (key : X -> string)
  (v : X -> V) (l : list X) :
  forall acc,
  NoDup (keys acc ++ map key l) ->
  fold_left (fun d x => if p x then dict_set d (key x) (v x) else d) l acc
  = acc ++ map (fun x => (key x, v x)) (filter p l).
Proof.
  induction l as [|x l IH]; intros acc Hnd; cbn [fold_left filter map].
  - now rewrite app_nil_r.
  - assert (Hfresh : ~ In (key x) (keys acc)).
    { intros Hin. apply NoDup_remove_2 in Hnd. apply Hnd.
      apply in_or_app. now left. }
    assert (Hrest : NoDup (keys acc ++ map key l))
      by (now apply NoDup_remove_1 in Hnd).
    destruct (p x).
    + rewrite (dict_set_fresh acc (key x) (v x) Hfresh), IH.
      * now rewrite <- app_assoc.
      * unfold keys. rewrite map_app. cbn [map fst]. rewrite <- app_assoc.
        exact Hnd.
    + apply IH. exact Hrest.
Qed.

(** X21.  [_extract_key_files] keeps the records of type ["Python"] and
    no others, under their paths and in their order; each entry gives
    the numbers of its record (classes, functions, lines and complexity,
    0 where the record has no such field). *)
Theorem key_files_are_the_python_records (analysis_results : bundle) :
  NoDup (keys (file_analysis analysis_results)) ->
  let key_files := AnalysisContextManager._extract_key_files analysis_results in
  keys key_files = keys (filter is_python (file_analysis analysis_results))
  /\ Forall2
       (fun item entry =>
          fst entry = fst item
          /\ AnalysisContextManager.kf_type (snd entry) = "Python"
          /\ AnalysisContextManager.kf_complexity (snd entry)
             = get_complexity (snd item) 0
          /\ AnalysisContextManager.kf_lines (snd entry)
             = match get_line_count (snd item) with
               | Some n => n
               | None => 0
               end)
       (filter is_python (file_analysis analysis_results)) key_files.
Proof.
  intros Hnd. cbv zeta. unfold AnalysisContextManager._extract_key_files.
  rewrite (fold_left_ext _
             (fun d x =>
                if is_python x then
                  dict_set d (fst x)
                    {| AnalysisContextManager.kf_type := info_type (snd x);
                       AnalysisContextManager.kf_classes :=
                         match get_classes (snd x) with
                         | Some l => List.length l
                         | None => 0
                         end;
                       AnalysisContextManager.kf_functions :=
                         match get_functions (snd x) with
                         | Some l => List.length l
                         | None => 0
                         end;
                       AnalysisContextManager.kf_lines :=
                         match get_line_count (snd x) with
                         | Some n => n
                         | None => 0
                         end;
                       AnalysisContextManager.kf_complexity :=
                         get_complexity (snd x) 0 |}
                else d))
    by (intros a [file_path inf]; reflexivity).
  rewrite fold_dict_set_filter by exact Hnd. cbn [app].
  split.
  - unfold keys. rewrite map_map. reflexivity.
  - induction (file_analysis analysis_results) as [|item fa IH];
      cbn [filter map]; [constructor|].
    destruct (is_python item) eqn:E; [|apply IH; now inversion Hnd].
    cbn [map]. constructor; [|apply IH; now inversion Hnd].
    cbn [fst snd AnalysisContextManager.kf_type
           AnalysisContextManager.kf_complexity
           AnalysisContextManager.kf_lines].
    unfold is_python in E. apply String.eqb_eq in E. repeat split; auto.
Qed.

Lemma key_files_are_the_python_records_witness :
  let results :=
    {| file_analysis :=
         [ ("a.txt", {| info_size := 3; info_extension := ".txt";
                        info_type := "Text"; info_rest := PreviewOnly "abc" |});
           ("b.py", parse_failure_record 9 "invalid syntax") ];
       bundle_architecture := ProjectAnalyzer.architecture_init [];
       bundle_issues := ProjectAnalyzer.issues_init;
       bundle_suggestions :=
         ProjectAnalyzer._generate_suggestions
           (ProjectAnalyzer.architecture_init []) ProjectAnalyzer.issues_init;
       file_feedback := [];
       bundle_summary :=
         {| sum_total_files := 2; sum_total_lines := 0; sum_languages := [];
            sum_issues_count := 0; sum_main_modules := 0;
            sum_test_coverage := 0%Q |} |} in
  keys (AnalysisContextManager._extract_key_files results) = ["b.py"].
Proof.
  intros results.
  assert (Hnd : NoDup (keys (file_analysis results))).
  { repeat constructor; simpl; intros H;
      repeat destruct H as [H|H]; try discriminate; exact H. }
  exact (proj1 (key_files_are_the_python_records results Hnd)).
Defined.

(* ================================================================== *)
(** * The preview, in general *)
(* ================================================================== *)

(** X22.  [_get_content_preview] reads no further than [max_chars]
    characters.  A file that decodes entirely gets its text when the
    text has fewer than [max_chars] characters, and the first
    [max_chars] characters followed by ["..."] when it has at least that
    many.  A file with a part that cannot be decoded gets a preview like
    any other when the chunks before that part hold [max_chars]
    characters, and the marker text when they hold fewer; a file that
    cannot be opened gets the marker text.  Both classes agree. *)
Theorem preview_by_length (f : file) (max_chars : nat) :
  let preview := ProjectAnalyzer._get_content_preview f max_chars in
  (forall text, contents f = Ok text ->
     preview = if (String.length text <? max_chars)%nat then text
               else (PyStr.take max_chars text ++ "...")%string)
  /\ (forall st, opened f = Ok st ->
       max_chars <= String.length (readable st) ->
       preview = (PyStr.take max_chars (readable st) ++ "...")%string)
  /\ (forall st e, opened f = Ok st -> failure st = Some e ->
       String.length (readable st) < max_chars ->
       preview = "[Binary or unreadable file]")
  /\ (forall e, opened f = Raise e -> preview = "[Binary or unreadable file]")
  /\ ProjectScanner._get_content_preview f max_chars = preview.
Proof.
  cbv zeta. split; [|split; [|split; [|split]]].
  - intros text Hf.
    destruct (preview_of_contents f text max_chars Hf) as [-> _].
    rewrite take_length.
    destruct (String.length text <? max_chars)%nat eqn:E.
    + apply Nat.ltb_lt in E. rewrite Nat.min_r by lia.
      destruct (String.length text =? max_chars)%nat eqn:E2.
      * apply Nat.eqb_eq in E2. lia.
      * apply take_all. lia.
    + apply Nat.ltb_ge in E. rewrite Nat.min_l by lia.
      now rewrite Nat.eqb_refl.
  - intros st Hf Hlen.
    unfold ProjectAnalyzer._get_content_preview, read_chars. rewrite Hf.
    apply Nat.leb_le in Hlen. rewrite Hlen.
    apply Nat.leb_le in Hlen.
    rewrite take_length, Nat.min_l by lia. now rewrite Nat.eqb_refl.
  - intros st e Hf He Hlen.
    unfold ProjectAnalyzer._get_content_preview, read_chars. rewrite Hf, He.
    apply Nat.leb_gt in Hlen. now rewrite Hlen.
  - intros e Hf.
    unfold ProjectAnalyzer._get_content_preview. now rewrite Hf.
  - reflexivity.
Qed.

(* ================================================================== *)
(** * What the context prompt shows *)
(* ================================================================== *)

Lemma firstn_3_twice {A : Type} (l : list A) :
  firstn 3 (firstn 3 l) = firstn 3 l.
Proof. now rewrite firstn_firstn. Qed.

Lemma issue_block_firstn (title : string) (issue_list : list string) :
  AnalysisContextManager.issue_block title (firstn 3 issue_list)
  = AnalysisContextManager.issue_block title issue_list.
Proof.
  destruct issue_list as [|x l]; [reflexivity|].
  unfold AnalysisContextManager.issue_block.
  rewrite firstn_3_twice. reflexivity.
Qed.

Lemma modules_line_firstn (label : string) (l : list string) :
  match firstn 3 l with
  | [] => EmptyString
  | x :: r => (label ++ PyStr.join ", " (firstn 3 (x :: r)) ++ nl)%string
  end
  = match l with
    | [] => EmptyString
    | x :: r => (label ++ PyStr.join ", " (firstn 3 (x :: r)) ++ nl)%string
    end.
Proof.
  destruct l as [|x l]; [reflexivity|].
  change (match firstn 3 (x :: l) with
          | [] => EmptyString
          | y :: r =>
              (label ++ PyStr.join ", " (firstn 3 (y :: r)) ++ nl)%string
          end)
    with (label ++ PyStr.join ", " (firstn 3 (firstn 3 (x :: l))) ++ nl)%string.
  now rewrite firstn_3_twice.
Qed.

Lemma available_file_shown (item : string * info) :
  AnalysisContextManager.available_file (shown_record item)
  = AnalysisContextManager.available_file item.
Proof.
  destruct item as [file_path inf].
  unfold shown_record, is_python, AnalysisContextManager.available_file.
  cbn [fst snd].
  destruct (String.eqb (info_type inf) "Python") eqn:E;
    [|cbn [info_type]; reflexivity].
  cbn [info_type String.eqb Ascii.eqb Bool.eqb andb].
  unfold get_line_count, get_classes, get_functions. cbn [info_rest].
  destruct (info_rest inf) as [a| |]; [|reflexivity|reflexivity].
  cbn [classes functions line_count]. now rewrite !repeat_length.
Qed.

Lemma test_files_line_length (l : list string) :
  match repeat EmptyString (List.length l) with
  | [] => EmptyString
  | x :: r =>
      ("- **Test Files**: " ++ PyStr.of_nat (List.length (x :: r)) ++ nl)%string
  end
  = match l with
    | [] => EmptyString
    | x :: r =>
        ("- **Test Files**: " ++ PyStr.of_nat (List.length (x :: r)) ++ nl)%string
    end.
Proof.
  destruct l as [|x l]; [reflexivity|].
  cbn [List.length repeat]. now rewrite repeat_length.
Qed.

(** X23.  The context prompt is a function of little of the bundle.  It
    is the same for a bundle and for its view, which keeps four numbers
    of the summary, the first three main and utility modules, the
    number of test files, the first three issues of each category and,
    of the first ten records, the path, the line count and the numbers
    of classes and functions of those of type ["Python"].  Nothing else
    reaches the prompt: no suggestion, no feedback, no configuration
    file, none of the architecture's counts, no record after the tenth,
    and of a record of another type only that it takes one of the ten
    places. *)
Theorem context_prompt_shows_a_prefix (path_name : string -> string)
  (analysis_results : bundle) (project_path : string) :
  AnalysisContextManager._create_context_prompt path_name
    (prompt_view analysis_results) project_path
  = AnalysisContextManager._create_context_prompt path_name
      analysis_results project_path.
Proof.
  unfold AnalysisContextManager._create_context_prompt, prompt_view.
  cbv zeta.
  cbn [file_analysis bundle_architecture bundle_issues bundle_summary
         main_modules utils_modules test_files high_complexity_files
         missing_docstrings issue_unused_imports large_files potential_bugs
         sum_total_files sum_total_lines sum_languages sum_issues_count].
  rewrite !issue_block_firstn.
  rewrite firstn_map, map_map.
  rewrite (firstn_firstn (file_analysis analysis_results) 10 10).
  cbn [Nat.min].
  rewrite (map_ext _ _ available_file_shown).
  rewrite (modules_line_firstn "- **Main Modules**: "
             (main_modules (bundle_architecture analysis_results))).
  rewrite (modules_line_firstn "- **Utility Modules**: "
             (utils_modules (bundle_architecture analysis_results))).
  rewrite (test_files_line_length
             (test_files (bundle_architecture analysis_results))).
  reflexivity.
Qed.

(* ================================================================== *)
(** * More on failures and on the import heuristic *)
(* ================================================================== *)

(** X24.  When [stat] fails on file [k], the files before it have a size
    and nobody cancels before it, the run ends with the exception of
    [stat]: it returns no bundle, the records of the files before [k]
    are lost, and the last thing the callback hears is the announcement
    of file [k]. *)
Theorem stat_failure_ends_every_run (parse : string -> result Ast.node)
  (object_str : Ast.node -> string) (format_percent : Q -> string)
  (progress_callback : bool) (cancel_requests : nat -> bool)
  (files : list file) (k : nat) (e : exn) :
  (forall j, j <= k -> cancel_requests j = false) ->
  Forall (fun f => exists size, stat f = Ok size) (firstn k files) ->
  option_map stat (nth_error files k) = Some (Raise e) ->
  let outcome :=
    ProjectAnalyzer.analyze_project parse object_str format_percent
      progress_callback cancel_requests files initial_state in
  snd outcome = Raise e
  /\ trace (fst outcome)
     = note progress_callback "Starting project analysis..."
       ++ loop_events progress_callback (List.length files) 0
            (firstn (S k) files).
Proof.
  intros Hno Hstat Hk. cbv zeta.
  assert (Hrun :
    ProjectAnalyzer.analyze_project parse object_str format_percent
      progress_callback cancel_requests files initial_state
    = ({| flag := false; polls := S k;
          trace := note progress_callback "Starting project analysis..."
                   ++ loop_events progress_callback (List.length files) 0
                        (firstn (S k) files) |},
       Raise e)).
  { unfold ProjectAnalyzer.analyze_project.
    unfold bind at 1. unfold ProjectAnalyzer.clear at 1.
    cbn [initial_state flag polls trace].
    rewrite bind_notify. cbn [flag polls trace app].
    unfold bind at 1.
    rewrite (file_loop_stat_failure parse object_str progress_callback
               cancel_requests (List.length files) k files 0 0 _ [] e
               Hno Hstat Hk).
    reflexivity. }
  rewrite Hrun. split; reflexivity.
Qed.

Lemma stat_failure_ends_every_run_witness :
  let missing := OSError "[Errno 2] No such file or directory" in
  let files :=
    [ {| name := "a.txt"; rel_path := "a.txt"; suffix := ".txt";
         stat := Ok 5; opened := text_of "hello" |};
      {| name := "gone.py"; rel_path := "gone.py"; suffix := ".py";
         stat := Raise missing; opened := Raise missing |} ] in
  snd (ProjectAnalyzer.analyze_project (fun _ => Ok (Ast.Module []))
         (fun _ => EmptyString) (fun _ => EmptyString) false
         (fun _ => false) files initial_state)
  = Raise missing.
Proof.
  intros missing files.
  assert (Hstat : Forall (fun f => exists size, stat f = Ok size)
                    (firstn 1 files))
    by (repeat constructor; exists 5; reflexivity).
  exact (proj1 (stat_failure_ends_every_run (fun _ => Ok (Ast.Module []))
                  (fun _ => EmptyString) (fun _ => EmptyString) false
                  (fun _ => false) files 1 missing
                  (fun _ _ => eq_refl) Hstat eq_refl)).
Defined.

(** X25.  [_detect_unused_imports] flags imports of the tree only, and
    never one whose base name occurs in the text; so an identifier that
    is written out in the text, as it is in the statement that imports
    it, is never flagged. *)
Theorem spelled_imports_are_never_flagged (content : string)
  (tree : Ast.node) (imp : string) :
  (In imp (ProjectAnalyzer._detect_unused_imports content tree) ->
   In imp (flat_map ProjectAnalyzer.import_names (Ast.walk tree))
   /\ PyStr.contains (ProjectAnalyzer.base_name imp) content = false
   /\ PyStr.contains imp content = false)
  /\ (PyStr.contains imp content = true ->
      ~ In imp (ProjectAnalyzer._detect_unused_imports content tree)).
Proof.
  split.
  - intros Hin. split; [|split].
    + unfold ProjectAnalyzer._detect_unused_imports in Hin.
      now apply filter_In in Hin.
    + now apply flagged_base_name_absent in Hin.
    + destruct (PyStr.contains imp content) eqn:E; [|reflexivity].
      exfalso. exact (written_import_not_flagged _ _ _ E Hin).
  - apply written_import_not_flagged.
Qed.
